(** * Change-order lifecycle: checklist validation, record store, decision
    notifications and the HTTP boundary.

    A shallow embedding of [src/lib/change-order-schema.ts],
    [src/lib/change-order-store.ts], the API routes under
    [src/app/api/change-orders] and the lateness check of the team queue
    page, together with the properties of the lifecycle they implement.

    Conventions of the embedding.
    - A JavaScript [number] is an IEEE-754 binary64 value: Rocq's primitive
      [float], with [PrimFloat.add], [PrimFloat.div], [PrimFloat.ltb] and
      [PrimFloat.leb] for [+], [/], [<] and [<=].
    - A JavaScript string is a [string]; code units are restricted to the
      range 0..255 of [ascii].
    - An optional field [f?: T] is an [option T]; [undefined] is [None].
    - The module-level array [store] is a [list] held in the [World], next to
      the readings that the wall clock and [Math.random] will deliver.
    - Built-ins of the JavaScript runtime that the code calls but does not
      define ([Date] parsing and formatting, [Number.prototype.toFixed], the
      regular-expression engine) and the mail transport [~/lib/email] are the
      fields of a [Host]. *)

From Stdlib Require Import PrimFloat SpecFloat FloatOps FloatAxioms Ascii ZArith Lia Sorted.
From stdpp Require Import base strings list pretty.

Local Open Scope Z_scope.

(** ** Strings *)

Definition dq : string := String "034"%char "".
Definition nl : string := String "010"%char "".

(** JavaScript truthiness of a string: every string but the empty one. *)
Definition truthy (s : string) : bool :=
  match s with
  | EmptyString => false
  | String _ _ => true
  end.

(** [a || b] on strings. *)
Definition or_else (a b : string) : string := if truthy a then a else b.

(** [a ?? b] on an optional value. *)
Definition nullish {A : Type} (a : option A) (b : A) : A :=
  match a with
  | Some x => x
  | None => b
  end.

(** White space and line terminators removed by [String.prototype.trim], as far
    as they fall in the code-unit range of [ascii]: TAB, LF, VT, FF, CR, SP
    and NBSP. *)
Definition isWhiteSpace (c : ascii) : bool :=
  match Ascii.nat_of_ascii c with
  | 9%nat | 10%nat | 11%nat | 12%nat | 13%nat | 32%nat | 160%nat => true
  | _ => false
  end.

Fixpoint trimStart (s : string) : string :=
  match s with
  | EmptyString => EmptyString
  | String c s' => if isWhiteSpace c then trimStart s' else s
  end.

Fixpoint trimEnd (s : string) : string :=
  match s with
  | EmptyString => EmptyString
  | String c s' =>
      match trimEnd s' with
      | EmptyString => if isWhiteSpace c then EmptyString else String c EmptyString
      | t => String c t
      end
  end.

Definition trim (s : string) : string := trimEnd (trimStart s).

(** [s.replaceAll(c, by)] for a pattern [c] of one character. *)
Fixpoint replaceAll (c : ascii) (by_ : string) (s : string) : string :=
  match s with
  | EmptyString => EmptyString
  | String x s' =>
      if Ascii.eqb x c then by_ +:+ replaceAll c by_ s' else String x (replaceAll c by_ s')
  end.

(** [lines.join(sep)]. *)
Fixpoint join (sep : string) (l : list string) : string :=
  match l with
  | [] => ""
  | [x] => x
  | x :: l' => x +:+ sep +:+ join sep l'
  end.

(** Occurrence of a character, and of a string, in a string. *)
Fixpoint occurs (c : ascii) (s : string) : bool :=
  match s with
  | EmptyString => false
  | String x s' => Ascii.eqb x c || occurs c s'
  end.

Definition substring_of (s t : string) : Prop :=
  ∃ pre post, t = pre +:+ s +:+ post.

(** ** Data model ([change-order-schema.ts], [change-order-store.ts]) *)

Module LineItem.
Record t := mk {
  description : string;
  quantity : float;
  unitPrice : float;
}.
End LineItem.
Abbreviation LineItem := LineItem.t.

Module ChangeOrderInput.
Record t := mk {
  projectId : string;
  contractorName : string;
  contractorEmail : string;
  workPerformedAt : string;
  scope : string;
  quantity : float;
  unitLabel : string;
  materialCost : float;
  laborCost : float;
  additionalCharges : float;
  additionalChargesReason : string;
  whyNeeded : string;
  whyNotInTurnKey : string;
  photos : list string;
  isMultiItem : bool;
  lineItems : list LineItem;
}.
End ChangeOrderInput.
Abbreviation ChangeOrderInput := ChangeOrderInput.t.

Module ChecklistViolation.
Record t := mk {
  code : string;
  message : string;
}.
End ChecklistViolation.
Abbreviation ChecklistViolation := ChecklistViolation.t.

Module TeamQueueStatus.
Inductive t := NEW | IN_REVIEW | NEEDS_INFO | APPROVED | DENIED.
#[export] Instance eq_dec : EqDecision t.
Proof. solve_decision. Defined.
End TeamQueueStatus.
Abbreviation TeamQueueStatus := TeamQueueStatus.t.

Module DecisionStatus.
Inductive t := PENDING | NEEDS_INFO | APPROVED | DENIED.
#[export] Instance eq_dec : EqDecision t.
Proof. solve_decision. Defined.
End DecisionStatus.
Abbreviation DecisionStatus := DecisionStatus.t.

Module DenialReasonCode.
Inductive t :=
| MISSING_REQUIRED_INFO
| INSUFFICIENT_PHOTO_EVIDENCE
| OUTSIDE_24_HOUR_WINDOW
| DUPLICATE_REQUEST
| PRICING_NOT_JUSTIFIED
| IN_SCOPE_OF_TURNKEY
| OTHER.
#[export] Instance eq_dec : EqDecision t.
Proof. solve_decision. Defined.

(** The string that the code is at run time. *)
Definition to_string (c : t) : string :=
  match c with
  | MISSING_REQUIRED_INFO => "MISSING_REQUIRED_INFO"
  | INSUFFICIENT_PHOTO_EVIDENCE => "INSUFFICIENT_PHOTO_EVIDENCE"
  | OUTSIDE_24_HOUR_WINDOW => "OUTSIDE_24_HOUR_WINDOW"
  | DUPLICATE_REQUEST => "DUPLICATE_REQUEST"
  | PRICING_NOT_JUSTIFIED => "PRICING_NOT_JUSTIFIED"
  | IN_SCOPE_OF_TURNKEY => "IN_SCOPE_OF_TURNKEY"
  | OTHER => "OTHER"
  end.
End DenialReasonCode.
Abbreviation DenialReasonCode := DenialReasonCode.t.

Module DecisionEmailStatus.
Inductive t := PENDING | SENT | FAILED.
#[export] Instance eq_dec : EqDecision t.
Proof. solve_decision. Defined.
End DecisionEmailStatus.
Abbreviation DecisionEmailStatus := DecisionEmailStatus.t.

Module DecisionEmailMode.
Inductive t := smtp | preview.
#[export] Instance eq_dec : EqDecision t.
Proof. solve_decision. Defined.
End DecisionEmailMode.
Abbreviation DecisionEmailMode := DecisionEmailMode.t.

(** The [status] field of a stored record. *)
Module SubmissionStatus.
Inductive t := DRAFT | SUBMITTED | BLOCKED.
#[export] Instance eq_dec : EqDecision t.
Proof. solve_decision. Defined.
End SubmissionStatus.
Abbreviation SubmissionStatus := SubmissionStatus.t.

(** Record update in the style of the object spread. *)
Class Setter {R T : Type} (proj : R → T) := set : T → R → R.
Global Arguments set {R T} proj {_} _ _ /.
Notation "r <| proj := v |>" := (set proj v r)
  (at level 1, left associativity, format "r  <| proj  :=  v |>").

Module StoredChangeOrder.

Record t := mk {
  id : string;
  createdAt : string;
  updatedAt : string;
  submittedAt : option string;
  status : SubmissionStatus;
  input : ChangeOrderInput;
  blockingReasons : option (list string);
  teamStatus : TeamQueueStatus;
  reviewerNotes : string;
  decisionStatus : DecisionStatus;
  decisionAt : option string;
  decisionBy : option string;
  approvedAmount : option float;
  denialReasonCode : option DenialReasonCode;
  decisionExplanation : option string;
  contractorFacingMessage : option string;
  needsInfoChecklist : list string;
  isFinalized : bool;
  decisionEmailStatus : DecisionEmailStatus;
  decisionEmailSentAt : option string;
  decisionEmailTo : option string;
  decisionEmailSubject : option string;
  decisionEmailBody : option string;
  decisionEmailHtml : option string;
  decisionEmailError : option string;
  decisionEmailPreviewUrl : option string;
  decisionEmailMode : option DecisionEmailMode;
}.

(** One instance of [Setter] per field that some operation overwrites: the
    object spread [{ ...r, f: v }] is [r <| f := v |>]. *)
#[export] Instance set_updatedAt : Setter updatedAt := λ v r,
  let 'mk id' createdAt' _ submittedAt' status' input' blockingReasons' teamStatus'
      reviewerNotes' decisionStatus' decisionAt' decisionBy' approvedAmount'
      denialReasonCode' decisionExplanation' contractorFacingMessage'
      needsInfoChecklist' isFinalized' decisionEmailStatus' decisionEmailSentAt'
      decisionEmailTo' decisionEmailSubject' decisionEmailBody' decisionEmailHtml'
      decisionEmailError' decisionEmailPreviewUrl' decisionEmailMode' := r in
  mk id' createdAt' v submittedAt' status' input' blockingReasons' teamStatus'
    reviewerNotes' decisionStatus' decisionAt' decisionBy' approvedAmount'
    denialReasonCode' decisionExplanation' contractorFacingMessage' needsInfoChecklist'
    isFinalized' decisionEmailStatus' decisionEmailSentAt' decisionEmailTo'
    decisionEmailSubject' decisionEmailBody' decisionEmailHtml' decisionEmailError'
    decisionEmailPreviewUrl' decisionEmailMode'.
#[export] Instance set_teamStatus : Setter teamStatus := λ v r,
  let 'mk id' createdAt' updatedAt' submittedAt' status' input' blockingReasons' _
      reviewerNotes' decisionStatus' decisionAt' decisionBy' approvedAmount'
      denialReasonCode' decisionExplanation' contractorFacingMessage'
      needsInfoChecklist' isFinalized' decisionEmailStatus' decisionEmailSentAt'
      decisionEmailTo' decisionEmailSubject' decisionEmailBody' decisionEmailHtml'
      decisionEmailError' decisionEmailPreviewUrl' decisionEmailMode' := r in
  mk id' createdAt' updatedAt' submittedAt' status' input' blockingReasons' v
    reviewerNotes' decisionStatus' decisionAt' decisionBy' approvedAmount'
    denialReasonCode' decisionExplanation' contractorFacingMessage' needsInfoChecklist'
    isFinalized' decisionEmailStatus' decisionEmailSentAt' decisionEmailTo'
    decisionEmailSubject' decisionEmailBody' decisionEmailHtml' decisionEmailError'
    decisionEmailPreviewUrl' decisionEmailMode'.
#[export] Instance set_reviewerNotes : Setter reviewerNotes := λ v r,
  let 'mk id' createdAt' updatedAt' submittedAt' status' input' blockingReasons'
      teamStatus' _ decisionStatus' decisionAt' decisionBy' approvedAmount'
      denialReasonCode' decisionExplanation' contractorFacingMessage'
      needsInfoChecklist' isFinalized' decisionEmailStatus' decisionEmailSentAt'
      decisionEmailTo' decisionEmailSubject' decisionEmailBody' decisionEmailHtml'
      decisionEmailError' decisionEmailPreviewUrl' decisionEmailMode' := r in
  mk id' createdAt' updatedAt' submittedAt' status' input' blockingReasons' teamStatus'
    v decisionStatus' decisionAt' decisionBy' approvedAmount' denialReasonCode'
    decisionExplanation' contractorFacingMessage' needsInfoChecklist' isFinalized'
    decisionEmailStatus' decisionEmailSentAt' decisionEmailTo' decisionEmailSubject'
    decisionEmailBody' decisionEmailHtml' decisionEmailError' decisionEmailPreviewUrl'
    decisionEmailMode'.
#[export] Instance set_decisionStatus : Setter decisionStatus := λ v r,
  let 'mk id' createdAt' updatedAt' submittedAt' status' input' blockingReasons'
      teamStatus' reviewerNotes' _ decisionAt' decisionBy' approvedAmount'
      denialReasonCode' decisionExplanation' contractorFacingMessage'
      needsInfoChecklist' isFinalized' decisionEmailStatus' decisionEmailSentAt'
      decisionEmailTo' decisionEmailSubject' decisionEmailBody' decisionEmailHtml'
      decisionEmailError' decisionEmailPreviewUrl' decisionEmailMode' := r in
  mk id' createdAt' updatedAt' submittedAt' status' input' blockingReasons' teamStatus'
    reviewerNotes' v decisionAt' decisionBy' approvedAmount' denialReasonCode'
    decisionExplanation' contractorFacingMessage' needsInfoChecklist' isFinalized'
    decisionEmailStatus' decisionEmailSentAt' decisionEmailTo' decisionEmailSubject'
    decisionEmailBody' decisionEmailHtml' decisionEmailError' decisionEmailPreviewUrl'
    decisionEmailMode'.
#[export] Instance set_decisionAt : Setter decisionAt := λ v r,
  let 'mk id' createdAt' updatedAt' submittedAt' status' input' blockingReasons'
      teamStatus' reviewerNotes' decisionStatus' _ decisionBy' approvedAmount'
      denialReasonCode' decisionExplanation' contractorFacingMessage'
      needsInfoChecklist' isFinalized' decisionEmailStatus' decisionEmailSentAt'
      decisionEmailTo' decisionEmailSubject' decisionEmailBody' decisionEmailHtml'
      decisionEmailError' decisionEmailPreviewUrl' decisionEmailMode' := r in
  mk id' createdAt' updatedAt' submittedAt' status' input' blockingReasons' teamStatus'
    reviewerNotes' decisionStatus' v decisionBy' approvedAmount' denialReasonCode'
    decisionExplanation' contractorFacingMessage' needsInfoChecklist' isFinalized'
    decisionEmailStatus' decisionEmailSentAt' decisionEmailTo' decisionEmailSubject'
    decisionEmailBody' decisionEmailHtml' decisionEmailError' decisionEmailPreviewUrl'
    decisionEmailMode'.
#[export] Instance set_decisionBy : Setter decisionBy := λ v r,
  let 'mk id' createdAt' updatedAt' submittedAt' status' input' blockingReasons'
      teamStatus' reviewerNotes' decisionStatus' decisionAt' _ approvedAmount'
      denialReasonCode' decisionExplanation' contractorFacingMessage'
      needsInfoChecklist' isFinalized' decisionEmailStatus' decisionEmailSentAt'
      decisionEmailTo' decisionEmailSubject' decisionEmailBody' decisionEmailHtml'
      decisionEmailError' decisionEmailPreviewUrl' decisionEmailMode' := r in
  mk id' createdAt' updatedAt' submittedAt' status' input' blockingReasons' teamStatus'
    reviewerNotes' decisionStatus' decisionAt' v approvedAmount' denialReasonCode'
    decisionExplanation' contractorFacingMessage' needsInfoChecklist' isFinalized'
    decisionEmailStatus' decisionEmailSentAt' decisionEmailTo' decisionEmailSubject'
    decisionEmailBody' decisionEmailHtml' decisionEmailError' decisionEmailPreviewUrl'
    decisionEmailMode'.
#[export] Instance set_approvedAmount : Setter approvedAmount := λ v r,
  let 'mk id' createdAt' updatedAt' submittedAt' status' input' blockingReasons'
      teamStatus' reviewerNotes' decisionStatus' decisionAt' decisionBy' _
      denialReasonCode' decisionExplanation' contractorFacingMessage'
      needsInfoChecklist' isFinalized' decisionEmailStatus' decisionEmailSentAt'
      decisionEmailTo' decisionEmailSubject' decisionEmailBody' decisionEmailHtml'
      decisionEmailError' decisionEmailPreviewUrl' decisionEmailMode' := r in
  mk id' createdAt' updatedAt' submittedAt' status' input' blockingReasons' teamStatus'
    reviewerNotes' decisionStatus' decisionAt' decisionBy' v denialReasonCode'
    decisionExplanation' contractorFacingMessage' needsInfoChecklist' isFinalized'
    decisionEmailStatus' decisionEmailSentAt' decisionEmailTo' decisionEmailSubject'
    decisionEmailBody' decisionEmailHtml' decisionEmailError' decisionEmailPreviewUrl'
    decisionEmailMode'.
#[export] Instance set_denialReasonCode : Setter denialReasonCode := λ v r,
  let 'mk id' createdAt' updatedAt' submittedAt' status' input' blockingReasons'
      teamStatus' reviewerNotes' decisionStatus' decisionAt' decisionBy' approvedAmount'
      _ decisionExplanation' contractorFacingMessage' needsInfoChecklist' isFinalized'
      decisionEmailStatus' decisionEmailSentAt' decisionEmailTo' decisionEmailSubject'
      decisionEmailBody' decisionEmailHtml' decisionEmailError' decisionEmailPreviewUrl'
      decisionEmailMode' := r in
  mk id' createdAt' updatedAt' submittedAt' status' input' blockingReasons' teamStatus'
    reviewerNotes' decisionStatus' decisionAt' decisionBy' approvedAmount' v
    decisionExplanation' contractorFacingMessage' needsInfoChecklist' isFinalized'
    decisionEmailStatus' decisionEmailSentAt' decisionEmailTo' decisionEmailSubject'
    decisionEmailBody' decisionEmailHtml' decisionEmailError' decisionEmailPreviewUrl'
    decisionEmailMode'.
#[export] Instance set_decisionExplanation : Setter decisionExplanation := λ v r,
  let 'mk id' createdAt' updatedAt' submittedAt' status' input' blockingReasons'
      teamStatus' reviewerNotes' decisionStatus' decisionAt' decisionBy' approvedAmount'
      denialReasonCode' _ contractorFacingMessage' needsInfoChecklist' isFinalized'
      decisionEmailStatus' decisionEmailSentAt' decisionEmailTo' decisionEmailSubject'
      decisionEmailBody' decisionEmailHtml' decisionEmailError' decisionEmailPreviewUrl'
      decisionEmailMode' := r in
  mk id' createdAt' updatedAt' submittedAt' status' input' blockingReasons' teamStatus'
    reviewerNotes' decisionStatus' decisionAt' decisionBy' approvedAmount'
    denialReasonCode' v contractorFacingMessage' needsInfoChecklist' isFinalized'
    decisionEmailStatus' decisionEmailSentAt' decisionEmailTo' decisionEmailSubject'
    decisionEmailBody' decisionEmailHtml' decisionEmailError' decisionEmailPreviewUrl'
    decisionEmailMode'.
#[export] Instance set_contractorFacingMessage : Setter contractorFacingMessage := λ v r,
  let 'mk id' createdAt' updatedAt' submittedAt' status' input' blockingReasons'
      teamStatus' reviewerNotes' decisionStatus' decisionAt' decisionBy' approvedAmount'
      denialReasonCode' decisionExplanation' _ needsInfoChecklist' isFinalized'
      decisionEmailStatus' decisionEmailSentAt' decisionEmailTo' decisionEmailSubject'
      decisionEmailBody' decisionEmailHtml' decisionEmailError' decisionEmailPreviewUrl'
      decisionEmailMode' := r in
  mk id' createdAt' updatedAt' submittedAt' status' input' blockingReasons' teamStatus'
    reviewerNotes' decisionStatus' decisionAt' decisionBy' approvedAmount'
    denialReasonCode' decisionExplanation' v needsInfoChecklist' isFinalized'
    decisionEmailStatus' decisionEmailSentAt' decisionEmailTo' decisionEmailSubject'
    decisionEmailBody' decisionEmailHtml' decisionEmailError' decisionEmailPreviewUrl'
    decisionEmailMode'.
#[export] Instance set_needsInfoChecklist : Setter needsInfoChecklist := λ v r,
  let 'mk id' createdAt' updatedAt' submittedAt' status' input' blockingReasons'
      teamStatus' reviewerNotes' decisionStatus' decisionAt' decisionBy' approvedAmount'
      denialReasonCode' decisionExplanation' contractorFacingMessage' _ isFinalized'
      decisionEmailStatus' decisionEmailSentAt' decisionEmailTo' decisionEmailSubject'
      decisionEmailBody' decisionEmailHtml' decisionEmailError' decisionEmailPreviewUrl'
      decisionEmailMode' := r in
  mk id' createdAt' updatedAt' submittedAt' status' input' blockingReasons' teamStatus'
    reviewerNotes' decisionStatus' decisionAt' decisionBy' approvedAmount'
    denialReasonCode' decisionExplanation' contractorFacingMessage' v isFinalized'
    decisionEmailStatus' decisionEmailSentAt' decisionEmailTo' decisionEmailSubject'
    decisionEmailBody' decisionEmailHtml' decisionEmailError' decisionEmailPreviewUrl'
    decisionEmailMode'.
#[export] Instance set_isFinalized : Setter isFinalized := λ v r,
  let 'mk id' createdAt' updatedAt' submittedAt' status' input' blockingReasons'
      teamStatus' reviewerNotes' decisionStatus' decisionAt' decisionBy' approvedAmount'
      denialReasonCode' decisionExplanation' contractorFacingMessage'
      needsInfoChecklist' _ decisionEmailStatus' decisionEmailSentAt' decisionEmailTo'
      decisionEmailSubject' decisionEmailBody' decisionEmailHtml' decisionEmailError'
      decisionEmailPreviewUrl' decisionEmailMode' := r in
  mk id' createdAt' updatedAt' submittedAt' status' input' blockingReasons' teamStatus'
    reviewerNotes' decisionStatus' decisionAt' decisionBy' approvedAmount'
    denialReasonCode' decisionExplanation' contractorFacingMessage' needsInfoChecklist'
    v decisionEmailStatus' decisionEmailSentAt' decisionEmailTo' decisionEmailSubject'
    decisionEmailBody' decisionEmailHtml' decisionEmailError' decisionEmailPreviewUrl'
    decisionEmailMode'.
#[export] Instance set_decisionEmailStatus : Setter decisionEmailStatus := λ v r,
  let 'mk id' createdAt' updatedAt' submittedAt' status' input' blockingReasons'
      teamStatus' reviewerNotes' decisionStatus' decisionAt' decisionBy' approvedAmount'
      denialReasonCode' decisionExplanation' contractorFacingMessage'
      needsInfoChecklist' isFinalized' _ decisionEmailSentAt' decisionEmailTo'
      decisionEmailSubject' decisionEmailBody' decisionEmailHtml' decisionEmailError'
      decisionEmailPreviewUrl' decisionEmailMode' := r in
  mk id' createdAt' updatedAt' submittedAt' status' input' blockingReasons' teamStatus'
    reviewerNotes' decisionStatus' decisionAt' decisionBy' approvedAmount'
    denialReasonCode' decisionExplanation' contractorFacingMessage' needsInfoChecklist'
    isFinalized' v decisionEmailSentAt' decisionEmailTo' decisionEmailSubject'
    decisionEmailBody' decisionEmailHtml' decisionEmailError' decisionEmailPreviewUrl'
    decisionEmailMode'.
#[export] Instance set_decisionEmailSentAt : Setter decisionEmailSentAt := λ v r,
  let 'mk id' createdAt' updatedAt' submittedAt' status' input' blockingReasons'
      teamStatus' reviewerNotes' decisionStatus' decisionAt' decisionBy' approvedAmount'
      denialReasonCode' decisionExplanation' contractorFacingMessage'
      needsInfoChecklist' isFinalized' decisionEmailStatus' _ decisionEmailTo'
      decisionEmailSubject' decisionEmailBody' decisionEmailHtml' decisionEmailError'
      decisionEmailPreviewUrl' decisionEmailMode' := r in
  mk id' createdAt' updatedAt' submittedAt' status' input' blockingReasons' teamStatus'
    reviewerNotes' decisionStatus' decisionAt' decisionBy' approvedAmount'
    denialReasonCode' decisionExplanation' contractorFacingMessage' needsInfoChecklist'
    isFinalized' decisionEmailStatus' v decisionEmailTo' decisionEmailSubject'
    decisionEmailBody' decisionEmailHtml' decisionEmailError' decisionEmailPreviewUrl'
    decisionEmailMode'.
#[export] Instance set_decisionEmailTo : Setter decisionEmailTo := λ v r,
  let 'mk id' createdAt' updatedAt' submittedAt' status' input' blockingReasons'
      teamStatus' reviewerNotes' decisionStatus' decisionAt' decisionBy' approvedAmount'
      denialReasonCode' decisionExplanation' contractorFacingMessage'
      needsInfoChecklist' isFinalized' decisionEmailStatus' decisionEmailSentAt' _
      decisionEmailSubject' decisionEmailBody' decisionEmailHtml' decisionEmailError'
      decisionEmailPreviewUrl' decisionEmailMode' := r in
  mk id' createdAt' updatedAt' submittedAt' status' input' blockingReasons' teamStatus'
    reviewerNotes' decisionStatus' decisionAt' decisionBy' approvedAmount'
    denialReasonCode' decisionExplanation' contractorFacingMessage' needsInfoChecklist'
    isFinalized' decisionEmailStatus' decisionEmailSentAt' v decisionEmailSubject'
    decisionEmailBody' decisionEmailHtml' decisionEmailError' decisionEmailPreviewUrl'
    decisionEmailMode'.
#[export] Instance set_decisionEmailSubject : Setter decisionEmailSubject := λ v r,
  let 'mk id' createdAt' updatedAt' submittedAt' status' input' blockingReasons'
      teamStatus' reviewerNotes' decisionStatus' decisionAt' decisionBy' approvedAmount'
      denialReasonCode' decisionExplanation' contractorFacingMessage'
      needsInfoChecklist' isFinalized' decisionEmailStatus' decisionEmailSentAt'
      decisionEmailTo' _ decisionEmailBody' decisionEmailHtml' decisionEmailError'
      decisionEmailPreviewUrl' decisionEmailMode' := r in
  mk id' createdAt' updatedAt' submittedAt' status' input' blockingReasons' teamStatus'
    reviewerNotes' decisionStatus' decisionAt' decisionBy' approvedAmount'
    denialReasonCode' decisionExplanation' contractorFacingMessage' needsInfoChecklist'
    isFinalized' decisionEmailStatus' decisionEmailSentAt' decisionEmailTo' v
    decisionEmailBody' decisionEmailHtml' decisionEmailError' decisionEmailPreviewUrl'
    decisionEmailMode'.
#[export] Instance set_decisionEmailBody : Setter decisionEmailBody := λ v r,
  let 'mk id' createdAt' updatedAt' submittedAt' status' input' blockingReasons'
      teamStatus' reviewerNotes' decisionStatus' decisionAt' decisionBy' approvedAmount'
      denialReasonCode' decisionExplanation' contractorFacingMessage'
      needsInfoChecklist' isFinalized' decisionEmailStatus' decisionEmailSentAt'
      decisionEmailTo' decisionEmailSubject' _ decisionEmailHtml' decisionEmailError'
      decisionEmailPreviewUrl' decisionEmailMode' := r in
  mk id' createdAt' updatedAt' submittedAt' status' input' blockingReasons' teamStatus'
    reviewerNotes' decisionStatus' decisionAt' decisionBy' approvedAmount'
    denialReasonCode' decisionExplanation' contractorFacingMessage' needsInfoChecklist'
    isFinalized' decisionEmailStatus' decisionEmailSentAt' decisionEmailTo'
    decisionEmailSubject' v decisionEmailHtml' decisionEmailError'
    decisionEmailPreviewUrl' decisionEmailMode'.
#[export] Instance set_decisionEmailHtml : Setter decisionEmailHtml := λ v r,
  let 'mk id' createdAt' updatedAt' submittedAt' status' input' blockingReasons'
      teamStatus' reviewerNotes' decisionStatus' decisionAt' decisionBy' approvedAmount'
      denialReasonCode' decisionExplanation' contractorFacingMessage'
      needsInfoChecklist' isFinalized' decisionEmailStatus' decisionEmailSentAt'
      decisionEmailTo' decisionEmailSubject' decisionEmailBody' _ decisionEmailError'
      decisionEmailPreviewUrl' decisionEmailMode' := r in
  mk id' createdAt' updatedAt' submittedAt' status' input' blockingReasons' teamStatus'
    reviewerNotes' decisionStatus' decisionAt' decisionBy' approvedAmount'
    denialReasonCode' decisionExplanation' contractorFacingMessage' needsInfoChecklist'
    isFinalized' decisionEmailStatus' decisionEmailSentAt' decisionEmailTo'
    decisionEmailSubject' decisionEmailBody' v decisionEmailError'
    decisionEmailPreviewUrl' decisionEmailMode'.
#[export] Instance set_decisionEmailError : Setter decisionEmailError := λ v r,
  let 'mk id' createdAt' updatedAt' submittedAt' status' input' blockingReasons'
      teamStatus' reviewerNotes' decisionStatus' decisionAt' decisionBy' approvedAmount'
      denialReasonCode' decisionExplanation' contractorFacingMessage'
      needsInfoChecklist' isFinalized' decisionEmailStatus' decisionEmailSentAt'
      decisionEmailTo' decisionEmailSubject' decisionEmailBody' decisionEmailHtml' _
      decisionEmailPreviewUrl' decisionEmailMode' := r in
  mk id' createdAt' updatedAt' submittedAt' status' input' blockingReasons' teamStatus'
    reviewerNotes' decisionStatus' decisionAt' decisionBy' approvedAmount'
    denialReasonCode' decisionExplanation' contractorFacingMessage' needsInfoChecklist'
    isFinalized' decisionEmailStatus' decisionEmailSentAt' decisionEmailTo'
    decisionEmailSubject' decisionEmailBody' decisionEmailHtml' v
    decisionEmailPreviewUrl' decisionEmailMode'.
#[export] Instance set_decisionEmailPreviewUrl : Setter decisionEmailPreviewUrl := λ v r,
  let 'mk id' createdAt' updatedAt' submittedAt' status' input' blockingReasons'
      teamStatus' reviewerNotes' decisionStatus' decisionAt' decisionBy' approvedAmount'
      denialReasonCode' decisionExplanation' contractorFacingMessage'
      needsInfoChecklist' isFinalized' decisionEmailStatus' decisionEmailSentAt'
      decisionEmailTo' decisionEmailSubject' decisionEmailBody' decisionEmailHtml'
      decisionEmailError' _ decisionEmailMode' := r in
  mk id' createdAt' updatedAt' submittedAt' status' input' blockingReasons' teamStatus'
    reviewerNotes' decisionStatus' decisionAt' decisionBy' approvedAmount'
    denialReasonCode' decisionExplanation' contractorFacingMessage' needsInfoChecklist'
    isFinalized' decisionEmailStatus' decisionEmailSentAt' decisionEmailTo'
    decisionEmailSubject' decisionEmailBody' decisionEmailHtml' decisionEmailError' v
    decisionEmailMode'.
#[export] Instance set_decisionEmailMode : Setter decisionEmailMode := λ v r,
  let 'mk id' createdAt' updatedAt' submittedAt' status' input' blockingReasons'
      teamStatus' reviewerNotes' decisionStatus' decisionAt' decisionBy' approvedAmount'
      denialReasonCode' decisionExplanation' contractorFacingMessage'
      needsInfoChecklist' isFinalized' decisionEmailStatus' decisionEmailSentAt'
      decisionEmailTo' decisionEmailSubject' decisionEmailBody' decisionEmailHtml'
      decisionEmailError' decisionEmailPreviewUrl' _ := r in
  mk id' createdAt' updatedAt' submittedAt' status' input' blockingReasons' teamStatus'
    reviewerNotes' decisionStatus' decisionAt' decisionBy' approvedAmount'
    denialReasonCode' decisionExplanation' contractorFacingMessage' needsInfoChecklist'
    isFinalized' decisionEmailStatus' decisionEmailSentAt' decisionEmailTo'
    decisionEmailSubject' decisionEmailBody' decisionEmailHtml' decisionEmailError'
    decisionEmailPreviewUrl' v.
End StoredChangeOrder.
Abbreviation StoredChangeOrder := StoredChangeOrder.t.
Export (hints) TeamQueueStatus DecisionStatus DenialReasonCode DecisionEmailStatus
  DecisionEmailMode SubmissionStatus StoredChangeOrder.

(** ** Checklist validator ([change-order-schema.ts]) *)

(** [violations.push(v)]. *)
Definition push {A : Type} (l : list A) (x : A) : list A := l ++ [x].

(** The body of the loop [for (const [index, lineItem] of input.lineItems.entries())],
    run from position [index] on. *)
Fixpoint lineItemViolations (index : nat) (lineItems : list LineItem)
    (violations : list ChecklistViolation) : list ChecklistViolation :=
  match lineItems with
  | [] => violations
  | lineItem :: rest =>
      let violations :=
        if negb (truthy (trim (LineItem.description lineItem)))
           || (LineItem.quantity lineItem <=? 0)%float
           || (LineItem.unitPrice lineItem <? 0)%float
        then push violations
               {| ChecklistViolation.code :=
                    "line_item_" +:+ pretty (index + 1)%nat +:+ "_invalid";
                  ChecklistViolation.message :=
                    "Line item " +:+ pretty (index + 1)%nat
                    +:+ " needs description, quantity, and unit price." |}
        else violations in
      lineItemViolations (S index) rest violations
  end.

Definition totalCost (input : ChangeOrderInput) : float :=
  (ChangeOrderInput.materialCost input + ChangeOrderInput.laborCost input
   + ChangeOrderInput.additionalCharges input)%float.

Definition evaluateChecklist (input : ChangeOrderInput) : list ChecklistViolation :=
  let violations : list ChecklistViolation := [] in
  let totalCost := totalCost input in
  let violations :=
    if negb (truthy (trim (ChangeOrderInput.scope input)))
    then push violations
           {| ChecklistViolation.code := "scope_missing";
              ChecklistViolation.message := "Scope of change order is required." |}
    else violations in
  let violations :=
    if (ChangeOrderInput.quantity input <=? 0)%float
    then push violations
           {| ChecklistViolation.code := "quantity_missing";
              ChecklistViolation.message := "Quantity/area/amount must be greater than 0." |}
    else violations in
  let violations :=
    if (ChangeOrderInput.materialCost input <? 0)%float
       || (ChangeOrderInput.laborCost input <? 0)%float
    then push violations
           {| ChecklistViolation.code := "pricing_invalid";
              ChecklistViolation.message :=
                "Labor and material pricing must be included and non-negative." |}
    else violations in
  let violations :=
    if (0 <? ChangeOrderInput.additionalCharges input)%float
       && negb (truthy (trim (ChangeOrderInput.additionalChargesReason input)))
    then push violations
           {| ChecklistViolation.code := "additional_charges_reason_missing";
              ChecklistViolation.message :=
                "Additional charges must include a clear explanation." |}
    else violations in
  let violations :=
    if (0 <? ChangeOrderInput.quantity input)%float
       && (totalCost / ChangeOrderInput.quantity input <=? 0)%float
    then push violations
           {| ChecklistViolation.code := "unit_price_unclear";
              ChecklistViolation.message :=
                "Price per unit must be determinable and greater than 0." |}
    else violations in
  let violations :=
    if negb (truthy (trim (ChangeOrderInput.whyNeeded input)))
    then push violations
           {| ChecklistViolation.code := "justification_missing";
              ChecklistViolation.message := "Include why this change order is needed." |}
    else violations in
  let violations :=
    if negb (truthy (trim (ChangeOrderInput.whyNotInTurnKey input)))
    then push violations
           {| ChecklistViolation.code := "turnkey_justification_missing";
              ChecklistViolation.message :=
                "Include why this charge was not in turn-key pricing." |}
    else violations in
  let violations :=
    if (length (ChangeOrderInput.photos input) =? 0)%nat
    then push violations
           {| ChecklistViolation.code := "photos_missing";
              ChecklistViolation.message := "At least one supporting photo is required." |}
    else violations in
  if ChangeOrderInput.isMultiItem input then
    let violations :=
      if (length (ChangeOrderInput.lineItems input) <? 2)%nat
      then push violations
             {| ChecklistViolation.code := "line_items_missing";
                ChecklistViolation.message :=
                  "Multiple-item change orders require at least two line items." |}
      else violations in
    lineItemViolations 0 (ChangeOrderInput.lineItems input) violations
  else violations.

(** The second argument of [updateTeamQueueItem]. *)
Module QueueUpdates.
Record t := mk {
  teamStatus : option TeamQueueStatus;
  reviewerNotes : option string;
}.
End QueueUpdates.
Abbreviation QueueUpdates := QueueUpdates.t.

(** The second argument of [updateDecisionEmailDelivery]. *)
Module Delivery.
Record t := mk {
  status : DecisionEmailStatus;
  error : option string;
  previewUrl : option string;
  sentAt : option string;
  mode : option DecisionEmailMode;
}.
End Delivery.
Abbreviation Delivery := Delivery.t.

(** The tagged union [DecisionInput]. *)
Inductive DecisionInput :=
| NEEDS_INFO (decidedBy decisionExplanation : string)
    (contractorFacingMessage : option string) (needsInfoChecklist : list string)
| APPROVE (decidedBy : string) (approvedAmount : float) (decisionExplanation : string)
    (contractorFacingMessage : option string)
| DENY (decidedBy : string) (denialReasonCode : DenialReasonCode)
    (decisionExplanation : string) (contractorFacingMessage : option string).

Definition decidedBy (d : DecisionInput) : string :=
  match d with
  | NEEDS_INFO by_ _ _ _ | APPROVE by_ _ _ _ | DENY by_ _ _ _ => by_
  end.

Definition decisionExplanation (d : DecisionInput) : string :=
  match d with
  | NEEDS_INFO _ e _ _ | APPROVE _ _ e _ | DENY _ _ e _ => e
  end.

Definition contractorFacingMessage (d : DecisionInput) : option string :=
  match d with
  | NEEDS_INFO _ _ m _ | APPROVE _ _ _ m | DENY _ _ _ m => m
  end.

(** The result of [buildDecisionEmailContent]. *)
Module EmailContent.
Record t := mk {
  subject : string;
  body : string;
  html : string;
}.
End EmailContent.
Abbreviation EmailContent := EmailContent.t.

(** The body of a decision request, of the shape that [decisionSchema]
    describes, with the defaults of the schema filled in. *)
Inductive DecisionPayload :=
| NEEDS_INFO_payload (decidedBy decisionExplanation contractorFacingMessage : string)
    (needsInfoChecklist : list string)
| APPROVE_payload (decidedBy : string) (approvedAmount : float)
    (decisionExplanation contractorFacingMessage : string)
    (acknowledgeLateSubmission isLate : bool)
| DENY_payload (decidedBy : string) (denialReasonCode : DenialReasonCode)
    (decisionExplanation contractorFacingMessage : string).

(** Responses of [POST /api/change-orders/submit]. *)
Inductive SubmitResponse :=
| Submit_invalid_422
| Submit_blocked_422 (changeOrder : StoredChangeOrder) (reasons : list string)
| Submit_ok_200 (changeOrder : StoredChangeOrder).

(** Responses of [PATCH /api/change-orders/[id]]. *)
Inductive UpdateResponse :=
| Update_not_found_404
| Update_ok_200 (changeOrder : StoredChangeOrder).

(** Responses of [POST /api/change-orders/[id]/decision]. *)
Inductive DecisionResponse :=
| Decision_not_found_404
| Decision_not_submitted_422
| Decision_invalid_400
| Decision_late_unacknowledged_422
| Decision_ok_200 (changeOrder : StoredChangeOrder) (emailStatus : DecisionEmailStatus)
    (emailPreviewUrl : option string).

(** ** The runtime and the world *)

Module EmailMessage.
Record t := mk {
  to : string;
  subject : string;
  text : string;
  html : option string;
}.
End EmailMessage.
Abbreviation EmailMessage := EmailMessage.t.

Module EmailResult.
Record t := mk {
  sent : bool;
  mode : option DecisionEmailMode;
  previewUrl : option string;
  error : option string;
}.
End EmailResult.
Abbreviation EmailResult := EmailResult.t.

(** What the code calls and does not define. *)
Record Host := {
  (** [new Date(s).getTime()], in milliseconds since the epoch; [None] is NaN
      (an invalid date). *)
  Date_parse : string → option Z;
  (** [Date.prototype.toISOString] of the date with that time value. *)
  toISOString : Z → string;
  (** [Number.prototype.toFixed] with two digits. *)
  toFixed2 : float → string;
  (** [strictEmailRegex.test]. *)
  strictEmailRegex_test : string → bool;
  (** The check of zod's [z.string().email()]. *)
  zodEmail_test : string → bool;
  (** [sendDecisionEmail] of [~/lib/email]. *)
  sendDecisionEmail : EmailMessage → EmailResult;
}.

(** The state that the operations read and write: the module-level [store],
    the readings that the wall clock will deliver, in milliseconds, and the
    values that [Math.floor(Math.random() * 1000)] will take. *)
Record World := {
  store : list StoredChangeOrder;
  clock : nat → Z;
  dice : nat → N;
}.

(** Computations over the world. *)
Definition M (A : Type) : Type := World → A * World.

#[global] Instance M_ret : MRet M := λ A a w, (a, w).
#[global] Instance M_bind : MBind M := λ A B f m w, f (m w).1 (m w).2.

(** [Date.now()]: the next reading of the clock. *)
Definition Date_now : M Z := λ w,
  (clock w 0%nat, {| store := store w; clock := λ n, clock w (S n); dice := dice w |}).

(** [Math.floor(Math.random() * 1000)]: the next draw. *)
Definition random1000 : M N := λ w,
  (dice w 0%nat, {| store := store w; clock := clock w; dice := λ n, dice w (S n) |}).

Definition getStore : M (list StoredChangeOrder) := λ w, (store w, w).

Definition putStore (s : list StoredChangeOrder) : M unit := λ w,
  (tt, {| store := s; clock := clock w; dice := dice w |}).

Section Program.
Context (host : Host).

(** [new Date().toISOString()]. *)
Definition nowISOString : M string :=
  t ← Date_now; mret (toISOString host t).

Definition dayMs : Z := 24 * 60 * 60 * 1000.

Definition isPast24Hours (workPerformedAtIso : string) : M bool :=
  match Date_parse host workPerformedAtIso with
  | None => mret true
  | Some workPerformedAt =>
      now ← Date_now;
      let elapsedMs := now - workPerformedAt in
      mret (elapsedMs >? dayMs)
  end.

(** ** The record store ([change-order-store.ts]) *)

(** [Array.prototype.findIndex]; the result -1 is [None]. *)
Fixpoint findIndex {A : Type} (p : A → bool) (l : list A) : option nat :=
  match l with
  | [] => None
  | x :: l' => if p x then Some 0%nat else S <$> findIndex p l'
  end.

(** [Array.prototype.find]. *)
Fixpoint find {A : Type} (p : A → bool) (l : list A) : option A :=
  match l with
  | [] => None
  | x :: l' => if p x then Some x else find p l'
  end.

Definition hasId (id : string) (item : StoredChangeOrder) : bool :=
  String.eqb (StoredChangeOrder.id item) id.

(** The defaults [?? ...] of the source apply to fields that a record of the
    declared type always has; what remains is the case analysis on
    [teamStatus]. *)
Definition normalizeRecord (record : StoredChangeOrder) : StoredChangeOrder :=
  record <| StoredChangeOrder.teamStatus :=
    match StoredChangeOrder.teamStatus record with
    | TeamQueueStatus.DENIED => TeamQueueStatus.DENIED
    | TeamQueueStatus.APPROVED => TeamQueueStatus.APPROVED
    | TeamQueueStatus.NEEDS_INFO => TeamQueueStatus.NEEDS_INFO
    | TeamQueueStatus.IN_REVIEW => TeamQueueStatus.IN_REVIEW
    | TeamQueueStatus.NEW => TeamQueueStatus.NEW
    end |>.

Definition listChangeOrders : M (list StoredChangeOrder) :=
  s ← getStore; mret (reverse (normalizeRecord <$> s)).

Definition getChangeOrderById (id : string) : M (option StoredChangeOrder) :=
  s ← getStore; mret (normalizeRecord <$> find (hasId id) s).

(** The identifier [co_${Date.now()}_${Math.floor(Math.random() * 1000)}]. *)
Definition mintId (now : Z) (draw : N) : string :=
  "co_" +:+ pretty now +:+ "_" +:+ pretty draw.

Definition newId : M string :=
  now ← Date_now; draw ← random1000; mret (mintId now draw).

Definition saveDraft (input : ChangeOrderInput) : M StoredChangeOrder :=
  id ← newId;
  createdAt ← nowISOString;
  updatedAt ← nowISOString;
  let record :=
    {| StoredChangeOrder.id := id;
       StoredChangeOrder.createdAt := createdAt;
       StoredChangeOrder.updatedAt := updatedAt;
       StoredChangeOrder.submittedAt := None;
       StoredChangeOrder.status := SubmissionStatus.DRAFT;
       StoredChangeOrder.input := input;
       StoredChangeOrder.blockingReasons := None;
       StoredChangeOrder.teamStatus := TeamQueueStatus.NEW;
       StoredChangeOrder.reviewerNotes := "";
       StoredChangeOrder.decisionStatus := DecisionStatus.PENDING;
       StoredChangeOrder.decisionAt := None;
       StoredChangeOrder.decisionBy := None;
       StoredChangeOrder.approvedAmount := None;
       StoredChangeOrder.denialReasonCode := None;
       StoredChangeOrder.decisionExplanation := None;
       StoredChangeOrder.contractorFacingMessage := None;
       StoredChangeOrder.needsInfoChecklist := [];
       StoredChangeOrder.isFinalized := false;
       StoredChangeOrder.decisionEmailStatus := DecisionEmailStatus.PENDING;
       StoredChangeOrder.decisionEmailSentAt := None;
       StoredChangeOrder.decisionEmailTo := None;
       StoredChangeOrder.decisionEmailSubject := None;
       StoredChangeOrder.decisionEmailBody := None;
       StoredChangeOrder.decisionEmailHtml := None;
       StoredChangeOrder.decisionEmailError := None;
       StoredChangeOrder.decisionEmailPreviewUrl := None;
       StoredChangeOrder.decisionEmailMode := None |} in
  s ← getStore;
  putStore (push s record);;
  mret record.

Definition saveSubmission (input : ChangeOrderInput) : M StoredChangeOrder :=
  id ← newId;
  createdAt ← nowISOString;
  updatedAt ← nowISOString;
  submittedAt ← nowISOString;
  let record :=
    {| StoredChangeOrder.id := id;
       StoredChangeOrder.createdAt := createdAt;
       StoredChangeOrder.updatedAt := updatedAt;
       StoredChangeOrder.submittedAt := Some submittedAt;
       StoredChangeOrder.status := SubmissionStatus.SUBMITTED;
       StoredChangeOrder.input := input;
       StoredChangeOrder.blockingReasons := None;
       StoredChangeOrder.teamStatus := TeamQueueStatus.NEW;
       StoredChangeOrder.reviewerNotes := "";
       StoredChangeOrder.decisionStatus := DecisionStatus.PENDING;
       StoredChangeOrder.decisionAt := None;
       StoredChangeOrder.decisionBy := None;
       StoredChangeOrder.approvedAmount := None;
       StoredChangeOrder.denialReasonCode := None;
       StoredChangeOrder.decisionExplanation := None;
       StoredChangeOrder.contractorFacingMessage := None;
       StoredChangeOrder.needsInfoChecklist := [];
       StoredChangeOrder.isFinalized := false;
       StoredChangeOrder.decisionEmailStatus := DecisionEmailStatus.PENDING;
       StoredChangeOrder.decisionEmailSentAt := None;
       StoredChangeOrder.decisionEmailTo := None;
       StoredChangeOrder.decisionEmailSubject := None;
       StoredChangeOrder.decisionEmailBody := None;
       StoredChangeOrder.decisionEmailHtml := None;
       StoredChangeOrder.decisionEmailError := None;
       StoredChangeOrder.decisionEmailPreviewUrl := None;
       StoredChangeOrder.decisionEmailMode := None |} in
  s ← getStore;
  putStore (push s record);;
  mret record.

Definition saveBlocked (input : ChangeOrderInput) (blockingReasons : list string)
    : M StoredChangeOrder :=
  id ← newId;
  createdAt ← nowISOString;
  updatedAt ← nowISOString;
  let record :=
    {| StoredChangeOrder.id := id;
       StoredChangeOrder.createdAt := createdAt;
       StoredChangeOrder.updatedAt := updatedAt;
       StoredChangeOrder.submittedAt := None;
       StoredChangeOrder.status := SubmissionStatus.BLOCKED;
       StoredChangeOrder.input := input;
       StoredChangeOrder.blockingReasons := Some blockingReasons;
       StoredChangeOrder.teamStatus := TeamQueueStatus.NEW;
       StoredChangeOrder.reviewerNotes := "";
       StoredChangeOrder.decisionStatus := DecisionStatus.PENDING;
       StoredChangeOrder.decisionAt := None;
       StoredChangeOrder.decisionBy := None;
       StoredChangeOrder.approvedAmount := None;
       StoredChangeOrder.denialReasonCode := None;
       StoredChangeOrder.decisionExplanation := None;
       StoredChangeOrder.contractorFacingMessage := None;
       StoredChangeOrder.needsInfoChecklist := [];
       StoredChangeOrder.isFinalized := false;
       StoredChangeOrder.decisionEmailStatus := DecisionEmailStatus.PENDING;
       StoredChangeOrder.decisionEmailSentAt := None;
       StoredChangeOrder.decisionEmailTo := None;
       StoredChangeOrder.decisionEmailSubject := None;
       StoredChangeOrder.decisionEmailBody := None;
       StoredChangeOrder.decisionEmailHtml := None;
       StoredChangeOrder.decisionEmailError := None;
       StoredChangeOrder.decisionEmailPreviewUrl := None;
       StoredChangeOrder.decisionEmailMode := None |} in
  s ← getStore;
  putStore (push s record);;
  mret record.

(** [store[index]] is read after [findIndex] has returned [index], a position
    of the array; the branch for a position outside the array is never
    taken (lemma [findIndex_lookup]). *)
Definition updateTeamQueueItem (id : string) (updates : QueueUpdates)
    : M (option StoredChangeOrder) :=
  s ← getStore;
  match findIndex (hasId id) s with
  | None => mret None
  | Some index =>
      match s !! index with
      | None => mret None
      | Some current =>
          if StoredChangeOrder.isFinalized current then mret (Some current)
          else
            updatedAt ← nowISOString;
            let next :=
              current
                <| StoredChangeOrder.teamStatus :=
                     nullish (QueueUpdates.teamStatus updates)
                       (StoredChangeOrder.teamStatus current) |>
                <| StoredChangeOrder.reviewerNotes :=
                     nullish (QueueUpdates.reviewerNotes updates)
                       (StoredChangeOrder.reviewerNotes current) |>
                <| StoredChangeOrder.updatedAt := updatedAt |> in
            putStore (<[index := next]> s);;
            mret (Some next)
      end
  end.

(** *** Decision notifications *)

Definition escapeHtml (value : string) : string :=
  replaceAll "'" "&#39;"
    (replaceAll "034" "&quot;"
      (replaceAll ">" "&gt;"
        (replaceAll "<" "&lt;"
          (replaceAll "&" "&amp;" value)))).

(** Template text is written with a backquote where the source has a double
    quote; a template literal of the source holds no backquote. *)
Definition tpl (s : string) : string := replaceAll "`" dq s.

Definition baseHeader : string :=
  nl +:+ tpl "    <div style=`padding:16px 20px;background:#ffffff;border-bottom:1px solid #dbeafe;`>"
    +:+ nl +:+ tpl "      <img src=`cid:remi-logo@change-order` alt=`Remi` style=`height:24px;display:block;` />"
    +:+ nl +:+ "    </div>"
    +:+ nl +:+ "  ".

Definition baseFooter (projectLabel : string) : string :=
  nl +:+ tpl "    <div style=`padding:14px 20px;border-top:1px solid #dbeafe;background:#f8fbff;color:#64748b;font-size:12px;line-height:1.5;`>"
    +:+ nl +:+ "      Remi Change Orders Team<br/>"
    +:+ nl +:+ "      This message was sent for project " +:+ escapeHtml projectLabel +:+ "."
    +:+ nl +:+ "    </div>"
    +:+ nl +:+ "  ".

Definition wrapHtml (baseHeader baseFooter inner : string) : string :=
  nl +:+ tpl "    <div style=`background:#f2f7ff;padding:20px;font-family:Inter,Segoe UI,Arial,sans-serif;`>"
    +:+ nl +:+ tpl "      <div style=`max-width:640px;margin:0 auto;border:1px solid #dbeafe;border-radius:12px;overflow:hidden;background:#ffffff;`>"
    +:+ nl +:+ "        " +:+ baseHeader
    +:+ nl +:+ tpl "        <div style=`padding:20px;`>"
    +:+ nl +:+ "          " +:+ inner
    +:+ nl +:+ "        </div>"
    +:+ nl +:+ "        " +:+ baseFooter
    +:+ nl +:+ "      </div>"
    +:+ nl +:+ "    </div>"
    +:+ nl +:+ "  ".

(** The conditional [messageBlock ? `<p ...>${messageBlock}</p>` : ""], which
    the three branches of [buildDecisionEmailContent] repeat. *)
Definition messageParagraph (messageBlock : string) : string :=
  if truthy messageBlock
  then tpl "<p style=`margin:0;color:#0f172a;font-size:14px;white-space:pre-wrap;`><strong>Message from Remi:</strong><br/>" +:+ messageBlock +:+ "</p>"
  else "".

(** The conditional [record.contractorFacingMessage ? `\n\nMessage from
    Remi:\n${record.contractorFacingMessage}` : ""] of the three plain-text
    bodies. *)
Definition messageLines (contractorFacingMessage : option string) : string :=
  match contractorFacingMessage with
  | Some m => if truthy m then nl +:+ nl +:+ "Message from Remi:" +:+ nl +:+ m else ""
  | None => ""
  end.

(** The constant [decisionLabel] of the source is computed and never used; it
    is left out. The two interpolations
    [record.approvedAmount?.toFixed(2) ?? "0.00"] and
    [record.denialReasonCode || "N/A"], which the source writes in place, are
    named [approvedAmountText] and [denialReasonText]. A decision status
    other than [APPROVED] and [DENIED] falls through to the last branch. *)
Definition buildDecisionEmailContent (record : StoredChangeOrder) : EmailContent :=
  let projectLabel :=
    or_else (ChangeOrderInput.projectId (StoredChangeOrder.input record)) "your project" in
  let contractorName :=
    or_else (ChangeOrderInput.contractorName (StoredChangeOrder.input record)) "Contractor" in
  let accentColor :=
    match StoredChangeOrder.decisionStatus record with
    | DecisionStatus.DENIED => "#be123c"
    | DecisionStatus.APPROVED => "#166534"
    | _ => "#0f4f8b"
    end in
  let messageBlock :=
    escapeHtml (or_else (nullish (StoredChangeOrder.contractorFacingMessage record) "") "") in
  let messageParagraph := messageParagraph messageBlock in
  let baseFooter := baseFooter projectLabel in
  let wrapHtml := wrapHtml baseHeader baseFooter in
  let approvedAmountText :=
    match StoredChangeOrder.approvedAmount record with
    | Some amount => toFixed2 host amount
    | None => "0.00"
    end in
  let denialReasonText :=
    match StoredChangeOrder.denialReasonCode record with
    | Some code => or_else (DenialReasonCode.to_string code) "N/A"
    | None => "N/A"
    end in
  match StoredChangeOrder.decisionStatus record with
  | DecisionStatus.APPROVED =>
      let subject := "Change order approved - " +:+ projectLabel in
      let body :=
        "Hello " +:+ contractorName +:+ ","
        +:+ nl +:+ nl +:+ "Your change order has been approved."
        +:+ nl +:+ "Project: " +:+ projectLabel
        +:+ nl +:+ "Approved amount: $" +:+ approvedAmountText
        +:+ messageLines (StoredChangeOrder.contractorFacingMessage record)
        +:+ nl +:+ nl +:+ "Thank you," +:+ nl +:+ "Remi Change Orders Team" in
      let html := wrapHtml (
        nl +:+ tpl "      <p style=`margin:0 0 12px;color:#0f172a;font-size:16px;`>Hello " +:+ escapeHtml contractorName +:+ ",</p>"
        +:+ nl +:+ tpl "      <p style=`margin:0 0 14px;color:#0f172a;font-size:15px;`>"
        +:+ nl +:+ tpl "        Your change order has been <strong style=`color:" +:+ accentColor +:+ tpl ";`>approved</strong>."
        +:+ nl +:+ "      </p>"
        +:+ nl +:+ tpl "      <div style=`border:1px solid #dcfce7;background:#f0fdf4;border-radius:8px;padding:12px 14px;margin:0 0 14px;`>"
        +:+ nl +:+ tpl "        <p style=`margin:0;color:#14532d;font-size:14px;`><strong>Project:</strong> " +:+ escapeHtml projectLabel +:+ "</p>"
        +:+ nl +:+ tpl "        <p style=`margin:8px 0 0;color:#14532d;font-size:14px;`><strong>Approved amount:</strong> $" +:+ approvedAmountText +:+ "</p>"
        +:+ nl +:+ "      </div>"
        +:+ nl +:+ "      " +:+ messageParagraph
        +:+ nl +:+ "    ") in
      {| EmailContent.subject := subject; EmailContent.body := body;
         EmailContent.html := html |}
  | DecisionStatus.DENIED =>
      let subject := "Change order denied - " +:+ projectLabel in
      let body :=
        "Hello " +:+ contractorName +:+ ","
        +:+ nl +:+ nl +:+ "Your change order has been denied."
        +:+ nl +:+ "Project: " +:+ projectLabel
        +:+ nl +:+ "Reason: " +:+ denialReasonText
        +:+ messageLines (StoredChangeOrder.contractorFacingMessage record)
        +:+ nl +:+ nl +:+ "Thank you," +:+ nl +:+ "Remi Change Orders Team" in
      let html := wrapHtml (
        nl +:+ tpl "      <p style=`margin:0 0 12px;color:#0f172a;font-size:16px;`>Hello " +:+ escapeHtml contractorName +:+ ",</p>"
        +:+ nl +:+ tpl "      <p style=`margin:0 0 14px;color:#0f172a;font-size:15px;`>"
        +:+ nl +:+ tpl "        Your change order has been <strong style=`color:" +:+ accentColor +:+ tpl ";`>denied</strong>."
        +:+ nl +:+ "      </p>"
        +:+ nl +:+ tpl "      <div style=`border:1px solid #fecdd3;background:#fff1f2;border-radius:8px;padding:12px 14px;margin:0 0 14px;`>"
        +:+ nl +:+ tpl "        <p style=`margin:0;color:#9f1239;font-size:14px;`><strong>Project:</strong> " +:+ escapeHtml projectLabel +:+ "</p>"
        +:+ nl +:+ tpl "        <p style=`margin:8px 0 0;color:#9f1239;font-size:14px;`><strong>Reason code:</strong> " +:+ escapeHtml denialReasonText +:+ "</p>"
        +:+ nl +:+ "      </div>"
        +:+ nl +:+ "      " +:+ messageParagraph
        +:+ nl +:+ "    ") in
      {| EmailContent.subject := subject; EmailContent.body := body;
         EmailContent.html := html |}
  | _ =>
      let requestedItems :=
        if (0 <? length (StoredChangeOrder.needsInfoChecklist record))%nat
        then join nl ((λ line, "- " +:+ line) <$> StoredChangeOrder.needsInfoChecklist record)
        else "- Additional details requested." in
      let subject := "More information needed - " +:+ projectLabel in
      let body :=
        "Hello " +:+ contractorName +:+ ","
        +:+ nl +:+ nl +:+ "We need more information to review your change order."
        +:+ nl +:+ "Project: " +:+ projectLabel
        +:+ nl +:+ nl +:+ "Requested items:" +:+ nl +:+ requestedItems
        +:+ messageLines (StoredChangeOrder.contractorFacingMessage record)
        +:+ nl +:+ nl +:+ "Thank you," +:+ nl +:+ "Remi Change Orders Team" in
      let listHtml :=
        if (0 <? length (StoredChangeOrder.needsInfoChecklist record))%nat
        then tpl "<ul style=`margin:8px 0 0 18px;padding:0;color:#0f4f8b;font-size:14px;`>"
             +:+ join ""
                   ((λ line, tpl "<li style=`margin:0 0 6px;`>" +:+ escapeHtml line +:+ "</li>")
                      <$> StoredChangeOrder.needsInfoChecklist record)
             +:+ "</ul>"
        else tpl "<p style=`margin:8px 0 0;color:#0f4f8b;font-size:14px;`>Additional details requested.</p>" in
      let html := wrapHtml (
        nl +:+ tpl "    <p style=`margin:0 0 12px;color:#0f172a;font-size:16px;`>Hello " +:+ escapeHtml contractorName +:+ ",</p>"
        +:+ nl +:+ tpl "    <p style=`margin:0 0 14px;color:#0f172a;font-size:15px;`>"
        +:+ nl +:+ tpl "      We need <strong style=`color:" +:+ accentColor +:+ tpl ";`>more information</strong> to review your change order."
        +:+ nl +:+ "    </p>"
        +:+ nl +:+ tpl "    <div style=`border:1px solid #bfdbfe;background:#eff6ff;border-radius:8px;padding:12px 14px;margin:0 0 14px;`>"
        +:+ nl +:+ tpl "      <p style=`margin:0;color:#0f4f8b;font-size:14px;`><strong>Project:</strong> " +:+ escapeHtml projectLabel +:+ "</p>"
        +:+ nl +:+ tpl "      <p style=`margin:8px 0 0;color:#0f4f8b;font-size:14px;`><strong>Requested items:</strong></p>"
        +:+ nl +:+ "      " +:+ listHtml
        +:+ nl +:+ "    </div>"
        +:+ nl +:+ "    " +:+ messageParagraph
        +:+ nl +:+ "  ") in
      {| EmailContent.subject := subject; EmailContent.body := body;
         EmailContent.html := html |}
  end.

Definition prepareDecisionEmail (record : StoredChangeOrder) : StoredChangeOrder :=
  let to := trim (ChangeOrderInput.contractorEmail (StoredChangeOrder.input record)) in
  let content := buildDecisionEmailContent record in
  record
    <| StoredChangeOrder.decisionEmailStatus := DecisionEmailStatus.PENDING |>
    <| StoredChangeOrder.decisionEmailSentAt := None |>
    <| StoredChangeOrder.decisionEmailTo := Some to |>
    <| StoredChangeOrder.decisionEmailSubject := Some (EmailContent.subject content) |>
    <| StoredChangeOrder.decisionEmailBody := Some (EmailContent.body content) |>
    <| StoredChangeOrder.decisionEmailHtml := Some (EmailContent.html content) |>
    <| StoredChangeOrder.decisionEmailError := None |>
    <| StoredChangeOrder.decisionEmailPreviewUrl := None |>.

(** The three tests [decision.action === ...] of the source, of which exactly
    one holds, are the three branches of the match. *)
Definition applyTeamDecision (id : string) (decision : DecisionInput)
    : M (option StoredChangeOrder) :=
  s ← getStore;
  match findIndex (hasId id) s with
  | None => mret None
  | Some index =>
      match s !! index with
      | None => mret None
      | Some current =>
          if StoredChangeOrder.isFinalized current then mret (Some current)
          else
            now ← nowISOString;
            let next :=
              current
                <| StoredChangeOrder.teamStatus := TeamQueueStatus.IN_REVIEW |>
                <| StoredChangeOrder.updatedAt := now |>
                <| StoredChangeOrder.decisionAt := Some now |>
                <| StoredChangeOrder.decisionBy := Some (decidedBy decision) |>
                <| StoredChangeOrder.decisionExplanation :=
                     Some (decisionExplanation decision) |>
                <| StoredChangeOrder.contractorFacingMessage :=
                     Some (nullish (contractorFacingMessage decision) "") |> in
            let next :=
              match decision with
              | NEEDS_INFO _ _ _ needsInfoChecklist =>
                  prepareDecisionEmail
                    (next
                       <| StoredChangeOrder.teamStatus := TeamQueueStatus.NEEDS_INFO |>
                       <| StoredChangeOrder.decisionStatus := DecisionStatus.NEEDS_INFO |>
                       <| StoredChangeOrder.needsInfoChecklist := needsInfoChecklist |>
                       <| StoredChangeOrder.approvedAmount := None |>
                       <| StoredChangeOrder.denialReasonCode := None |>
                       <| StoredChangeOrder.isFinalized := false |>)
              | APPROVE _ approvedAmount _ _ =>
                  prepareDecisionEmail
                    (next
                       <| StoredChangeOrder.teamStatus := TeamQueueStatus.APPROVED |>
                       <| StoredChangeOrder.decisionStatus := DecisionStatus.APPROVED |>
                       <| StoredChangeOrder.approvedAmount := Some approvedAmount |>
                       <| StoredChangeOrder.denialReasonCode := None |>
                       <| StoredChangeOrder.needsInfoChecklist := [] |>
                       <| StoredChangeOrder.isFinalized := true |>)
              | DENY _ denialReasonCode _ _ =>
                  prepareDecisionEmail
                    (next
                       <| StoredChangeOrder.teamStatus := TeamQueueStatus.DENIED |>
                       <| StoredChangeOrder.decisionStatus := DecisionStatus.DENIED |>
                       <| StoredChangeOrder.denialReasonCode := Some denialReasonCode |>
                       <| StoredChangeOrder.approvedAmount := None |>
                       <| StoredChangeOrder.needsInfoChecklist := [] |>
                       <| StoredChangeOrder.isFinalized := true |>)
              end in
            putStore (<[index := next]> s);;
            mret (Some next)
      end
  end.

(** The clock is read for [decisionEmailSentAt] only when no [sentAt] is
    supplied, and then once more for [updatedAt]. *)
Definition updateDecisionEmailDelivery (id : string) (delivery : Delivery)
    : M (option StoredChangeOrder) :=
  s ← getStore;
  match findIndex (hasId id) s with
  | None => mret None
  | Some index =>
      match s !! index with
      | None => mret None
      | Some stored =>
          let current := normalizeRecord stored in
          sentAt ← match Delivery.sentAt delivery with
                   | Some sentAt => mret sentAt
                   | None => nowISOString
                   end;
          updatedAt ← nowISOString;
          let next :=
            current
              <| StoredChangeOrder.decisionEmailStatus := Delivery.status delivery |>
              <| StoredChangeOrder.decisionEmailSentAt := Some sentAt |>
              <| StoredChangeOrder.decisionEmailError := Delivery.error delivery |>
              <| StoredChangeOrder.decisionEmailPreviewUrl := Delivery.previewUrl delivery |>
              <| StoredChangeOrder.decisionEmailMode := Delivery.mode delivery |>
              <| StoredChangeOrder.updatedAt := updatedAt |> in
          putStore (<[index := next]> s);;
          mret (Some next)
      end
  end.

Definition isValidEmail (value : string) : bool :=
  strictEmailRegex_test host (trim value).

Definition hasValidContractorEmail (record : StoredChangeOrder) : bool :=
  isValidEmail (ChangeOrderInput.contractorEmail (StoredChangeOrder.input record)).

(** ** The HTTP boundary ([src/app/api/change-orders]) *)

(** [changeOrderInputSchema.safeParse] on a payload whose fields already have
    their types: the constraints of the schema, and the contractor e-mail
    trimmed. [None] is a failed parse. *)
Definition changeOrderInputSchema (payload : ChangeOrderInput) : option ChangeOrderInput :=
  let contractorEmail := trim (ChangeOrderInput.contractorEmail payload) in
  if truthy (ChangeOrderInput.projectId payload)
     && truthy (ChangeOrderInput.contractorName payload)
     && zodEmail_test host contractorEmail
     && strictEmailRegex_test host contractorEmail
     && truthy (ChangeOrderInput.workPerformedAt payload)
     && truthy (ChangeOrderInput.scope payload)
     && (0 <? ChangeOrderInput.quantity payload)%float
     && truthy (ChangeOrderInput.unitLabel payload)
     && (0 <=? ChangeOrderInput.materialCost payload)%float
     && (0 <=? ChangeOrderInput.laborCost payload)%float
     && (0 <=? ChangeOrderInput.additionalCharges payload)%float
     && truthy (ChangeOrderInput.whyNeeded payload)
     && truthy (ChangeOrderInput.whyNotInTurnKey payload)
     && forallb (λ lineItem, (0 <=? LineItem.quantity lineItem)%float
                             && (0 <=? LineItem.unitPrice lineItem)%float)
          (ChangeOrderInput.lineItems payload)
  then Some
         {| ChangeOrderInput.projectId := ChangeOrderInput.projectId payload;
            ChangeOrderInput.contractorName := ChangeOrderInput.contractorName payload;
            ChangeOrderInput.contractorEmail := contractorEmail;
            ChangeOrderInput.workPerformedAt := ChangeOrderInput.workPerformedAt payload;
            ChangeOrderInput.scope := ChangeOrderInput.scope payload;
            ChangeOrderInput.quantity := ChangeOrderInput.quantity payload;
            ChangeOrderInput.unitLabel := ChangeOrderInput.unitLabel payload;
            ChangeOrderInput.materialCost := ChangeOrderInput.materialCost payload;
            ChangeOrderInput.laborCost := ChangeOrderInput.laborCost payload;
            ChangeOrderInput.additionalCharges := ChangeOrderInput.additionalCharges payload;
            ChangeOrderInput.additionalChargesReason :=
              ChangeOrderInput.additionalChargesReason payload;
            ChangeOrderInput.whyNeeded := ChangeOrderInput.whyNeeded payload;
            ChangeOrderInput.whyNotInTurnKey := ChangeOrderInput.whyNotInTurnKey payload;
            ChangeOrderInput.photos := ChangeOrderInput.photos payload;
            ChangeOrderInput.isMultiItem := ChangeOrderInput.isMultiItem payload;
            ChangeOrderInput.lineItems := ChangeOrderInput.lineItems payload |}
  else None.

Definition lateMessage : string :=
  "This change order was submitted after 24 hours and cannot be finalized.".

(** [POST] of [submit/route.ts]. *)
Definition submit_POST (payload : ChangeOrderInput) : M SubmitResponse :=
  match changeOrderInputSchema payload with
  | None => mret Submit_invalid_422
  | Some data =>
      let checklistViolations := ChecklistViolation.message <$> evaluateChecklist data in
      isLate ← isPast24Hours (ChangeOrderInput.workPerformedAt data);
      let blockingReasons := checklistViolations in
      let blockingReasons :=
        if isLate : bool then push blockingReasons lateMessage else blockingReasons in
      if (0 <? length blockingReasons)%nat then
        blocked ← saveBlocked data blockingReasons;
        mret (Submit_blocked_422 blocked blockingReasons)
      else
        submitted ← saveSubmission data;
        mret (Submit_ok_200 submitted)
  end.

(** [PATCH] of [[id]/route.ts]; [updateSchema] accepts every value of the
    type [QueueUpdates]. *)
Definition update_PATCH (id : string) (updates : QueueUpdates) : M UpdateResponse :=
  updated ← updateTeamQueueItem id updates;
  match updated with
  | None => mret Update_not_found_404
  | Some updated => mret (Update_ok_200 updated)
  end.

(** [decisionSchema.safeParse] on a payload of the right shape: what is left
    to check are the bounds [min(1)] and [positive()]. *)
Definition decisionSchema (payload : DecisionPayload) : option DecisionPayload :=
  match payload with
  | NEEDS_INFO_payload decidedBy decisionExplanation _ needsInfoChecklist =>
      if truthy decidedBy && truthy decisionExplanation
         && forallb truthy needsInfoChecklist
         && (1 <=? length needsInfoChecklist)%nat
      then Some payload else None
  | APPROVE_payload decidedBy approvedAmount decisionExplanation _ _ _ =>
      if truthy decidedBy && (0 <? approvedAmount)%float && truthy decisionExplanation
      then Some payload else None
  | DENY_payload decidedBy _ decisionExplanation _ =>
      if truthy decidedBy && truthy decisionExplanation
      then Some payload else None
  end.

(** The decision that the route hands to [applyTeamDecision]. *)
Definition toDecisionInput (data : DecisionPayload) : DecisionInput :=
  match data with
  | NEEDS_INFO_payload decidedBy decisionExplanation contractorFacingMessage
      needsInfoChecklist =>
      NEEDS_INFO decidedBy decisionExplanation (Some contractorFacingMessage)
        needsInfoChecklist
  | APPROVE_payload decidedBy approvedAmount decisionExplanation
      contractorFacingMessage _ _ =>
      APPROVE decidedBy approvedAmount decisionExplanation (Some contractorFacingMessage)
  | DENY_payload decidedBy denialReasonCode decisionExplanation contractorFacingMessage =>
      DENY decidedBy denialReasonCode decisionExplanation (Some contractorFacingMessage)
  end.

Definition lateWithoutAcknowledgment (data : DecisionPayload) : bool :=
  match data with
  | APPROVE_payload _ _ _ _ acknowledgeLateSubmission isLate =>
      isLate && negb acknowledgeLateSubmission
  | _ => false
  end.

(** [POST] of [[id]/decision/route.ts]. The call of the mail transport is
    taken to complete before the next request is served. *)
Definition decision_POST (id : string) (payload : DecisionPayload) : M DecisionResponse :=
  existing ← getChangeOrderById id;
  match existing with
  | None => mret Decision_not_found_404
  | Some existing =>
      if negb (bool_decide (StoredChangeOrder.status existing = SubmissionStatus.SUBMITTED))
      then mret Decision_not_submitted_422
      else
        match decisionSchema payload with
        | None => mret Decision_invalid_400
        | Some data =>
            if lateWithoutAcknowledgment data then mret Decision_late_unacknowledged_422
            else
              updated ← applyTeamDecision id (toDecisionInput data);
              match updated with
              | None => mret Decision_not_found_404
              | Some updated =>
                  if negb (hasValidContractorEmail updated) then
                    failed ← updateDecisionEmailDelivery id
                      {| Delivery.status := DecisionEmailStatus.FAILED;
                         Delivery.error := Some "Invalid contractor email address.";
                         Delivery.previewUrl := None;
                         Delivery.sentAt := None;
                         Delivery.mode := None |};
                    mret (Decision_ok_200 (nullish failed updated)
                            DecisionEmailStatus.FAILED None)
                  else
                    let emailResult :=
                      sendDecisionEmail host
                        {| EmailMessage.to :=
                             ChangeOrderInput.contractorEmail (StoredChangeOrder.input updated);
                           EmailMessage.subject :=
                             nullish (StoredChangeOrder.decisionEmailSubject updated)
                               "Change order decision";
                           EmailMessage.text :=
                             nullish (StoredChangeOrder.decisionEmailBody updated)
                               "A decision has been made on your change order.";
                           EmailMessage.html := StoredChangeOrder.decisionEmailHtml updated |} in
                    let emailStatus :=
                      if EmailResult.sent emailResult
                      then DecisionEmailStatus.SENT else DecisionEmailStatus.FAILED in
                    withDelivery ← updateDecisionEmailDelivery id
                      {| Delivery.status := emailStatus;
                         Delivery.error := EmailResult.error emailResult;
                         Delivery.previewUrl := EmailResult.previewUrl emailResult;
                         Delivery.sentAt := None;
                         Delivery.mode := EmailResult.mode emailResult |};
                    mret (Decision_ok_200 (nullish withDelivery updated) emailStatus
                            (EmailResult.previewUrl emailResult))
              end
        end
  end.

End Program.

(** ** Drafts ([change-order-schema.ts], [draft/route.ts]) *)

(** The type [ChangeOrderDraftInput]: every field of [ChangeOrderInput],
    optional. *)
Module ChangeOrderDraftInput.
Record t := mk {
  projectId : option string;
  contractorName : option string;
  contractorEmail : option string;
  workPerformedAt : option string;
  scope : option string;
  quantity : option float;
  unitLabel : option string;
  materialCost : option float;
  laborCost : option float;
  additionalCharges : option float;
  additionalChargesReason : option string;
  whyNeeded : option string;
  whyNotInTurnKey : option string;
  photos : option (list string);
  isMultiItem : option bool;
  lineItems : option (list LineItem);
}.
End ChangeOrderDraftInput.
Abbreviation ChangeOrderDraftInput := ChangeOrderDraftInput.t.

(** Responses of [POST /api/change-orders/draft]. *)
Inductive DraftResponse :=
| Draft_invalid_400
| Draft_ok_200 (changeOrder : StoredChangeOrder).

(** A check of the schema on a field that [partial()] has made optional: an
    absent field passes. *)
Definition optional {A : Type} (check : A → bool) (field : option A) : bool :=
  match field with
  | Some value => check value
  | None => true
  end.

Section Drafts.
Context (host : Host).

(** [changeOrderDraftInputSchema.safeParse] on a payload whose fields, where
    present, have their types: each field that is present meets the
    constraint that [changeOrderInputSchema] puts on it, and the contractor
    e-mail is trimmed. An absent field is left absent; the four defaults of
    the schema are the values that [normalizeDraftInput] fills in. *)
Definition changeOrderDraftInputSchema (payload : ChangeOrderDraftInput)
    : option ChangeOrderDraftInput :=
  let contractorEmail := trim <$> ChangeOrderDraftInput.contractorEmail payload in
  if optional truthy (ChangeOrderDraftInput.projectId payload)
     && optional truthy (ChangeOrderDraftInput.contractorName payload)
     && optional (zodEmail_test host) contractorEmail
     && optional (strictEmailRegex_test host) contractorEmail
     && optional truthy (ChangeOrderDraftInput.workPerformedAt payload)
     && optional truthy (ChangeOrderDraftInput.scope payload)
     && optional (λ quantity, (0 <? quantity)%float) (ChangeOrderDraftInput.quantity payload)
     && optional truthy (ChangeOrderDraftInput.unitLabel payload)
     && optional (λ cost, (0 <=? cost)%float) (ChangeOrderDraftInput.materialCost payload)
     && optional (λ cost, (0 <=? cost)%float) (ChangeOrderDraftInput.laborCost payload)
     && optional (λ cost, (0 <=? cost)%float) (ChangeOrderDraftInput.additionalCharges payload)
     && optional truthy (ChangeOrderDraftInput.whyNeeded payload)
     && optional truthy (ChangeOrderDraftInput.whyNotInTurnKey payload)
     && optional (forallb (λ lineItem, (0 <=? LineItem.quantity lineItem)%float
                                       && (0 <=? LineItem.unitPrice lineItem)%float))
          (ChangeOrderDraftInput.lineItems payload)
  then Some
         {| ChangeOrderDraftInput.projectId := ChangeOrderDraftInput.projectId payload;
            ChangeOrderDraftInput.contractorName :=
              ChangeOrderDraftInput.contractorName payload;
            ChangeOrderDraftInput.contractorEmail := contractorEmail;
            ChangeOrderDraftInput.workPerformedAt :=
              ChangeOrderDraftInput.workPerformedAt payload;
            ChangeOrderDraftInput.scope := ChangeOrderDraftInput.scope payload;
            ChangeOrderDraftInput.quantity := ChangeOrderDraftInput.quantity payload;
            ChangeOrderDraftInput.unitLabel := ChangeOrderDraftInput.unitLabel payload;
            ChangeOrderDraftInput.materialCost := ChangeOrderDraftInput.materialCost payload;
            ChangeOrderDraftInput.laborCost := ChangeOrderDraftInput.laborCost payload;
            ChangeOrderDraftInput.additionalCharges :=
              ChangeOrderDraftInput.additionalCharges payload;
            ChangeOrderDraftInput.additionalChargesReason :=
              ChangeOrderDraftInput.additionalChargesReason payload;
            ChangeOrderDraftInput.whyNeeded := ChangeOrderDraftInput.whyNeeded payload;
            ChangeOrderDraftInput.whyNotInTurnKey :=
              ChangeOrderDraftInput.whyNotInTurnKey payload;
            ChangeOrderDraftInput.photos := ChangeOrderDraftInput.photos payload;
            ChangeOrderDraftInput.isMultiItem := ChangeOrderDraftInput.isMultiItem payload;
            ChangeOrderDraftInput.lineItems := ChangeOrderDraftInput.lineItems payload |}
  else None.

Definition normalizeDraftInput (input : ChangeOrderDraftInput) : ChangeOrderInput :=
  {| ChangeOrderInput.projectId :=
       nullish (ChangeOrderDraftInput.projectId input) "POC-DEMO-001";
     ChangeOrderInput.contractorName :=
       nullish (ChangeOrderDraftInput.contractorName input) "";
     ChangeOrderInput.contractorEmail :=
       nullish (ChangeOrderDraftInput.contractorEmail input) "";
     ChangeOrderInput.workPerformedAt :=
       nullish (ChangeOrderDraftInput.workPerformedAt input) "";
     ChangeOrderInput.scope := nullish (ChangeOrderDraftInput.scope input) "";
     ChangeOrderInput.quantity := nullish (ChangeOrderDraftInput.quantity input) 0%float;
     ChangeOrderInput.unitLabel := nullish (ChangeOrderDraftInput.unitLabel input) "sq ft";
     ChangeOrderInput.materialCost :=
       nullish (ChangeOrderDraftInput.materialCost input) 0%float;
     ChangeOrderInput.laborCost := nullish (ChangeOrderDraftInput.laborCost input) 0%float;
     ChangeOrderInput.additionalCharges :=
       nullish (ChangeOrderDraftInput.additionalCharges input) 0%float;
     ChangeOrderInput.additionalChargesReason :=
       nullish (ChangeOrderDraftInput.additionalChargesReason input) "";
     ChangeOrderInput.whyNeeded := nullish (ChangeOrderDraftInput.whyNeeded input) "";
     ChangeOrderInput.whyNotInTurnKey :=
       nullish (ChangeOrderDraftInput.whyNotInTurnKey input) "";
     ChangeOrderInput.photos := nullish (ChangeOrderDraftInput.photos input) [];
     ChangeOrderInput.isMultiItem :=
       nullish (ChangeOrderDraftInput.isMultiItem input) false;
     ChangeOrderInput.lineItems := nullish (ChangeOrderDraftInput.lineItems input) [] |}.

(** [POST] of [draft/route.ts]. *)
Definition draft_POST (payload : ChangeOrderDraftInput) : M DraftResponse :=
  match changeOrderDraftInputSchema payload with
  | None => mret Draft_invalid_400
  | Some data =>
      saved ← saveDraft host (normalizeDraftInput data);
      mret (Draft_ok_200 saved)
  end.

(** [GET] of [change-orders/route.ts]. *)
Definition list_GET : M (list StoredChangeOrder) := listChangeOrders.

(** [isLate] of the team queue page ([change-order-poc/queue/page.tsx]), on
    the record that the page shows. The page runs in the browser; its [Date]
    is taken to be that of the host. *)
Definition isLate (item : StoredChangeOrder) : M bool :=
  match Date_parse host (ChangeOrderInput.workPerformedAt (StoredChangeOrder.input item)) with
  | None => mret false
  | Some workPerformedAt =>
      now ← Date_now;
      mret (now - workPerformedAt >? dayMs)
  end.

End Drafts.

(** ** The submit route that notifies the team ([change-orders/route.ts]) *)

(** The [status] of a [SubmissionNotification]. *)
Module SubmissionNotificationStatus.
Inductive t := SENT | FAILED | SKIPPED.
#[export] Instance eq_dec : EqDecision t.
Proof. solve_decision. Defined.
End SubmissionNotificationStatus.
Abbreviation SubmissionNotificationStatus := SubmissionNotificationStatus.t.

(** The type ["resend"] of the [mode] of a [SubmissionNotification]. *)
Inductive SubmissionNotificationMode := resend.

(** What [sendEmail] of [~/lib/email] returns, as far as the route reads
    it. *)
Module SendResult.
Record t := mk {
  sent : bool;
  mode : option SubmissionNotificationMode;
  previewUrl : option string;
  error : option string;
}.
End SendResult.
Abbreviation SendResult := SendResult.t.

Module SubmissionNotification.
Record t := mk {
  status : SubmissionNotificationStatus;
  to : option string;
  mode : option SubmissionNotificationMode;
  previewUrl : option string;
  error : option string;
}.
End SubmissionNotification.
Abbreviation SubmissionNotification := SubmissionNotification.t.

(** What the route reads of its environment: the variable
    [process.env.NEW_CO_NOTIFY_TO] ([None] when it is not set) and
    [sendEmail] of [~/lib/email]. *)
Record Notifier := {
  NEW_CO_NOTIFY_TO : option string;
  sendEmail : EmailMessage → SendResult;
}.

(** Responses of the route. *)
Inductive NotifiedSubmitResponse :=
| Notified_invalid_422
| Notified_blocked_422 (changeOrder : StoredChangeOrder) (reasons : list string)
    (submissionNotification : SubmissionNotification)
| Notified_ok_200 (changeOrder : StoredChangeOrder)
    (submissionNotification : SubmissionNotification).

(** [String.prototype.toLowerCase] on the letters A to Z. *)
Fixpoint toLowerCase (s : string) : string :=
  match s with
  | EmptyString => EmptyString
  | String c s' =>
      let n := nat_of_ascii c in
      String (if (65 <=? n)%nat && (n <=? 90)%nat then ascii_of_nat (n + 32) else c)
        (toLowerCase s')
  end.

Section Notified.
Context (host : Host) (notifier : Notifier).

(** The parameter [submissionStatus] is ["SUBMITTED"] or ["BLOCKED"]; the
    tests [submissionStatus === "SUBMITTED"] and [submissionStatus ===
    "BLOCKED"] are the tests of the source. An absent [blockingReasons] is
    [None]. *)
Definition sendTeamSubmissionNotification (input : ChangeOrderInput)
    (submissionStatus : SubmissionStatus) (blockingReasons : option (list string))
    : SubmissionNotification :=
  let teamNotificationTo := trim (or_else (nullish (NEW_CO_NOTIFY_TO notifier) "") "") in
  if negb (truthy teamNotificationTo) then
    {| SubmissionNotification.status := SubmissionNotificationStatus.SKIPPED;
       SubmissionNotification.to := None;
       SubmissionNotification.mode := None;
       SubmissionNotification.previewUrl := None;
       SubmissionNotification.error := Some "NEW_CO_NOTIFY_TO is not configured." |}
  else
    let projectId := ChangeOrderInput.projectId input in
    let contractorName := ChangeOrderInput.contractorName input in
    let contractorEmail := ChangeOrderInput.contractorEmail input in
    let workPerformedAt := ChangeOrderInput.workPerformedAt input in
    let photos := ChangeOrderInput.photos input in
    let totalCost :=
      (ChangeOrderInput.materialCost input + ChangeOrderInput.laborCost input
       + ChangeOrderInput.additionalCharges input)%float in
    let statusLabel :=
      if bool_decide (submissionStatus = SubmissionStatus.SUBMITTED)
      then "Submitted" else "Blocked" in
    let listed :=
      bool_decide (submissionStatus = SubmissionStatus.BLOCKED)
      && match blockingReasons with
         | Some reasons => (0 <? length reasons)%nat
         | None => false
         end in
    let blockingLines :=
      if listed
      then nl +:+ nl +:+ "Blocking reasons:" +:+ nl
           +:+ join nl ((λ reason, "- " +:+ reason) <$> nullish blockingReasons [])
      else "" in
    let subject :=
      "New change order " +:+ toLowerCase statusLabel +:+ " - " +:+ projectId in
    let text :=
      "A contractor submitted a new change order."
      +:+ nl +:+ nl +:+ "Status: " +:+ statusLabel
      +:+ nl +:+ "Project: " +:+ projectId
      +:+ nl +:+ "Contractor: " +:+ contractorName
      +:+ nl +:+ "Contractor email: " +:+ contractorEmail
      +:+ nl +:+ "Work performed: " +:+ workPerformedAt
      +:+ nl +:+ "Scope: " +:+ ChangeOrderInput.scope input
      +:+ nl +:+ "Total requested: $" +:+ toFixed2 host totalCost
      +:+ nl +:+ "Photos attached: " +:+ pretty (length photos)
      +:+ blockingLines
      +:+ nl +:+ nl +:+ "Open the team queue to review this submission." in
    let blockingHtml :=
      if listed
      then
        let items :=
          join ""
            ((λ reason, tpl "<li style=`margin:0 0 6px;`>" +:+ reason +:+ "</li>")
               <$> nullish blockingReasons []) in
        tpl "<div style=`margin-top:12px;border:1px solid #fecdd3;background:#fff1f2;border-radius:8px;padding:10px 12px;`>"
        +:+ nl +:+ tpl "          <p style=`margin:0;color:#9f1239;font-size:14px;`><strong>Blocking reasons:</strong></p>"
        +:+ nl +:+ tpl "          <ul style=`margin:8px 0 0 18px;padding:0;color:#9f1239;font-size:14px;`>"
        +:+ nl +:+ "            " +:+ items
        +:+ nl +:+ "          </ul>"
        +:+ nl +:+ "        </div>"
      else "" in
    let statusColor :=
      if bool_decide (submissionStatus = SubmissionStatus.SUBMITTED)
      then "#166534" else "#9f1239" in
    let html :=
      nl +:+ tpl "    <div style=`background:#f2f7ff;padding:20px;font-family:Inter,Segoe UI,Arial,sans-serif;`>"
      +:+ nl +:+ tpl "      <div style=`max-width:640px;margin:0 auto;border:1px solid #dbeafe;border-radius:12px;overflow:hidden;background:#ffffff;`>"
      +:+ nl +:+ tpl "        <div style=`padding:16px 20px;background:#ffffff;border-bottom:1px solid #dbeafe;`>"
      +:+ nl +:+ tpl "          <img src=`cid:remi-logo@change-order` alt=`Remi` style=`height:24px;display:block;` />"
      +:+ nl +:+ "        </div>"
      +:+ nl +:+ tpl "        <div style=`padding:20px;`>"
      +:+ nl +:+ tpl "          <p style=`margin:0 0 12px;color:#0f172a;font-size:16px;`>A new change order was submitted.</p>"
      +:+ nl +:+ tpl "          <div style=`border:1px solid #bfdbfe;background:#eff6ff;border-radius:8px;padding:12px 14px;`>"
      +:+ nl +:+ tpl "            <p style=`margin:0;color:" +:+ statusColor +:+ tpl ";font-size:14px;`><strong>Status:</strong> " +:+ statusLabel +:+ "</p>"
      +:+ nl +:+ tpl "            <p style=`margin:8px 0 0;color:#0f4f8b;font-size:14px;`><strong>Project:</strong> " +:+ projectId +:+ "</p>"
      +:+ nl +:+ tpl "            <p style=`margin:8px 0 0;color:#0f4f8b;font-size:14px;`><strong>Contractor:</strong> " +:+ contractorName +:+ "</p>"
      +:+ nl +:+ tpl "            <p style=`margin:8px 0 0;color:#0f4f8b;font-size:14px;`><strong>Contractor email:</strong> " +:+ contractorEmail +:+ "</p>"
      +:+ nl +:+ tpl "            <p style=`margin:8px 0 0;color:#0f4f8b;font-size:14px;`><strong>Work performed:</strong> " +:+ workPerformedAt +:+ "</p>"
      +:+ nl +:+ tpl "            <p style=`margin:8px 0 0;color:#0f4f8b;font-size:14px;`><strong>Total requested:</strong> $" +:+ toFixed2 host totalCost +:+ "</p>"
      +:+ nl +:+ tpl "            <p style=`margin:8px 0 0;color:#0f4f8b;font-size:14px;`><strong>Photos attached:</strong> " +:+ pretty (length photos) +:+ "</p>"
      +:+ nl +:+ "          </div>"
      +:+ nl +:+ "          " +:+ blockingHtml
      +:+ nl +:+ tpl "          <p style=`margin:14px 0 0;color:#0f172a;font-size:14px;`>Open the team queue to review and decide.</p>"
      +:+ nl +:+ "        </div>"
      +:+ nl +:+ "      </div>"
      +:+ nl +:+ "    </div>"
      +:+ nl +:+ "  " in
    let result :=
      sendEmail notifier
        {| EmailMessage.to := teamNotificationTo;
           EmailMessage.subject := subject;
           EmailMessage.text := text;
           EmailMessage.html := Some html |} in
    {| SubmissionNotification.status :=
         if SendResult.sent result
         then SubmissionNotificationStatus.SENT else SubmissionNotificationStatus.FAILED;
       SubmissionNotification.to := Some teamNotificationTo;
       SubmissionNotification.mode := SendResult.mode result;
       SubmissionNotification.previewUrl := SendResult.previewUrl result;
       SubmissionNotification.error := SendResult.error result |}.

(** [POST] of the route. The call of [sendEmail] is taken to complete before
    the next request is served. *)
Definition notified_POST (payload : ChangeOrderInput) : M NotifiedSubmitResponse :=
  match changeOrderInputSchema host payload with
  | None => mret Notified_invalid_422
  | Some data =>
      let checklistViolations := ChecklistViolation.message <$> evaluateChecklist data in
      isLate ← isPast24Hours host (ChangeOrderInput.workPerformedAt data);
      let blockingReasons := checklistViolations in
      let blockingReasons :=
        if isLate : bool then push blockingReasons lateMessage else blockingReasons in
      if (0 <? length blockingReasons)%nat then
        blocked ← saveBlocked host data blockingReasons;
        let submissionNotification :=
          sendTeamSubmissionNotification data SubmissionStatus.BLOCKED
            (Some blockingReasons) in
        mret (Notified_blocked_422 blocked blockingReasons submissionNotification)
      else
        submitted ← saveSubmission host data;
        let submissionNotification :=
          sendTeamSubmissionNotification data SubmissionStatus.SUBMITTED None in
        mret (Notified_ok_200 submitted submissionNotification)
  end.

End Notified.

(** ** A runtime for the examples

    A host on which the operations can be run: the formatting and the parsing
    of dates in the format of [toISOString] (years 0 to 9999), [toFixed(2)]
    for numbers below 10^21 in absolute value, the grammar of
    [strictEmailRegex] for both e-mail checks, and a mail transport that
    delivers every message. *)

Module TestHost.

(** [s.padStart(width, "0")]. *)
Definition padStart (width : nat) (s : string) : string :=
  String.concat "" (replicate (width - String.length s) "0") +:+ s.

Definition digits (width : nat) (n : Z) : string := padStart width (pretty n).

(** Year, month and day of the day that is [z] days after 1970-01-01. *)
Definition civilFromDays (z : Z) : Z * Z * Z :=
  let z := z + 719468 in
  let era := z / 146097 in
  let doe := z mod 146097 in
  let yoe := (doe - doe / 1460 + doe / 36524 - doe / 146096) / 365 in
  let doy := doe - (365 * yoe + yoe / 4 - yoe / 100) in
  let mp := (5 * doy + 2) / 153 in
  let d := doy - (153 * mp + 2) / 5 + 1 in
  let m := if mp <? 10 then mp + 3 else mp - 9 in
  let y := yoe + era * 400 + (if m <=? 2 then 1 else 0) in
  (y, m, d).

Definition daysFromCivil (y m d : Z) : Z :=
  let y := if m <=? 2 then y - 1 else y in
  let era := y / 400 in
  let yoe := y mod 400 in
  let doy := (153 * (if 2 <? m then m - 3 else m + 9) + 2) / 5 + d - 1 in
  let doe := yoe * 365 + yoe / 4 - yoe / 100 + doy in
  era * 146097 + doe - 719468.

Definition formatISO (t : Z) : string :=
  let '(y, m, d) := civilFromDays (t / 86400000) in
  let ms := t mod 86400000 in
  digits 4 y +:+ "-" +:+ digits 2 m +:+ "-" +:+ digits 2 d
  +:+ "T" +:+ digits 2 (ms / 3600000) +:+ ":" +:+ digits 2 (ms / 60000 mod 60)
  +:+ ":" +:+ digits 2 (ms / 1000 mod 60) +:+ "." +:+ digits 3 (ms mod 1000) +:+ "Z".

Definition digitValue (c : ascii) : option Z :=
  let n := Z.of_nat (nat_of_ascii c) in
  if (48 <=? n) && (n <=? 57) then Some (n - 48) else None.

Fixpoint number (acc : Z) (s : string) : option Z :=
  match s with
  | EmptyString => Some acc
  | String c s' => d ← digitValue c; number (10 * acc + d) s'
  end.

Definition field (start len : nat) (s : string) : option Z :=
  number 0 (String.substring start len s).

(** The time value of a string of the form that [formatISO] produces; any
    other string is an invalid date. *)
Definition parseDate (s : string) : option Z :=
  y ← field 0 4 s; m ← field 5 2 s; d ← field 8 2 s;
  h ← field 11 2 s; mi ← field 14 2 s; sec ← field 17 2 s; ms ← field 20 3 s;
  let t := daysFromCivil y m d * 86400000 + h * 3600000 + mi * 60000 + sec * 1000 + ms in
  if String.eqb (formatISO t) s then Some t else None.

(** The decimal expansion of the integer nearest to a hundred times the
    number, the larger one of two that are as near. *)
Definition fixed2 (x : float) : string :=
  match Prim2SF x with
  | S754_nan => "NaN"
  | S754_infinity s => if s then "-Infinity" else "Infinity"
  | S754_zero _ => "0.00"
  | S754_finite s m e =>
      let n :=
        if 0 <=? e then Z.pos m * 2 ^ e * 100
        else (2 * 100 * Z.pos m + 2 ^ (- e)) / 2 ^ (1 - e) in
      (if s then "-" else "") +:+ pretty (n / 100) +:+ "." +:+ digits 2 (n mod 100)
  end.

Fixpoint all (p : ascii → bool) (s : string) : bool :=
  match s with
  | EmptyString => true
  | String c s' => p c && all p s'
  end.

(** [s.split(sep)] for a separator of one character. *)
Fixpoint splitOn (sep : ascii) (s : string) : list string :=
  match s with
  | EmptyString => [""]
  | String c s' =>
      if Ascii.eqb c sep then "" :: splitOn sep s'
      else match splitOn sep s' with
           | [] => [String c ""]
           | part :: parts => String c part :: parts
           end
  end.

Definition isAlnum (c : ascii) : bool :=
  let n := nat_of_ascii c in
  ((48 <=? n) && (n <=? 57) || (65 <=? n) && (n <=? 90) || (97 <=? n) && (n <=? 122))%nat.

Definition isAtext (c : ascii) : bool :=
  isAlnum c || occurs c "!#$%&'*+/=?^_`{|}~-".

Definition localPart (s : string) : bool :=
  forallb (λ part, truthy part && all isAtext part) (splitOn "." s).

Definition label (s : string) : bool :=
  (String.length s <=? 63)%nat
  && all (λ c, isAlnum c || Ascii.eqb c "-") s
  && match s with
     | EmptyString => false
     | String c _ => isAlnum c
     end
  && match String.get (String.length s - 1) s with
     | Some c => isAlnum c
     | None => false
     end.

Definition domain (s : string) : bool :=
  (2 <=? length (splitOn "." s))%nat && forallb label (splitOn "." s).

Definition emailGrammar (s : string) : bool :=
  match splitOn "@" s with
  | [l; d] => localPart l && domain d
  | _ => false
  end.

Definition deliver (message : EmailMessage) : EmailResult :=
  {| EmailResult.sent := true;
     EmailResult.mode := Some DecisionEmailMode.smtp;
     EmailResult.previewUrl := None;
     EmailResult.error := None |}.

Definition host : Host :=
  {| Date_parse := parseDate;
     toISOString := formatISO;
     toFixed2 := fixed2;
     strictEmailRegex_test := emailGrammar;
     zodEmail_test := emailGrammar;
     sendDecisionEmail := deliver |}.

(** A world with an empty store, a clock that starts at [start] and advances
    by one millisecond at each reading, and draws that count up from 0. *)
Definition world (start : Z) : World :=
  {| store := []; clock := λ n, start + Z.of_nat n; dice := λ n, N.of_nat n |}.

End TestHost.

(** * The vocabulary of the properties *)

(** ** The checklist *)

(** Some violation of the list carries the code [target]. *)
Definition hasCode (target : string) (violations : list ChecklistViolation) : Prop :=
  ∃ v, v ∈ violations ∧ ChecklistViolation.code v = target.

(** ** Submission *)

(** The reasons that block a submission: the messages of the checklist, in
    the order of evaluation, and after them the lateness message when the work
    is late. *)
Definition combinedReasons (data : ChangeOrderInput) (late : bool) : list string :=
  (ChecklistViolation.message <$> evaluateChecklist data)
  ++ (if late then [lateMessage] else []).

(** ** Delivery reconciliation *)

(** The time that a call of [updateDecisionEmailDelivery] records as the time
    of sending: the one supplied, or else the reading of the clock. *)
Definition sentAtOf (host : Host) (w : World) (delivery : Delivery) : string :=
  match Delivery.sentAt delivery with
  | Some sentAt => sentAt
  | None => toISOString host (clock w 0%nat)
  end.

(** The time that the call records as the time of the update: the reading of
    the clock that follows. *)
Definition updatedAtOf (host : Host) (w : World) (delivery : Delivery) : string :=
  match Delivery.sentAt delivery with
  | Some _ => toISOString host (clock w 0%nat)
  | None => toISOString host (clock w 1%nat)
  end.

(** ** Reachable stores *)

(** The operations that write to the store. *)
Inductive Operation :=
| SaveDraft (input : ChangeOrderInput)
| SaveSubmission (input : ChangeOrderInput)
| SaveBlocked (input : ChangeOrderInput) (blockingReasons : list string)
| UpdateTeamQueueItem (id : string) (updates : QueueUpdates)
| ApplyTeamDecision (id : string) (decision : DecisionInput)
| UpdateDecisionEmailDelivery (id : string) (delivery : Delivery).

(** The world after an operation. *)
Definition run (host : Host) (op : Operation) (w : World) : World :=
  match op with
  | SaveDraft input => (saveDraft host input w).2
  | SaveSubmission input => (saveSubmission host input w).2
  | SaveBlocked input blockingReasons => (saveBlocked host input blockingReasons w).2
  | UpdateTeamQueueItem id updates => (updateTeamQueueItem host id updates w).2
  | ApplyTeamDecision id decision => (applyTeamDecision host id decision w).2
  | UpdateDecisionEmailDelivery id delivery =>
      (updateDecisionEmailDelivery host id delivery w).2
  end.

(** The worlds that the operations reach from an empty store. *)
Inductive reachable (host : Host) : World → Prop :=
| reachable_empty (w : World) : store w = [] → reachable host w
| reachable_run (w : World) (op : Operation) :
    reachable host w → reachable host (run host op w).

(** A finalized record has one of the two terminal team statuses. *)
Definition finalizedIsTerminal (record : StoredChangeOrder) : Prop :=
  StoredChangeOrder.isFinalized record = true →
  StoredChangeOrder.teamStatus record = TeamQueueStatus.APPROVED
  ∨ StoredChangeOrder.teamStatus record = TeamQueueStatus.DENIED.

(** A record with a terminal team status is finalized. *)
Definition terminalIsFinalized (record : StoredChangeOrder) : Prop :=
  StoredChangeOrder.teamStatus record = TeamQueueStatus.APPROVED
  ∨ StoredChangeOrder.teamStatus record = TeamQueueStatus.DENIED →
  StoredChangeOrder.isFinalized record = true.

(** A queue update that names a terminal team status. *)
Definition namesTerminalStatus (op : Operation) : bool :=
  match op with
  | UpdateTeamQueueItem _ updates =>
      match QueueUpdates.teamStatus updates with
      | Some TeamQueueStatus.APPROVED | Some TeamQueueStatus.DENIED => true
      | _ => false
      end
  | _ => false
  end.

(** ** Decisions *)

(** The team status, the decision status and the finalization that a
    decision leaves on the record. *)
Definition outcome (decision : DecisionInput) : TeamQueueStatus * DecisionStatus * bool :=
  match decision with
  | NEEDS_INFO _ _ _ _ => (TeamQueueStatus.NEEDS_INFO, DecisionStatus.NEEDS_INFO, false)
  | APPROVE _ _ _ _ => (TeamQueueStatus.APPROVED, DecisionStatus.APPROVED, true)
  | DENY _ _ _ _ => (TeamQueueStatus.DENIED, DecisionStatus.DENIED, true)
  end.

(** The record [next] carries the decision [decision], taken at the time
    [now]. *)
Definition carries (decision : DecisionInput) (now : string) (next : StoredChangeOrder)
    : Prop :=
  (StoredChangeOrder.teamStatus next, StoredChangeOrder.decisionStatus next,
   StoredChangeOrder.isFinalized next) = outcome decision
  ∧ StoredChangeOrder.decisionAt next = Some now
  ∧ StoredChangeOrder.decisionBy next = Some (decidedBy decision)
  ∧ StoredChangeOrder.decisionExplanation next = Some (decisionExplanation decision)
  ∧ StoredChangeOrder.contractorFacingMessage next
    = Some (nullish (contractorFacingMessage decision) "").

(** The two records agree on what a decision writes. *)
Definition sameDecision (a b : StoredChangeOrder) : Prop :=
  StoredChangeOrder.status a = StoredChangeOrder.status b
  ∧ StoredChangeOrder.teamStatus a = StoredChangeOrder.teamStatus b
  ∧ StoredChangeOrder.decisionStatus a = StoredChangeOrder.decisionStatus b
  ∧ StoredChangeOrder.isFinalized a = StoredChangeOrder.isFinalized b
  ∧ StoredChangeOrder.decisionAt a = StoredChangeOrder.decisionAt b
  ∧ StoredChangeOrder.decisionBy a = StoredChangeOrder.decisionBy b
  ∧ StoredChangeOrder.approvedAmount a = StoredChangeOrder.approvedAmount b
  ∧ StoredChangeOrder.denialReasonCode a = StoredChangeOrder.denialReasonCode b
  ∧ StoredChangeOrder.decisionExplanation a = StoredChangeOrder.decisionExplanation b
  ∧ StoredChangeOrder.contractorFacingMessage a
    = StoredChangeOrder.contractorFacingMessage b
  ∧ StoredChangeOrder.needsInfoChecklist a = StoredChangeOrder.needsInfoChecklist b
  ∧ StoredChangeOrder.decisionEmailSubject a = StoredChangeOrder.decisionEmailSubject b
  ∧ StoredChangeOrder.decisionEmailBody a = StoredChangeOrder.decisionEmailBody b
  ∧ StoredChangeOrder.decisionEmailHtml a = StoredChangeOrder.decisionEmailHtml b.

(** ** The texts of a notification *)

(** The characters that delimit a tag or an attribute value. *)
Definition isMarkup (c : ascii) : bool :=
  Ascii.eqb c "<" || Ascii.eqb c ">" || Ascii.eqb c "034" || Ascii.eqb c "'".

(** The markup characters of a string, in their order. *)
Fixpoint markup (s : string) : string :=
  match s with
  | EmptyString => EmptyString
  | String c s' => if isMarkup c then String c (markup s') else markup s'
  end.

(** The fields of the record that the notification shows. *)
Definition projectLabelOf (record : StoredChangeOrder) : string :=
  or_else (ChangeOrderInput.projectId (StoredChangeOrder.input record)) "your project".

Definition contractorNameOf (record : StoredChangeOrder) : string :=
  or_else (ChangeOrderInput.contractorName (StoredChangeOrder.input record)) "Contractor".

Definition messageOf (record : StoredChangeOrder) : string :=
  or_else (nullish (StoredChangeOrder.contractorFacingMessage record) "") "".

Definition denialReasonOf (record : StoredChangeOrder) : string :=
  match StoredChangeOrder.denialReasonCode record with
  | Some code => or_else (DenialReasonCode.to_string code) "N/A"
  | None => "N/A"
  end.

(** Two records that may differ in every text that the notification shows:
    they agree on the decision status and the approved amount, on whether
    there is a message, and on the number of requested items. *)
Definition sameFrame (r r' : StoredChangeOrder) : Prop :=
  StoredChangeOrder.decisionStatus r = StoredChangeOrder.decisionStatus r'
  ∧ StoredChangeOrder.approvedAmount r = StoredChangeOrder.approvedAmount r'
  ∧ truthy (messageOf r) = truthy (messageOf r')
  ∧ length (StoredChangeOrder.needsInfoChecklist r)
    = length (StoredChangeOrder.needsInfoChecklist r').

(** ** The codes of the checklist *)

(** A string of white space only, the empty one included. *)
Fixpoint blank (s : string) : bool :=
  match s with
  | EmptyString => true
  | String c s' => isWhiteSpace c && blank s'
  end.

(** The code of the violation that the checklist reports for the line item
    of number [n], counting from 1. *)
Definition lineItemCode (n : nat) : string := "line_item_" +:+ pretty n +:+ "_invalid".

(** The codes of the checklist that are not those of line items, in the
    order of evaluation. *)
Definition fixedCodes : list string :=
  ["scope_missing"; "quantity_missing"; "pricing_invalid";
   "additional_charges_reason_missing"; "unit_price_unclear"; "justification_missing";
   "turnkey_justification_missing"; "photos_missing"; "line_items_missing"].

(** ** Drafts and escaping *)

(** A payload that has every field, as a draft. *)
Definition asDraft (input : ChangeOrderInput) : ChangeOrderDraftInput :=
  {| ChangeOrderDraftInput.projectId := Some (ChangeOrderInput.projectId input);
     ChangeOrderDraftInput.contractorName := Some (ChangeOrderInput.contractorName input);
     ChangeOrderDraftInput.contractorEmail := Some (ChangeOrderInput.contractorEmail input);
     ChangeOrderDraftInput.workPerformedAt := Some (ChangeOrderInput.workPerformedAt input);
     ChangeOrderDraftInput.scope := Some (ChangeOrderInput.scope input);
     ChangeOrderDraftInput.quantity := Some (ChangeOrderInput.quantity input);
     ChangeOrderDraftInput.unitLabel := Some (ChangeOrderInput.unitLabel input);
     ChangeOrderDraftInput.materialCost := Some (ChangeOrderInput.materialCost input);
     ChangeOrderDraftInput.laborCost := Some (ChangeOrderInput.laborCost input);
     ChangeOrderDraftInput.additionalCharges :=
       Some (ChangeOrderInput.additionalCharges input);
     ChangeOrderDraftInput.additionalChargesReason :=
       Some (ChangeOrderInput.additionalChargesReason input);
     ChangeOrderDraftInput.whyNeeded := Some (ChangeOrderInput.whyNeeded input);
     ChangeOrderDraftInput.whyNotInTurnKey := Some (ChangeOrderInput.whyNotInTurnKey input);
     ChangeOrderDraftInput.photos := Some (ChangeOrderInput.photos input);
     ChangeOrderDraftInput.isMultiItem := Some (ChangeOrderInput.isMultiItem input);
     ChangeOrderDraftInput.lineItems := Some (ChangeOrderInput.lineItems input) |}.

(** The text that [escapeHtml] puts in place of a character. *)
Definition entity (c : ascii) : string :=
  if Ascii.eqb c "&" then "&amp;"
  else if Ascii.eqb c "<" then "&lt;"
  else if Ascii.eqb c ">" then "&gt;"
  else if Ascii.eqb c "034" then "&quot;"
  else if Ascii.eqb c "'" then "&#39;"
  else String c "".

(** ** Records under the operations *)

(** The state in which every record is created: new in the queue, no
    decision, no notification. *)
Definition isNew (record : StoredChangeOrder) : Prop :=
  StoredChangeOrder.teamStatus record = TeamQueueStatus.NEW
  ∧ StoredChangeOrder.reviewerNotes record = ""
  ∧ StoredChangeOrder.decisionStatus record = DecisionStatus.PENDING
  ∧ StoredChangeOrder.decisionAt record = None
  ∧ StoredChangeOrder.decisionBy record = None
  ∧ StoredChangeOrder.approvedAmount record = None
  ∧ StoredChangeOrder.denialReasonCode record = None
  ∧ StoredChangeOrder.decisionExplanation record = None
  ∧ StoredChangeOrder.contractorFacingMessage record = None
  ∧ StoredChangeOrder.needsInfoChecklist record = []
  ∧ StoredChangeOrder.isFinalized record = false
  ∧ StoredChangeOrder.decisionEmailStatus record = DecisionEmailStatus.PENDING
  ∧ StoredChangeOrder.decisionEmailSentAt record = None
  ∧ StoredChangeOrder.decisionEmailTo record = None
  ∧ StoredChangeOrder.decisionEmailSubject record = None
  ∧ StoredChangeOrder.decisionEmailBody record = None
  ∧ StoredChangeOrder.decisionEmailHtml record = None
  ∧ StoredChangeOrder.decisionEmailError record = None
  ∧ StoredChangeOrder.decisionEmailPreviewUrl record = None
  ∧ StoredChangeOrder.decisionEmailMode record = None.

(** The record that [updateTeamQueueItem] writes in place of [current]. *)
Definition queueUpdated (updates : QueueUpdates) (updatedAt : string)
    (current : StoredChangeOrder) : StoredChangeOrder :=
  current
    <| StoredChangeOrder.teamStatus :=
         nullish (QueueUpdates.teamStatus updates) (StoredChangeOrder.teamStatus current) |>
    <| StoredChangeOrder.reviewerNotes :=
         nullish (QueueUpdates.reviewerNotes updates)
           (StoredChangeOrder.reviewerNotes current) |>
    <| StoredChangeOrder.updatedAt := updatedAt |>.

(** The record that [applyTeamDecision] writes in place of [current]. *)
Definition decided (host : Host) (decision : DecisionInput) (now : string)
    (current : StoredChangeOrder) : StoredChangeOrder :=
  let next :=
    current
      <| StoredChangeOrder.teamStatus := TeamQueueStatus.IN_REVIEW |>
      <| StoredChangeOrder.updatedAt := now |>
      <| StoredChangeOrder.decisionAt := Some now |>
      <| StoredChangeOrder.decisionBy := Some (decidedBy decision) |>
      <| StoredChangeOrder.decisionExplanation := Some (decisionExplanation decision) |>
      <| StoredChangeOrder.contractorFacingMessage :=
           Some (nullish (contractorFacingMessage decision) "") |> in
  match decision with
  | NEEDS_INFO _ _ _ needsInfoChecklist =>
      prepareDecisionEmail host
        (next
           <| StoredChangeOrder.teamStatus := TeamQueueStatus.NEEDS_INFO |>
           <| StoredChangeOrder.decisionStatus := DecisionStatus.NEEDS_INFO |>
           <| StoredChangeOrder.needsInfoChecklist := needsInfoChecklist |>
           <| StoredChangeOrder.approvedAmount := None |>
           <| StoredChangeOrder.denialReasonCode := None |>
           <| StoredChangeOrder.isFinalized := false |>)
  | APPROVE _ approvedAmount _ _ =>
      prepareDecisionEmail host
        (next
           <| StoredChangeOrder.teamStatus := TeamQueueStatus.APPROVED |>
           <| StoredChangeOrder.decisionStatus := DecisionStatus.APPROVED |>
           <| StoredChangeOrder.approvedAmount := Some approvedAmount |>
           <| StoredChangeOrder.denialReasonCode := None |>
           <| StoredChangeOrder.needsInfoChecklist := [] |>
           <| StoredChangeOrder.isFinalized := true |>)
  | DENY _ denialReasonCode _ _ =>
      prepareDecisionEmail host
        (next
           <| StoredChangeOrder.teamStatus := TeamQueueStatus.DENIED |>
           <| StoredChangeOrder.decisionStatus := DecisionStatus.DENIED |>
           <| StoredChangeOrder.denialReasonCode := Some denialReasonCode |>
           <| StoredChangeOrder.approvedAmount := None |>
           <| StoredChangeOrder.needsInfoChecklist := [] |>
           <| StoredChangeOrder.isFinalized := true |>)
  end.

(** The record that [updateDecisionEmailDelivery] writes in place of
    [current]. *)
Definition delivered (delivery : Delivery) (sentAt updatedAt : string)
    (current : StoredChangeOrder) : StoredChangeOrder :=
  current
    <| StoredChangeOrder.decisionEmailStatus := Delivery.status delivery |>
    <| StoredChangeOrder.decisionEmailSentAt := Some sentAt |>
    <| StoredChangeOrder.decisionEmailError := Delivery.error delivery |>
    <| StoredChangeOrder.decisionEmailPreviewUrl := Delivery.previewUrl delivery |>
    <| StoredChangeOrder.decisionEmailMode := Delivery.mode delivery |>
    <| StoredChangeOrder.updatedAt := updatedAt |>.

(** What an operation can make of a stored record. *)
Inductive change (host : Host) (current : StoredChangeOrder) : StoredChangeOrder → Prop :=
| change_queue (updates : QueueUpdates) (updatedAt : string) :
    StoredChangeOrder.isFinalized current = false →
    change host current (queueUpdated updates updatedAt current)
| change_decision (decision : DecisionInput) (now : string) :
    StoredChangeOrder.isFinalized current = false →
    change host current (decided host decision now current)
| change_delivery (delivery : Delivery) (sentAt updatedAt : string) :
    change host current (delivered delivery sentAt updatedAt current).

(** What an operation can make of the store: nothing, one more record at the
    end, or another record at one position. *)
Inductive step (host : Host) (s : list StoredChangeOrder) : list StoredChangeOrder → Prop :=
| step_same : step host s s
| step_create (record : StoredChangeOrder) :
    isNew record → step host s (s ++ [record])
| step_change (index : nat) (current next : StoredChangeOrder) :
    s !! index = Some current → change host current next →
    step host s (<[index := next]> s).

(** The identifier that an operation addresses, for the three that address
    one. *)
Definition addressed (op : Operation) : option string :=
  match op with
  | UpdateTeamQueueItem id _ | ApplyTeamDecision id _ | UpdateDecisionEmailDelivery id _ =>
      Some id
  | _ => None
  end.

(** The record that an operation returns; [None] is [null]. *)
Definition returned (host : Host) (op : Operation) (w : World) : option StoredChangeOrder :=
  match op with
  | SaveDraft input => Some (saveDraft host input w).1
  | SaveSubmission input => Some (saveSubmission host input w).1
  | SaveBlocked input blockingReasons => Some (saveBlocked host input blockingReasons w).1
  | UpdateTeamQueueItem id updates => (updateTeamQueueItem host id updates w).1
  | ApplyTeamDecision id decision => (applyTeamDecision host id decision w).1
  | UpdateDecisionEmailDelivery id delivery =>
      (updateDecisionEmailDelivery host id delivery w).1
  end.

(** The operations that return a finalized record as it is. *)
Definition latches (op : Operation) : bool :=
  match op with
  | UpdateTeamQueueItem _ _ | ApplyTeamDecision _ _ => true
  | _ => false
  end.

(** The record that an operation writes in place of [current] in the world
    [w]. *)
Definition changed (host : Host) (op : Operation) (w : World) (current : StoredChangeOrder)
    : StoredChangeOrder :=
  match op with
  | UpdateTeamQueueItem _ updates =>
      queueUpdated updates (toISOString host (clock w 0%nat)) current
  | ApplyTeamDecision _ decision =>
      decided host decision (toISOString host (clock w 0%nat)) current
  | UpdateDecisionEmailDelivery _ delivery =>
      delivered delivery (sentAtOf host w delivery) (updatedAtOf host w delivery) current
  | _ => current
  end.

(** What a record is created with and no operation writes. *)
Definition origin (record : StoredChangeOrder)
    : string * string * SubmissionStatus * ChangeOrderInput * option string
      * option (list string) :=
  (StoredChangeOrder.id record, StoredChangeOrder.createdAt record,
   StoredChangeOrder.status record, StoredChangeOrder.input record,
   StoredChangeOrder.submittedAt record, StoredChangeOrder.blockingReasons record).

(** ** Invariants of the records *)

(** A record is finalized exactly when its decision is an approval or a
    denial. *)
Definition finalizedIffDecided (record : StoredChangeOrder) : Prop :=
  StoredChangeOrder.isFinalized record = true
  ↔ StoredChangeOrder.decisionStatus record = DecisionStatus.APPROVED
    ∨ StoredChangeOrder.decisionStatus record = DecisionStatus.DENIED.

(** The fields of a decision go with the decision status: an amount with an
    approval, a reason code with a denial, requested items with a request for
    more information only, nothing with no decision. *)
Definition decisionFieldsFit (record : StoredChangeOrder) : Prop :=
  (is_Some (StoredChangeOrder.approvedAmount record)
   ↔ StoredChangeOrder.decisionStatus record = DecisionStatus.APPROVED)
  ∧ (is_Some (StoredChangeOrder.denialReasonCode record)
     ↔ StoredChangeOrder.decisionStatus record = DecisionStatus.DENIED)
  ∧ (StoredChangeOrder.needsInfoChecklist record ≠ [] →
     StoredChangeOrder.decisionStatus record = DecisionStatus.NEEDS_INFO)
  ∧ (StoredChangeOrder.decisionAt record = None
     ↔ StoredChangeOrder.decisionStatus record = DecisionStatus.PENDING)
  ∧ (StoredChangeOrder.decisionBy record = None
     ↔ StoredChangeOrder.decisionStatus record = DecisionStatus.PENDING)
  ∧ (StoredChangeOrder.decisionExplanation record = None
     ↔ StoredChangeOrder.decisionStatus record = DecisionStatus.PENDING)
  ∧ (StoredChangeOrder.contractorFacingMessage record = None
     ↔ StoredChangeOrder.decisionStatus record = DecisionStatus.PENDING).

(** The stored notification is the one that [buildDecisionEmailContent]
    makes of the record as it is now, addressed to the trimmed contractor
    e-mail; a record without a decision has none. *)
Definition notificationIsCurrent (host : Host) (record : StoredChangeOrder) : Prop :=
  match StoredChangeOrder.decisionStatus record with
  | DecisionStatus.PENDING =>
      StoredChangeOrder.decisionEmailTo record = None
      ∧ StoredChangeOrder.decisionEmailSubject record = None
      ∧ StoredChangeOrder.decisionEmailBody record = None
      ∧ StoredChangeOrder.decisionEmailHtml record = None
  | _ =>
      StoredChangeOrder.decisionEmailTo record
      = Some (trim (ChangeOrderInput.contractorEmail (StoredChangeOrder.input record)))
      ∧ StoredChangeOrder.decisionEmailSubject record
        = Some (EmailContent.subject (buildDecisionEmailContent host record))
      ∧ StoredChangeOrder.decisionEmailBody record
        = Some (EmailContent.body (buildDecisionEmailContent host record))
      ∧ StoredChangeOrder.decisionEmailHtml record
        = Some (EmailContent.html (buildDecisionEmailContent host record))
  end.


(** ** Stores behind the routes *)

(** The requests that the routes serve. *)
Inductive Request :=
| PostDraft (payload : ChangeOrderDraftInput)
| PostSubmit (payload : ChangeOrderInput)
| PatchItem (id : string) (updates : QueueUpdates)
| PostDecision (id : string) (payload : DecisionPayload)
| GetList.

(** The world after a request has been served. *)
Definition serve (host : Host) (request : Request) (w : World) : World :=
  match request with
  | PostDraft payload => (draft_POST host payload w).2
  | PostSubmit payload => (submit_POST host payload w).2
  | PatchItem id updates => (update_PATCH host id updates w).2
  | PostDecision id payload => (decision_POST host id payload w).2
  | GetList => (list_GET w).2
  end.

(** The worlds that requests reach from an empty store. *)
Inductive served (host : Host) : World → Prop :=
| served_empty (w : World) : store w = [] → served host w
| served_request (w : World) (request : Request) :
    served host w → served host (serve host request w).

(** What the status of a record says of how the routes created it. A draft
    was not submitted and has no blocking reasons. A submitted record has a
    time of submission and no blocking reasons, and its input is data that
    the schema accepts, that the checklist passes and whose time of the work
    is a date. A blocked record has blocking reasons, at least one: the
    messages of the checklist on its input, with or without the lateness
    message at the end; its input is data that the schema accepts. *)
Definition createdByRoute (host : Host) (record : StoredChangeOrder) : Prop :=
  match StoredChangeOrder.status record with
  | SubmissionStatus.DRAFT =>
      StoredChangeOrder.submittedAt record = None
      ∧ StoredChangeOrder.blockingReasons record = None
  | SubmissionStatus.SUBMITTED =>
      is_Some (StoredChangeOrder.submittedAt record)
      ∧ StoredChangeOrder.blockingReasons record = None
      ∧ changeOrderInputSchema host (StoredChangeOrder.input record)
        = Some (StoredChangeOrder.input record)
      ∧ evaluateChecklist (StoredChangeOrder.input record) = []
      ∧ is_Some (Date_parse host
                   (ChangeOrderInput.workPerformedAt (StoredChangeOrder.input record)))
  | SubmissionStatus.BLOCKED =>
      StoredChangeOrder.submittedAt record = None
      ∧ changeOrderInputSchema host (StoredChangeOrder.input record)
        = Some (StoredChangeOrder.input record)
      ∧ ∃ late reason reasons,
          combinedReasons (StoredChangeOrder.input record) late = reason :: reasons
          ∧ StoredChangeOrder.blockingReasons record = Some (reason :: reasons)
  end.



(** What a request can make of a stored record: a queue update, on a record
    that is not finalized, or a decision with the delivery of its
    notification, on a record that is [SUBMITTED] (a finalized one keeps its
    decision). *)
Inductive routeChange (host : Host) (current : StoredChangeOrder)
    : StoredChangeOrder → Prop :=
| route_patch (updates : QueueUpdates) (updatedAt : string) :
    StoredChangeOrder.isFinalized current = false →
    routeChange host current (queueUpdated updates updatedAt current)
| route_decision (decision : DecisionInput) (now : string) (delivery : Delivery)
    (sentAt updatedAt : string) :
    StoredChangeOrder.status current = SubmissionStatus.SUBMITTED →
    Delivery.status delivery ≠ DecisionEmailStatus.PENDING →
    routeChange host current
      (delivered delivery sentAt updatedAt
         (if StoredChangeOrder.isFinalized current then current
          else decided host decision now current)).

(** What a request can make of the store. *)
Inductive routeStep (host : Host) (s : list StoredChangeOrder)
    : list StoredChangeOrder → Prop :=
| routeStep_same : routeStep host s s
| routeStep_create (record : StoredChangeOrder) :
    isNew record → createdByRoute host record → routeStep host s (s ++ [record])
| routeStep_change (index : nat) (current next : StoredChangeOrder) :
    s !! index = Some current → routeChange host current next →
    routeStep host s (<[index := next]> s).

(** The message that the decision route hands to the mail transport for the
    record [updated]. *)
Definition notification (updated : StoredChangeOrder) : EmailMessage :=
  {| EmailMessage.to :=
       ChangeOrderInput.contractorEmail (StoredChangeOrder.input updated);
     EmailMessage.subject :=
       nullish (StoredChangeOrder.decisionEmailSubject updated) "Change order decision";
     EmailMessage.text :=
       nullish (StoredChangeOrder.decisionEmailBody updated)
         "A decision has been made on your change order.";
     EmailMessage.html := StoredChangeOrder.decisionEmailHtml updated |}.



(** ** The notification to the team *)

(** The answer of the submit route without the notification. *)
Definition withoutNotification (response : NotifiedSubmitResponse) : SubmitResponse :=
  match response with
  | Notified_invalid_422 => Submit_invalid_422
  | Notified_blocked_422 changeOrder reasons _ => Submit_blocked_422 changeOrder reasons
  | Notified_ok_200 changeOrder _ => Submit_ok_200 changeOrder
  end.

(** The notification that reports what the mail transport returned for a
    message to [to], and the one that reports that none was sent. *)
Definition reported (to : string) (result : SendResult) : SubmissionNotification :=
  {| SubmissionNotification.status :=
       if SendResult.sent result
       then SubmissionNotificationStatus.SENT else SubmissionNotificationStatus.FAILED;
     SubmissionNotification.to := Some to;
     SubmissionNotification.mode := SendResult.mode result;
     SubmissionNotification.previewUrl := SendResult.previewUrl result;
     SubmissionNotification.error := SendResult.error result |}.

Definition skipped : SubmissionNotification :=
  {| SubmissionNotification.status := SubmissionNotificationStatus.SKIPPED;
     SubmissionNotification.to := None;
     SubmissionNotification.mode := None;
     SubmissionNotification.previewUrl := None;
     SubmissionNotification.error := Some "NEW_CO_NOTIFY_TO is not configured." |}.

(** The blocking reasons that a notification lists: those of a blocked
    submission. *)
Definition listedReasons (submissionStatus : SubmissionStatus)
    (blockingReasons : option (list string)) : list string :=
  match submissionStatus with
  | SubmissionStatus.BLOCKED => nullish blockingReasons []
  | _ => []
  end.

(** ** Sample data *)

(** A complete change order, for work done at midnight on 1 January 2024. *)
Definition sampleInput : ChangeOrderInput :=
  {| ChangeOrderInput.projectId := "P-1";
     ChangeOrderInput.contractorName := "Pat <pat>";
     ChangeOrderInput.contractorEmail := "pat@example.com";
     ChangeOrderInput.workPerformedAt := "2024-01-01T00:00:00.000Z";
     ChangeOrderInput.scope := "Extra drywall";
     ChangeOrderInput.quantity := 10%float;
     ChangeOrderInput.unitLabel := "sq ft";
     ChangeOrderInput.materialCost := 100%float;
     ChangeOrderInput.laborCost := 25.5%float;
     ChangeOrderInput.additionalCharges := 0%float;
     ChangeOrderInput.additionalChargesReason := "";
     ChangeOrderInput.whyNeeded := "Water damage";
     ChangeOrderInput.whyNotInTurnKey := "Hidden behind the wall";
     ChangeOrderInput.photos := ["https://example.com/wall.jpg"];
     ChangeOrderInput.isMultiItem := false;
     ChangeOrderInput.lineItems := [] |}.

(** [sampleInput] without its photo: the checklist blocks it. *)
Definition blockedInput : ChangeOrderInput :=
  {| ChangeOrderInput.projectId := "P-1";
     ChangeOrderInput.contractorName := "Pat <pat>";
     ChangeOrderInput.contractorEmail := "pat@example.com";
     ChangeOrderInput.workPerformedAt := "2024-01-01T00:00:00.000Z";
     ChangeOrderInput.scope := "Extra drywall";
     ChangeOrderInput.quantity := 10%float;
     ChangeOrderInput.unitLabel := "sq ft";
     ChangeOrderInput.materialCost := 100%float;
     ChangeOrderInput.laborCost := 25.5%float;
     ChangeOrderInput.additionalCharges := 0%float;
     ChangeOrderInput.additionalChargesReason := "";
     ChangeOrderInput.whyNeeded := "Water damage";
     ChangeOrderInput.whyNotInTurnKey := "Hidden behind the wall";
     ChangeOrderInput.photos := [];
     ChangeOrderInput.isMultiItem := false;
     ChangeOrderInput.lineItems := [] |}.

(** [sampleInput] at no cost: the price per unit is zero. *)
Definition freeInput : ChangeOrderInput :=
  {| ChangeOrderInput.projectId := "P-1";
     ChangeOrderInput.contractorName := "Pat <pat>";
     ChangeOrderInput.contractorEmail := "pat@example.com";
     ChangeOrderInput.workPerformedAt := "2024-01-01T00:00:00.000Z";
     ChangeOrderInput.scope := "Extra drywall";
     ChangeOrderInput.quantity := 10%float;
     ChangeOrderInput.unitLabel := "sq ft";
     ChangeOrderInput.materialCost := 0%float;
     ChangeOrderInput.laborCost := 0%float;
     ChangeOrderInput.additionalCharges := 0%float;
     ChangeOrderInput.additionalChargesReason := "";
     ChangeOrderInput.whyNeeded := "Water damage";
     ChangeOrderInput.whyNotInTurnKey := "Hidden behind the wall";
     ChangeOrderInput.photos := ["https://example.com/wall.jpg"];
     ChangeOrderInput.isMultiItem := false;
     ChangeOrderInput.lineItems := [] |}.

(** One in the morning of the same day, in milliseconds since the epoch. *)
Definition oneAM : Z := 1704070800000.

(** The store after [sampleInput] has been submitted at [oneAM]: one record,
    with the identifier [co_1704070800000_0]. *)
Definition submittedWorld : World :=
  run TestHost.host (SaveSubmission sampleInput) (TestHost.world oneAM).

Definition sampleId : string := "co_1704070800000_0".

(** The store after the submit route has served [blockedInput] at [oneAM]:
    one record, [BLOCKED], with the identifier [co_1704070800001_0] (the
    lateness check takes the first reading of the clock). *)
Definition blockedWorld : World :=
  (submit_POST TestHost.host blockedInput (TestHost.world oneAM)).2.

Definition blockedId : string := "co_1704070800001_0".

(** A world in which the clock stands still, as it does for the reads of one
    millisecond, and every draw is 0. *)
Definition stillWorld : World :=
  {| store := []; clock := λ _, oneAM; dice := λ _, 0%N |}.

(** A request for more information, as the decision route receives it. *)
Definition needsInfoPayload : DecisionPayload :=
  NEEDS_INFO_payload "Riley" "The supplier invoice is missing" "Please send the invoice"
    ["Supplier invoice"].

Definition approvePayload : DecisionPayload :=
  APPROVE_payload "Riley" 125.5%float "Invoice received" "Approved in full" false false.

(** An approval, as [applyTeamDecision] receives it. *)
Definition approveDecision : DecisionInput :=
  APPROVE "Riley" 125.5%float "Invoice received" (Some "Approved in full").

(** The store after the record of [submittedWorld] has been approved. *)
Definition approvedWorld : World :=
  run TestHost.host (ApplyTeamDecision sampleId approveDecision) submittedWorld.

Definition sentBySmtp : Delivery :=
  {| Delivery.status := DecisionEmailStatus.SENT;
     Delivery.error := None;
     Delivery.previewUrl := Some "https://mail.example.com/preview/1";
     Delivery.sentAt := Some "2024-01-01T01:00:02.000Z";
     Delivery.mode := Some DecisionEmailMode.smtp |}.

Definition failedDelivery : Delivery :=
  {| Delivery.status := DecisionEmailStatus.FAILED;
     Delivery.error := Some "Mailbox unavailable";
     Delivery.previewUrl := None;
     Delivery.sentAt := None;
     Delivery.mode := None |}.

(** The store after the submit route has served [sampleInput] at [oneAM]:
    one record, [SUBMITTED], with the identifier [co_1704070800001_0]. *)
Definition servedWorld : World :=
  serve TestHost.host (PostSubmit sampleInput) (TestHost.world oneAM).

Definition servedId : string := "co_1704070800001_0".

(** The store after the decision route has then served [approvePayload] for
    that record. *)
Definition decidedWorld : World :=
  serve TestHost.host (PostDecision servedId approvePayload) servedWorld.

(** The draft that has no field. *)
Definition emptyDraft : ChangeOrderDraftInput :=
  {| ChangeOrderDraftInput.projectId := None;
     ChangeOrderDraftInput.contractorName := None;
     ChangeOrderDraftInput.contractorEmail := None;
     ChangeOrderDraftInput.workPerformedAt := None;
     ChangeOrderDraftInput.scope := None;
     ChangeOrderDraftInput.quantity := None;
     ChangeOrderDraftInput.unitLabel := None;
     ChangeOrderDraftInput.materialCost := None;
     ChangeOrderDraftInput.laborCost := None;
     ChangeOrderDraftInput.additionalCharges := None;
     ChangeOrderDraftInput.additionalChargesReason := None;
     ChangeOrderDraftInput.whyNeeded := None;
     ChangeOrderDraftInput.whyNotInTurnKey := None;
     ChangeOrderDraftInput.photos := None;
     ChangeOrderDraftInput.isMultiItem := None;
     ChangeOrderDraftInput.lineItems := None |}.

(** A mail transport that accepts every message, and an environment that
    names a recipient. *)
Definition teamNotifier : Notifier :=
  {| NEW_CO_NOTIFY_TO := Some " team@example.com ";
     sendEmail := λ _,
       {| SendResult.sent := true;
          SendResult.mode := Some resend;
          SendResult.previewUrl := None;
          SendResult.error := None |} |}.

(** * Properties *)

(** ** Lists and strings *)

Lemma findIndex_lookup {A : Type} (p : A → bool) (l : list A) (i : nat) :
  findIndex p l = Some i → ∃ x, l !! i = Some x ∧ p x = true ∧ find p l = Some x.
Proof.
  revert i. induction l as [|y l IH]; intros i; simpl; [done|].
  destruct (p y) eqn:Hy.
  - intros [= <-]. eauto.
  - destruct (findIndex p l) as [j|]; simpl; [|done].
    intros [= <-]. destruct (IH j eq_refl) as (x & ? & ? & ?). eauto.
Qed.

Lemma find_findIndex {A : Type} (p : A → bool) (l : list A) (x : A) :
  find p l = Some x → ∃ i, findIndex p l = Some i ∧ l !! i = Some x.
Proof.
  induction l as [|y l IH]; simpl; [done|].
  destruct (p y).
  - intros [= <-]. by exists 0%nat.
  - intros H. destruct (IH H) as (i & -> & ?). by exists (S i).
Qed.

Lemma find_Some_holds {A : Type} (p : A → bool) (l : list A) (x : A) :
  find p l = Some x → p x = true.
Proof.
  induction l as [|y l IH]; simpl; [done|].
  destruct (p y) eqn:Hy; [by intros [= <-]|done].
Qed.

(** Writing at the position that [findIndex] returned puts the new element
    where the next search finds it, as long as it still satisfies the test. *)
Lemma find_insert {A : Type} (p : A → bool) (l : list A) (i : nat) (y : A) :
  findIndex p l = Some i → p y = true → find p (<[i := y]> l) = Some y.
Proof.
  revert i. induction l as [|x l IH]; intros i; simpl; [done|].
  destruct (p x) eqn:Hx.
  - intros [= <-] Hy. simpl. by rewrite Hy.
  - destruct (findIndex p l) as [j|]; simpl; [|done].
    intros [= <-] Hy. simpl. rewrite Hx. by apply IH.
Qed.

(** In a store whose identifiers are pairwise distinct, every record is the
    one that the store holds for its identifier. *)
Lemma find_member (s : list StoredChangeOrder) (record : StoredChangeOrder) :
  NoDup (StoredChangeOrder.id <$> s) → record ∈ s →
  find (hasId (StoredChangeOrder.id record)) s = Some record.
Proof.
  induction s as [|x s IH]; [by intros _ ?%elem_of_nil|].
  rewrite fmap_cons, NoDup_cons. intros [Hx Hs] [->|Hin]%elem_of_cons; simpl.
  - unfold hasId. by rewrite String.eqb_refl.
  - unfold hasId at 1. destruct (String.eqb_spec (StoredChangeOrder.id x)
                                   (StoredChangeOrder.id record)) as [Heq|_].
    + destruct Hx. rewrite Heq. apply list_elem_of_fmap. eauto.
    + by apply IH.
Qed.

Lemma normalizeRecord_id (record : StoredChangeOrder) : normalizeRecord record = record.
Proof. by destruct record as [? ? ? ? ? ? ? []]. Qed.

(** Running a bind: the first computation, then the second on its result
    and in the world that it leaves. *)
Lemma bind_run {A B : Type} (m : M A) (f : A → M B) (w : World) :
  (m ≫= f) w = f (m w).1 (m w).2.
Proof. reflexivity. Qed.


(** ** The finalization latch *)

(** C1. Finalization is a one-way latch: when the record that the store
    holds for [id] is finalized, [applyTeamDecision] returns it as it is for
    every decision, [updateTeamQueueItem] returns it as it is for every
    update, and neither changes the world: the store is the same, and no
    error is signalled. *)
Theorem finalized_record_is_latched (host : Host) (w : World) (id : string)
    (current : StoredChangeOrder) :
  find (hasId id) (store w) = Some current →
  StoredChangeOrder.isFinalized current = true →
  (∀ decision, applyTeamDecision host id decision w = (Some current, w))
  ∧ (∀ updates, updateTeamQueueItem host id updates w = (Some current, w)).
Proof.
  intros Hfind Hfin.
  destruct (find_findIndex _ _ _ Hfind) as (index & Hindex & Hlookup).
  split; intros ?.
  - unfold applyTeamDecision, mbind, M_bind, getStore; simpl.
    by rewrite Hindex, Hlookup, Hfin.
  - unfold updateTeamQueueItem, mbind, M_bind, getStore; simpl.
    by rewrite Hindex, Hlookup, Hfin.
Qed.

(** ** Lateness *)

(** C6. An unparseable timestamp is late (fail closed); a parseable one is
    late exactly when the time elapsed since then, read off the clock, is
    strictly more than 24 hours: at exactly 24h00m00s it is not late, one
    second later it is. *)
Theorem isPast24Hours_strictly_after_24h (host : Host) (w : World) (s : string) :
  (Date_parse host s = None → (isPast24Hours host s w).1 = true)
  ∧ (∀ workPerformedAt : Z, Date_parse host s = Some workPerformedAt →
       let elapsedMs := clock w 0%nat - workPerformedAt in
       ((isPast24Hours host s w).1 = true ↔ elapsedMs > 24 * 60 * 60 * 1000)
       ∧ (elapsedMs = 24 * 60 * 60 * 1000 → (isPast24Hours host s w).1 = false)
       ∧ (elapsedMs = 24 * 60 * 60 * 1000 + 1000 → (isPast24Hours host s w).1 = true)).
Proof.
  unfold isPast24Hours. split.
  - by intros ->.
  - intros t Ht. rewrite Ht. unfold mbind, M_bind, Date_now, dayMs; simpl.
    rewrite Z.gtb_ltb. split; [|split].
    + rewrite Z.ltb_lt. lia.
    + by intros ->.
    + by intros ->.
Qed.

(** ** The checklist *)

Section Checklist.
Context (target : string).

Lemma hasCode_nil : hasCode target [] ↔ False.
Proof. split; [|done]. intros (v & Hv & _). by apply elem_of_nil in Hv. Qed.

Lemma hasCode_push (violations : list ChecklistViolation) (v : ChecklistViolation) :
  hasCode target (push violations v)
  ↔ hasCode target violations ∨ ChecklistViolation.code v = target.
Proof.
  unfold hasCode, push. split.
  - intros (x & Hx & Hcode). apply elem_of_app in Hx as [Hx|Hx]; [left; eauto|].
    apply list_elem_of_singleton in Hx as ->. by right.
  - intros [(x & Hx & Hcode)|Hcode].
    + exists x. split; [|done]. apply elem_of_app. by left.
    + exists v. split; [|done]. apply elem_of_app. right. by apply list_elem_of_singleton.
Qed.

Lemma hasCode_cond (b : bool) (violations : list ChecklistViolation)
    (v : ChecklistViolation) :
  hasCode target (if b then push violations v else violations)
  ↔ hasCode target violations ∨ (b = true ∧ ChecklistViolation.code v = target).
Proof. destruct b; rewrite ?hasCode_push; intuition discriminate. Qed.

(** The loop over the line items only adds codes that begin with
    [line_item_]. *)
Lemma hasCode_lineItemViolations (index : nat) (lineItems : list LineItem)
    (violations : list ChecklistViolation) :
  (∀ n : nat, "line_item_" +:+ pretty n +:+ "_invalid" ≠ target) →
  hasCode target (lineItemViolations index lineItems violations)
  ↔ hasCode target violations.
Proof.
  intros Hne. revert index violations.
  induction lineItems as [|lineItem rest IH]; intros index violations; simpl; [done|].
  rewrite IH, hasCode_cond. simpl. specialize (Hne (index + 1)%nat). tauto.
Qed.

End Checklist.

(** C7. With the total cost the sum of the three costs, in the order
    [materialCost + laborCost + additionalCharges], the checklist reports
    [unit_price_unclear] exactly when the quantity is positive and the total
    cost divided by the quantity is at most zero. *)
Theorem unit_price_unclear_iff (input : ChangeOrderInput) :
  totalCost input
  = (ChangeOrderInput.materialCost input + ChangeOrderInput.laborCost input
     + ChangeOrderInput.additionalCharges input)%float
  ∧ (hasCode "unit_price_unclear" (evaluateChecklist input)
     ↔ (0 <? ChangeOrderInput.quantity input)%float = true
       ∧ (totalCost input / ChangeOrderInput.quantity input <=? 0)%float = true).
Proof.
  split; [done|].
  unfold evaluateChecklist. cbv zeta.
  assert (∀ n : nat, "line_item_" +:+ pretty n +:+ "_invalid" ≠ "unit_price_unclear")
    as Hline by (intros n; simpl; discriminate).
  destruct (ChangeOrderInput.isMultiItem input).
  - rewrite (hasCode_lineItemViolations _ _ _ _ Hline).
    rewrite !hasCode_cond, hasCode_nil, !andb_true_iff. simpl.
    intuition discriminate.
  - rewrite !hasCode_cond, hasCode_nil, !andb_true_iff. simpl.
    intuition discriminate.
Qed.

(** ** Delivery reconciliation *)

(** What one call does to the record that the store holds for [id]. *)
Lemma updateDecisionEmailDelivery_found (host : Host) (w : World) (id : string)
    (stored : StoredChangeOrder) (delivery : Delivery) :
  find (hasId id) (store w) = Some stored →
  let next :=
    stored
      <| StoredChangeOrder.decisionEmailStatus := Delivery.status delivery |>
      <| StoredChangeOrder.decisionEmailSentAt := Some (sentAtOf host w delivery) |>
      <| StoredChangeOrder.decisionEmailError := Delivery.error delivery |>
      <| StoredChangeOrder.decisionEmailPreviewUrl := Delivery.previewUrl delivery |>
      <| StoredChangeOrder.decisionEmailMode := Delivery.mode delivery |>
      <| StoredChangeOrder.updatedAt := updatedAtOf host w delivery |> in
  (updateDecisionEmailDelivery host id delivery w).1 = Some next
  ∧ find (hasId id) (store (updateDecisionEmailDelivery host id delivery w).2) = Some next
  ∧ dice (updateDecisionEmailDelivery host id delivery w).2 = dice w.
Proof.
  intros Hfind next.
  destruct (find_findIndex _ _ _ Hfind) as (index & Hindex & Hlookup).
  pose proof (find_Some_holds _ _ _ Hfind) as Hid.
  unfold updateDecisionEmailDelivery, mbind, M_bind, getStore; simpl.
  rewrite Hindex, Hlookup, normalizeRecord_id.
  subst next. unfold sentAtOf, updatedAtOf.
  destruct stored, (Delivery.sentAt delivery); simpl;
    (split; [done|split; [by apply find_insert|done]]).
Qed.

(** C10. On a record that the store holds, [updateDecisionEmailDelivery]
    always sets [decisionEmailSentAt], to the [sentAt] supplied or else to the
    current time, whatever the new status ([FAILED] included), and it writes
    the supplied [error], [previewUrl] and [mode] over the stored ones: an
    omitted one leaves the field absent, not the value it had. *)
Theorem updateDecisionEmailDelivery_overwrites (host : Host) (w : World) (id : string)
    (stored : StoredChangeOrder) (delivery : Delivery) :
  find (hasId id) (store w) = Some stored →
  ∃ next,
    (updateDecisionEmailDelivery host id delivery w).1 = Some next
    ∧ find (hasId id) (store (updateDecisionEmailDelivery host id delivery w).2) = Some next
    ∧ StoredChangeOrder.decisionEmailSentAt next
      = Some (match Delivery.sentAt delivery with
              | Some sentAt => sentAt
              | None => toISOString host (clock w 0%nat)
              end)
    ∧ StoredChangeOrder.decisionEmailStatus next = Delivery.status delivery
    ∧ StoredChangeOrder.decisionEmailError next = Delivery.error delivery
    ∧ StoredChangeOrder.decisionEmailPreviewUrl next = Delivery.previewUrl delivery
    ∧ StoredChangeOrder.decisionEmailMode next = Delivery.mode delivery.
Proof.
  intros Hfind.
  destruct (updateDecisionEmailDelivery_found host w id stored delivery Hfind)
    as (Hret & Hstore & _).
  eexists. split; [exact Hret|]. split; [exact Hstore|]. by destruct stored.
Qed.

(** C8. Two calls of [updateDecisionEmailDelivery] in a row on a record that
    the store holds both succeed, whether the record is finalized or not; the
    delivery fields of the record that results are those of the second call
    (the last write wins), and each call sets [updatedAt] to the time at
    which it runs. *)
Theorem updateDecisionEmailDelivery_last_write_wins (host : Host) (w : World)
    (id : string) (stored : StoredChangeOrder) (d1 d2 : Delivery) :
  find (hasId id) (store w) = Some stored →
  let first := updateDecisionEmailDelivery host id d1 w in
  let second := updateDecisionEmailDelivery host id d2 first.2 in
  ∃ next1 next2,
    first.1 = Some next1
    ∧ second.1 = Some next2
    ∧ find (hasId id) (store second.2) = Some next2
    ∧ StoredChangeOrder.decisionEmailStatus next2 = Delivery.status d2
    ∧ StoredChangeOrder.decisionEmailSentAt next2 = Some (sentAtOf host first.2 d2)
    ∧ StoredChangeOrder.decisionEmailError next2 = Delivery.error d2
    ∧ StoredChangeOrder.decisionEmailPreviewUrl next2 = Delivery.previewUrl d2
    ∧ StoredChangeOrder.decisionEmailMode next2 = Delivery.mode d2
    ∧ StoredChangeOrder.updatedAt next1 = updatedAtOf host w d1
    ∧ StoredChangeOrder.updatedAt next2 = updatedAtOf host first.2 d2
    ∧ StoredChangeOrder.isFinalized next2 = StoredChangeOrder.isFinalized stored.
Proof.
  intros Hfind first second.
  destruct (updateDecisionEmailDelivery_found host w id stored d1 Hfind)
    as (Hret1 & Hstore1 & _).
  destruct (updateDecisionEmailDelivery_found host first.2 id _ d2 Hstore1)
    as (Hret2 & Hstore2 & _).
  eexists _, _. split; [exact Hret1|]. split; [exact Hret2|].
  split; [exact Hstore2|]. by destruct stored.
Qed.

(** ** Reachable stores *)

Ltac run_operation :=
  unfold run, saveDraft, saveSubmission, saveBlocked, updateTeamQueueItem,
    applyTeamDecision, updateDecisionEmailDelivery, newId, nowISOString,
    mbind, M_bind, mret, M_ret, getStore, putStore, Date_now, random1000, push;
  simpl.

(** Every operation keeps the first direction, on every record of the
    store. *)
Lemma run_finalizedIsTerminal (host : Host) (op : Operation) (w : World) :
  Forall finalizedIsTerminal (store w) →
  Forall finalizedIsTerminal (store (run host op w)).
Proof.
  intros Hall.
  destruct op as [input|input|input reasons|id updates|id decision|id delivery];
    run_operation.
  - apply Forall_app. split; [done|]. by repeat constructor.
  - apply Forall_app. split; [done|]. by repeat constructor.
  - apply Forall_app. split; [done|]. by repeat constructor.
  - destruct (findIndex (hasId id) (store w)) as [index|]; [|done].
    destruct (store w !! index) as [current|] eqn:Hlookup; [|done].
    destruct (StoredChangeOrder.isFinalized current) eqn:Hfin; [done|]. simpl.
    apply Forall_insert; [done|]. destruct current. intros H. simpl in *. congruence.
  - destruct (findIndex (hasId id) (store w)) as [index|]; [|done].
    destruct (store w !! index) as [current|] eqn:Hlookup; [|done].
    destruct (StoredChangeOrder.isFinalized current) eqn:Hfin; [done|]. simpl.
    apply Forall_insert; [done|].
    destruct current, decision; intros H; simpl in *; auto; congruence.
  - destruct (findIndex (hasId id) (store w)) as [index|]; [|done].
    destruct (store w !! index) as [current|] eqn:Hlookup; [|done].
    rewrite normalizeRecord_id.
    pose proof (Forall_lookup_1 _ _ _ _ Hall Hlookup) as Hcur.
    destruct current, (Delivery.sentAt delivery); simpl;
      (apply Forall_insert; [done|]); intros H; apply Hcur, H.
Qed.

(** In every reachable store a finalized record is approved or denied. *)
Lemma reachable_finalizedIsTerminal (host : Host) (w : World) :
  reachable host w → Forall finalizedIsTerminal (store w).
Proof.
  induction 1 as [w Hempty|w op _ IH].
  - rewrite Hempty. constructor.
  - by apply run_finalizedIsTerminal.
Qed.

(** Every operation but a queue update that names [APPROVED] or [DENIED]
    keeps the other direction as well. *)
Lemma run_terminalIsFinalized (host : Host) (op : Operation) (w : World) :
  namesTerminalStatus op = false →
  Forall terminalIsFinalized (store w) →
  Forall terminalIsFinalized (store (run host op w)).
Proof.
  intros Hop Hall.
  destruct op as [input|input|input reasons|id updates|id decision|id delivery];
    run_operation.
  - apply Forall_app. split; [done|]. repeat constructor. by intros [|].
  - apply Forall_app. split; [done|]. repeat constructor. by intros [|].
  - apply Forall_app. split; [done|]. repeat constructor. by intros [|].
  - destruct (findIndex (hasId id) (store w)) as [index|]; [|done].
    destruct (store w !! index) as [current|] eqn:Hlookup; [|done].
    destruct (StoredChangeOrder.isFinalized current) eqn:Hfin; [done|]. simpl.
    pose proof (Forall_lookup_1 _ _ _ _ Hall Hlookup) as Hcur.
    apply Forall_insert; [done|]. unfold terminalIsFinalized in *.
    destruct current. simpl in *.
    destruct (QueueUpdates.teamStatus updates) as [[]|]; simpl in *;
      try done; intros [|]; try done; rewrite <- Hfin; apply Hcur; auto.
  - destruct (findIndex (hasId id) (store w)) as [index|]; [|done].
    destruct (store w !! index) as [current|] eqn:Hlookup; [|done].
    destruct (StoredChangeOrder.isFinalized current) eqn:Hfin; [done|]. simpl.
    apply Forall_insert; [done|].
    destruct current, decision; intros H; simpl in *; by destruct H.
  - destruct (findIndex (hasId id) (store w)) as [index|]; [|done].
    destruct (store w !! index) as [current|] eqn:Hlookup; [|done].
    rewrite normalizeRecord_id.
    pose proof (Forall_lookup_1 _ _ _ _ Hall Hlookup) as Hcur.
    destruct current, (Delivery.sentAt delivery); simpl;
      (apply Forall_insert; [done|]); intros H; apply Hcur, H.
Qed.

(** ** The sample worlds *)

Lemma sampleInput_valid :
  changeOrderInputSchema TestHost.host sampleInput = Some sampleInput.
Proof. vm_compute. reflexivity. Qed.

Lemma submittedWorld_lookup :
  ∃ record, find (hasId sampleId) (store submittedWorld) = Some record
            ∧ StoredChangeOrder.status record = SubmissionStatus.SUBMITTED
            ∧ StoredChangeOrder.isFinalized record = false.
Proof. eexists. vm_compute. done. Qed.

(** ** Finalization and the team status *)

(** C2 (the code departs from the claim). A queue update that names the team
    status [APPROVED], which [updateSchema] lets through, on the record that
    a submission has just created: the record that results is in a reachable
    store, has team status [APPROVED] and is not finalized, so the two do not
    go together. [applyTeamDecision] sets both at once; [updateTeamQueueItem]
    writes the team status and leaves [isFinalized] as it was. *)
Theorem updateTeamQueueItem_terminal_status_not_finalized :
  let updates :=
    {| QueueUpdates.teamStatus := Some TeamQueueStatus.APPROVED;
       QueueUpdates.reviewerNotes := None |} in
  let w := run TestHost.host (UpdateTeamQueueItem sampleId updates) submittedWorld in
  reachable TestHost.host w
  ∧ ∃ record,
      store w = [record]
      ∧ (update_PATCH TestHost.host sampleId updates submittedWorld).1
        = Update_ok_200 record
      ∧ StoredChangeOrder.teamStatus record = TeamQueueStatus.APPROVED
      ∧ StoredChangeOrder.isFinalized record = false.
Proof.
  cbv zeta. split.
  - apply reachable_run, reachable_run. by apply reachable_empty.
  - eexists. vm_compute. done.
Qed.

(** ** Decisions and the notification *)

(** The content depends on none of the fields that [prepareDecisionEmail]
    writes. *)
Lemma buildDecisionEmailContent_prepareDecisionEmail (host : Host)
    (record : StoredChangeOrder) :
  buildDecisionEmailContent host (prepareDecisionEmail host record)
  = buildDecisionEmailContent host record.
Proof. by destruct record. Qed.

(** What a decision on a record that is not finalized does to the
    notification fields: the content is that of the record as the decision
    leaves it, the status is [PENDING], and the time of sending, the error
    and the preview address are absent; the delivery mode is the one that
    the record had. *)
Lemma applyTeamDecision_notification (host : Host) (w : World) (id : string)
    (current : StoredChangeOrder) (decision : DecisionInput) :
  find (hasId id) (store w) = Some current →
  StoredChangeOrder.isFinalized current = false →
  ∃ next,
    (applyTeamDecision host id decision w).1 = Some next
    ∧ find (hasId id) (store (applyTeamDecision host id decision w).2) = Some next
    ∧ StoredChangeOrder.decisionEmailSubject next
      = Some (EmailContent.subject (buildDecisionEmailContent host next))
    ∧ StoredChangeOrder.decisionEmailBody next
      = Some (EmailContent.body (buildDecisionEmailContent host next))
    ∧ StoredChangeOrder.decisionEmailHtml next
      = Some (EmailContent.html (buildDecisionEmailContent host next))
    ∧ StoredChangeOrder.decisionEmailStatus next = DecisionEmailStatus.PENDING
    ∧ StoredChangeOrder.decisionEmailSentAt next = None
    ∧ StoredChangeOrder.decisionEmailError next = None
    ∧ StoredChangeOrder.decisionEmailPreviewUrl next = None
    ∧ StoredChangeOrder.decisionEmailMode next
      = StoredChangeOrder.decisionEmailMode current.
Proof.
  intros Hfind Hfin.
  destruct (find_findIndex _ _ _ Hfind) as (index & Hindex & Hlookup).
  pose proof (find_Some_holds _ _ _ Hfind) as Hid.
  unfold applyTeamDecision, mbind, M_bind, getStore; simpl.
  rewrite Hindex, Hlookup, Hfin. simpl.
  eexists. split; [reflexivity|].
  split; [apply find_insert; [done|by destruct current, decision]|].
  by destruct current, decision.
Qed.

(** C3 (the code departs from the claim). The record of [submittedWorld]
    after the decision route has served a request for more information: the
    notification went out by SMTP, and the record, not finalized, says so in
    [decisionEmailMode]. An approval then regenerates the notification and
    sets the other delivery fields back ([PENDING], no time of sending, no
    error, no preview address), yet the record still carries the delivery
    mode of the notification before: [prepareDecisionEmail] does not write
    [decisionEmailMode]. *)
Theorem applyTeamDecision_keeps_decisionEmailMode :
  let before := (decision_POST TestHost.host sampleId needsInfoPayload submittedWorld).2 in
  let result := applyTeamDecision TestHost.host sampleId approveDecision before in
  ∃ current next,
    find (hasId sampleId) (store before) = Some current
    ∧ StoredChangeOrder.isFinalized current = false
    ∧ StoredChangeOrder.decisionEmailStatus current = DecisionEmailStatus.SENT
    ∧ StoredChangeOrder.decisionEmailMode current = Some DecisionEmailMode.smtp
    ∧ result.1 = Some next
    ∧ find (hasId sampleId) (store result.2) = Some next
    ∧ StoredChangeOrder.decisionStatus next = DecisionStatus.APPROVED
    ∧ StoredChangeOrder.decisionEmailStatus next = DecisionEmailStatus.PENDING
    ∧ StoredChangeOrder.decisionEmailSentAt next = None
    ∧ StoredChangeOrder.decisionEmailError next = None
    ∧ StoredChangeOrder.decisionEmailPreviewUrl next = None
    ∧ StoredChangeOrder.decisionEmailMode next = Some DecisionEmailMode.smtp.
Proof. cbv zeta. eexists _, _. vm_compute. done. Qed.

(** ** Submission *)

Lemma occurs_app (c : ascii) (s t : string) :
  occurs c (s +:+ t) = occurs c s || occurs c t.
Proof. induction s as [|x s IH]; simpl; [done|]. by rewrite IH, orb_assoc. Qed.

(** The decimal expansion of a number holds no underscore. *)
Lemma pretty_N_char_underscore (n : N) : Ascii.eqb (pretty_N_char n) "_" = false.
Proof. unfold pretty_N_char. by repeat case_match. Qed.

Lemma pretty_N_go_underscore (n : N) (s : string) :
  occurs "_" s = false → occurs "_" (pretty_N_go n s) = false.
Proof.
  revert s. induction (N.lt_wf_0 n) as [n _ IH]; intros s Hs.
  destruct (decide (n = 0)%N) as [->|Hn]; [by rewrite pretty_N_go_0|].
  rewrite pretty_N_go_step by lia. apply IH.
  - apply N.div_lt; lia.
  - simpl. by rewrite pretty_N_char_underscore.
Qed.

Lemma pretty_N_underscore (n : N) : occurs "_" (pretty n) = false.
Proof.
  unfold pretty, pretty_N. case_decide; [done|]. by apply pretty_N_go_underscore.
Qed.

Lemma pretty_Z_underscore (z : Z) : occurs "_" (pretty z) = false.
Proof.
  destruct z as [|p|p]; [done|apply pretty_N_underscore|].
  unfold pretty, pretty_Z. rewrite occurs_app. simpl. apply pretty_N_underscore.
Qed.

(** Two strings free of underscores, each followed by an underscore and a
    rest, that make the same string, are the same, and so are the rests. *)
Lemma underscore_splits (a a' b b' : string) :
  occurs "_" a = false → occurs "_" a' = false →
  a +:+ "_" +:+ b = a' +:+ "_" +:+ b' → a = a' ∧ b = b'.
Proof.
  revert a'. induction a as [|x a IH]; intros [|x' a']; simpl.
  - intros _ _ Heq. by simplify_eq.
  - intros _ Ha' Heq. by simplify_eq.
  - intros Ha _ Heq. by simplify_eq.
  - intros Ha Ha' Heq. simplify_eq.
    apply orb_false_iff in Ha as [_ Ha]. apply orb_false_iff in Ha' as [_ Ha'].
    destruct (IH a' Ha Ha' ltac:(done)) as [-> ->]. done.
Qed.

(** An identifier determines the time and the draw that it was minted
    from. *)
Lemma mintId_inj (now now' : Z) (draw draw' : N) :
  mintId now draw = mintId now' draw' → now = now' ∧ draw = draw'.
Proof.
  unfold mintId. intros [= Heq].
  apply underscore_splits in Heq as [Hnow Hdraw]; try apply pretty_Z_underscore.
  split; [by apply (inj pretty)|by apply (inj pretty)].
Qed.

(** C4, as stated, fails: the identifier that a submission mints is not
    always fresh. Two submissions in the same millisecond with the same
    draw: the second record is created under the identifier of the first. *)
Lemma submit_identifier_not_fresh :
  let first := submit_POST TestHost.host sampleInput stillWorld in
  let second := submit_POST TestHost.host sampleInput first.2 in
  ∃ record1 record2,
    first.1 = Submit_ok_200 record1
    ∧ second.1 = Submit_ok_200 record2
    ∧ store first.2 = [record1]
    ∧ store second.2 = [record1; record2]
    ∧ StoredChangeOrder.id record2 = StoredChangeOrder.id record1.
Proof. cbv zeta. eexists _, _. vm_compute. done. Qed.

(** C4, amended. A valid payload always creates a record, appended to the
    store, so that no stored record changes. With the reasons that block (the
    messages of the checklist in the order of evaluation, then the lateness
    message when the work is late) empty, the record is [SUBMITTED] and
    [submittedAt] is set; with some reason, the record is [BLOCKED] and its
    [blockingReasons] are those reasons, in that order. The identifier is
    minted from the reading of the clock and the draw: it is the identifier
    of no other time or draw, and nothing more is known of its freshness. *)
Theorem submit_creates_record (host : Host) (w : World)
    (payload data : ChangeOrderInput) :
  changeOrderInputSchema host payload = Some data →
  let lateness := isPast24Hours host (ChangeOrderInput.workPerformedAt data) w in
  let reasons := combinedReasons data lateness.1 in
  let result := submit_POST host payload w in
  ∃ record,
    store result.2 = store w ++ [record]
    ∧ StoredChangeOrder.input record = data
    ∧ match reasons with
      | [] =>
          result.1 = Submit_ok_200 record
          ∧ StoredChangeOrder.status record = SubmissionStatus.SUBMITTED
          ∧ StoredChangeOrder.submittedAt record
            = Some (toISOString host (clock lateness.2 3%nat))
          ∧ StoredChangeOrder.blockingReasons record = None
      | _ :: _ =>
          result.1 = Submit_blocked_422 record reasons
          ∧ StoredChangeOrder.status record = SubmissionStatus.BLOCKED
          ∧ StoredChangeOrder.submittedAt record = None
          ∧ StoredChangeOrder.blockingReasons record = Some reasons
      end
    ∧ StoredChangeOrder.id record = mintId (clock lateness.2 0%nat) (dice w 0%nat)
    ∧ ∀ now draw, StoredChangeOrder.id record = mintId now draw →
        now = clock lateness.2 0%nat ∧ draw = dice w 0%nat.
Proof.
  intros Hparse lateness reasons result.
  subst result reasons lateness. unfold submit_POST, combinedReasons.
  rewrite Hparse.
  generalize (ChecklistViolation.message <$> evaluateChecklist data). intros messages.
  unfold mbind, M_bind. cbn beta.
  destruct (isPast24Hours host (ChangeOrderInput.workPerformedAt data) w)
    as [late w'] eqn:Hlate.
  assert (dice w' = dice w) as Hdice.
  { unfold isPast24Hours in Hlate.
    destruct (Date_parse host (ChangeOrderInput.workPerformedAt data));
      by inversion Hlate. }
  assert (store w' = store w) as Hstore.
  { unfold isPast24Hours in Hlate.
    destruct (Date_parse host (ChangeOrderInput.workPerformedAt data));
      by inversion Hlate. }
  cbn [fst snd]. rewrite <- Hdice, <- Hstore.
  destruct late, messages as [|message messages]; run_operation;
    rewrite ?app_nil_r; (eexists; split; [reflexivity|]); simpl;
    repeat split; auto;
    match goal with H : mintId _ _ = mintId _ _ |- _ => symmetry in H; apply mintId_inj in H end;
    tauto.
Qed.

(** ** The decision boundary *)










(** ** Escaping in the notification *)

Lemma occurs_replaceAll_same (c : ascii) (by_ s : string) :
  occurs c by_ = false → occurs c (replaceAll c by_ s) = false.
Proof.
  intros Hby. induction s as [|x s IH]; simpl; [done|].
  destruct (Ascii.eqb x c) eqn:Hx.
  - by rewrite occurs_app, Hby, IH.
  - simpl. by rewrite Hx, IH.
Qed.

Lemma occurs_replaceAll_other (c x : ascii) (by_ s : string) :
  occurs c by_ = false → occurs c s = false → occurs c (replaceAll x by_ s) = false.
Proof.
  intros Hby. induction s as [|y s IH]; simpl; [done|].
  intros [Hy Hs]%orb_false_iff.
  destruct (Ascii.eqb y x).
  - by rewrite occurs_app, Hby, IH.
  - simpl. by rewrite Hy, IH.
Qed.

Lemma escapeHtml_no_markup (s : string) (c : ascii) :
  isMarkup c = true → occurs c (escapeHtml s) = false.
Proof.
  unfold isMarkup, escapeHtml.
  intros [[[Hc|Hc]%orb_true_iff|Hc]%orb_true_iff|Hc]%orb_true_iff;
    apply Ascii.eqb_eq in Hc as ->.
  - do 2 (apply occurs_replaceAll_other; [done|]).
    apply occurs_replaceAll_other; [done|]. by apply occurs_replaceAll_same.
  - do 2 (apply occurs_replaceAll_other; [done|]). by apply occurs_replaceAll_same.
  - apply occurs_replaceAll_other; [done|]. by apply occurs_replaceAll_same.
  - by apply occurs_replaceAll_same.
Qed.

Lemma markup_app (s t : string) : markup (s +:+ t) = markup s +:+ markup t.
Proof.
  induction s as [|c s IH]; simpl; [done|].
  destruct (isMarkup c); simpl; by rewrite IH.
Qed.

Lemma markup_free (s : string) :
  (∀ c, isMarkup c = true → occurs c s = false) → markup s = "".
Proof.
  induction s as [|x s IH]; simpl; [done|]. intros Hfree.
  destruct (isMarkup x) eqn:Hx.
  - specialize (Hfree x Hx). simpl in Hfree. by rewrite Ascii.eqb_refl in Hfree.
  - apply IH. intros c Hc. specialize (Hfree c Hc). simpl in Hfree.
    by apply orb_false_iff in Hfree as [_ ?].
Qed.

Lemma markup_escapeHtml (s : string) : markup (escapeHtml s) = "".
Proof. apply markup_free. intros c. apply escapeHtml_no_markup. Qed.

Lemma truthy_app (s t : string) : truthy (s +:+ t) = truthy s || truthy t.
Proof. by destruct s. Qed.

Lemma truthy_replaceAll (c : ascii) (by_ s : string) :
  truthy by_ = true → truthy (replaceAll c by_ s) = truthy s.
Proof.
  intros Hby. destruct s as [|x s]; simpl; [done|].
  destruct (Ascii.eqb x c); [|done]. by rewrite truthy_app, Hby.
Qed.

(** Escaping keeps a string empty or not. *)
Lemma truthy_escapeHtml (s : string) : truthy (escapeHtml s) = truthy s.
Proof. unfold escapeHtml. by rewrite !truthy_replaceAll. Qed.

Section Markup.
Context (a b : string).

(** The markup of the list items depends on their number only. *)
Lemma markup_items (l l' : list string) :
  length l = length l' →
  markup (join "" ((λ line, a +:+ escapeHtml line +:+ b) <$> l))
  = markup (join "" ((λ line, a +:+ escapeHtml line +:+ b) <$> l')).
Proof.
  revert l'. induction l as [|x l IH]; intros [|x' l'] Hlen; try done.
  injection Hlen as Hlen. specialize (IH l' Hlen).
  destruct l as [|y l], l' as [|y' l']; try done.
  - cbn [fmap list_fmap join]. by rewrite !markup_app, !markup_escapeHtml.
  - change (markup ((a +:+ escapeHtml x +:+ b) +:+ "" +:+
                    join "" ((λ line, a +:+ escapeHtml line +:+ b) <$> y :: l))
            = markup ((a +:+ escapeHtml x' +:+ b) +:+ "" +:+
                      join "" ((λ line, a +:+ escapeHtml line +:+ b) <$> y' :: l'))).
    rewrite !(markup_app (a +:+ _)), !(markup_app ""), IH.
    by rewrite !markup_app, !markup_escapeHtml.
Qed.

End Markup.

Lemma markup_messageParagraph (m m' : string) :
  truthy m = truthy m' →
  markup (messageParagraph (escapeHtml m)) = markup (messageParagraph (escapeHtml m')).
Proof.
  intros Hm. unfold messageParagraph. rewrite !truthy_escapeHtml, Hm.
  destruct (truthy m'); [|done]. by rewrite !markup_app, !markup_escapeHtml.
Qed.

(** The markup of the HTML body is that of the template: no text of the
    record adds to it or takes from it. *)
Lemma markup_html (host : Host) (r r' : StoredChangeOrder) :
  sameFrame r r' →
  markup (EmailContent.html (buildDecisionEmailContent host r))
  = markup (EmailContent.html (buildDecisionEmailContent host r')).
Proof.
  intros (Hstatus & Hamount & Hmessage & Hlength).
  unfold buildDecisionEmailContent. rewrite Hstatus, Hamount, Hlength.
  fold (messageOf r) (messageOf r').
  destruct (StoredChangeOrder.decisionStatus r'); cbn [EmailContent.html];
    unfold wrapHtml, baseFooter;
    rewrite !markup_app, !markup_escapeHtml, (markup_messageParagraph _ _ Hmessage);
    try reflexivity.
  all: destruct (0 <? length (StoredChangeOrder.needsInfoChecklist r'))%nat;
    [|reflexivity].
  all: by rewrite !markup_app, (markup_items _ _ _ _ Hlength).
Qed.

(** *** Occurrences of the fields *)

Lemma append_assoc (s t u : string) : (s +:+ t) +:+ u = s +:+ t +:+ u.
Proof.
  induction s as [|c s IH]; [done|].
  change (String c ((s +:+ t) +:+ u) = String c (s +:+ t +:+ u)). by rewrite IH.
Qed.

Lemma append_nil_r (s : string) : s +:+ "" = s.
Proof.
  induction s as [|c s IH]; [done|].
  change (String c (s +:+ "") = String c s). by rewrite IH.
Qed.

Lemma substring_of_refl (x : string) : substring_of x x.
Proof. exists "", "". simpl. by rewrite append_nil_r. Qed.

Lemma substring_of_here (x post : string) : substring_of x (x +:+ post).
Proof. by exists "", post. Qed.

Lemma substring_of_left (x s t : string) : substring_of x s → substring_of x (s +:+ t).
Proof.
  intros (pre & post & ->). exists pre, (post +:+ t). by rewrite !append_assoc.
Qed.

Lemma substring_of_skip (x s t : string) : substring_of x t → substring_of x (s +:+ t).
Proof.
  intros (pre & post & ->). exists (s +:+ pre), post. by rewrite !append_assoc.
Qed.

Lemma substring_of_join {A : Type} (f g : A → string) (sep : string) (l : list A)
    (x : A) :
  (∀ y, substring_of (g y) (f y)) → x ∈ l → substring_of (g x) (join sep (f <$> l)).
Proof.
  intros Hfg. induction l as [|y l IH]; [by intros ?%elem_of_nil|].
  intros [->|Hx]%elem_of_cons.
  - destruct l; [apply Hfg|]. apply substring_of_left, Hfg.
  - destruct l as [|z l]; [by apply elem_of_nil in Hx|].
    change (substring_of (g x) (f y +:+ sep +:+ join sep (f <$> z :: l))).
    by apply substring_of_skip, substring_of_skip, IH.
Qed.

(** Search of an occurrence along the concatenations of a string. *)
Ltac find_substring :=
  solve [ apply substring_of_refl
        | apply substring_of_here
        | apply substring_of_left; find_substring
        | apply substring_of_skip; find_substring ].

(** The same, down to an occurrence that is known. *)
Ltac find_substring_in H :=
  solve [ exact H
        | apply substring_of_left; find_substring_in H
        | apply substring_of_skip; find_substring_in H ].

Lemma nonempty_list_length {A : Type} (l : list A) (x : A) :
  x ∈ l → (0 <? length l)%nat = true.
Proof. destruct l; [by intros ?%elem_of_nil|done]. Qed.

(** The plain-text body holds the fields as they are. *)
Lemma body_embeds_fields (host : Host) (record : StoredChangeOrder) :
  let body := EmailContent.body (buildDecisionEmailContent host record) in
  substring_of (contractorNameOf record) body
  ∧ substring_of (projectLabelOf record) body
  ∧ (truthy (messageOf record) = true → substring_of (messageOf record) body)
  ∧ (StoredChangeOrder.decisionStatus record = DecisionStatus.DENIED →
     substring_of (denialReasonOf record) body)
  ∧ (StoredChangeOrder.decisionStatus record ≠ DecisionStatus.APPROVED →
     StoredChangeOrder.decisionStatus record ≠ DecisionStatus.DENIED →
     ∀ line, line ∈ StoredChangeOrder.needsInfoChecklist record →
             substring_of line body).
Proof.
  intros body. subst body. unfold buildDecisionEmailContent.
  fold (contractorNameOf record) (projectLabelOf record) (denialReasonOf record).
  repeat split.
  - destruct (StoredChangeOrder.decisionStatus record); cbn [EmailContent.body];
      find_substring.
  - destruct (StoredChangeOrder.decisionStatus record); cbn [EmailContent.body];
      find_substring.
  - unfold messageOf, messageLines.
    destruct (StoredChangeOrder.contractorFacingMessage record) as [m|]; [|done].
    unfold nullish, or_else.
    destruct (truthy m); [intros _|done].
    destruct (StoredChangeOrder.decisionStatus record); cbn [EmailContent.body];
      find_substring.
  - intros ->. cbn [EmailContent.body]. find_substring.
  - intros Happroved Hdenied line Hline.
    rewrite (nonempty_list_length _ _ Hline).
    pose proof (substring_of_join (λ line, "- " +:+ line) (λ line, line) nl _ _
                  (λ y, substring_of_skip _ _ _ (substring_of_refl y)) Hline) as Hitems.
    destruct (StoredChangeOrder.decisionStatus record); cbn [EmailContent.body];
      try done; find_substring_in Hitems.
Qed.

(** The HTML body holds the fields escaped. *)
Lemma html_embeds_fields (host : Host) (record : StoredChangeOrder) :
  let html := EmailContent.html (buildDecisionEmailContent host record) in
  substring_of (escapeHtml (contractorNameOf record)) html
  ∧ substring_of (escapeHtml (projectLabelOf record)) html
  ∧ (truthy (messageOf record) = true →
     substring_of (escapeHtml (messageOf record)) html)
  ∧ (StoredChangeOrder.decisionStatus record = DecisionStatus.DENIED →
     substring_of (escapeHtml (denialReasonOf record)) html)
  ∧ (StoredChangeOrder.decisionStatus record ≠ DecisionStatus.APPROVED →
     StoredChangeOrder.decisionStatus record ≠ DecisionStatus.DENIED →
     ∀ line, line ∈ StoredChangeOrder.needsInfoChecklist record →
             substring_of (escapeHtml line) html).
Proof.
  intros html. subst html. unfold buildDecisionEmailContent.
  fold (contractorNameOf record) (projectLabelOf record) (denialReasonOf record)
    (messageOf record).
  repeat split.
  - destruct (StoredChangeOrder.decisionStatus record); cbn [EmailContent.html];
      unfold wrapHtml; find_substring.
  - destruct (StoredChangeOrder.decisionStatus record); cbn [EmailContent.html];
      unfold wrapHtml; find_substring.
  - intros Hmessage. unfold messageParagraph.
    rewrite truthy_escapeHtml, Hmessage.
    destruct (StoredChangeOrder.decisionStatus record); cbn [EmailContent.html];
      unfold wrapHtml; find_substring.
  - intros ->. cbn [EmailContent.html]. unfold wrapHtml. find_substring.
  - intros Happroved Hdenied line Hline.
    rewrite (nonempty_list_length _ _ Hline).
    pose proof (substring_of_join
                  (λ line, tpl "<li style=`margin:0 0 6px;`>" +:+ escapeHtml line +:+ "</li>")
                  escapeHtml "" _ _
                  (λ y, substring_of_skip _ _ _ (substring_of_here _ _)) Hline) as Hitems.
    destruct (StoredChangeOrder.decisionStatus record); cbn [EmailContent.html];
      try done; unfold wrapHtml; find_substring_in Hitems.
Qed.

(** C9. What [escapeHtml] returns holds none of the characters [<], [>],
    double quote and single quote. The HTML body of a notification takes the
    contractor name, the project label, the denial reason code, the lines of
    the needs-info checklist and the contractor-facing message through
    [escapeHtml] only: each is there escaped, and the markup characters of
    the body are those of the template, whatever these texts are. The
    plain-text body holds the same fields as they are. *)
Theorem notification_fields_are_escaped (host : Host) :
  (∀ s, occurs "<" (escapeHtml s) = false
        ∧ occurs ">" (escapeHtml s) = false
        ∧ occurs "034" (escapeHtml s) = false
        ∧ occurs "'" (escapeHtml s) = false)
  ∧ (∀ record,
       let content := buildDecisionEmailContent host record in
       let html := EmailContent.html content in
       let body := EmailContent.body content in
       (substring_of (escapeHtml (contractorNameOf record)) html
        ∧ substring_of (contractorNameOf record) body)
       ∧ (substring_of (escapeHtml (projectLabelOf record)) html
          ∧ substring_of (projectLabelOf record) body)
       ∧ (truthy (messageOf record) = true →
          substring_of (escapeHtml (messageOf record)) html
          ∧ substring_of (messageOf record) body)
       ∧ (StoredChangeOrder.decisionStatus record = DecisionStatus.DENIED →
          substring_of (escapeHtml (denialReasonOf record)) html
          ∧ substring_of (denialReasonOf record) body)
       ∧ (StoredChangeOrder.decisionStatus record ≠ DecisionStatus.APPROVED →
          StoredChangeOrder.decisionStatus record ≠ DecisionStatus.DENIED →
          ∀ line, line ∈ StoredChangeOrder.needsInfoChecklist record →
                  substring_of (escapeHtml line) html ∧ substring_of line body))
  ∧ (∀ record record',
       sameFrame record record' →
       markup (EmailContent.html (buildDecisionEmailContent host record))
       = markup (EmailContent.html (buildDecisionEmailContent host record'))).
Proof.
  split; [|split].
  - intros s. repeat split; by apply escapeHtml_no_markup.
  - intros record content html body. subst html body content.
    destruct (html_embeds_fields host record) as (H1 & H2 & H3 & H4 & H5).
    destruct (body_embeds_fields host record) as (B1 & B2 & B3 & B4 & B5).
    repeat split; auto.
  - apply markup_html.
Qed.

(** ** The operations, record by record *)

Lemma findIndex_None {A : Type} (p : A → bool) (l : list A) :
  find p l = None → findIndex p l = None.
Proof.
  induction l as [|x l IH]; simpl; [done|].
  destruct (p x); [done|]. intros H. by rewrite (IH H).
Qed.

Lemma find_app_None {A : Type} (p : A → bool) (l l' : list A) :
  find p l = None → find p (l ++ l') = find p l'.
Proof.
  induction l as [|x l IH]; simpl; [done|]. destruct (p x); [done|apply IH].
Qed.

Lemma find_app_Some {A : Type} (p : A → bool) (l l' : list A) (x : A) :
  find p l = Some x → find p (l ++ l') = Some x.
Proof.
  induction l as [|y l IH]; simpl; [done|]. destruct (p y); [done|apply IH].
Qed.

(** An operation that addresses an identifier that the store does not hold
    returns [null] and leaves the world as it is; on one that it holds, the
    operation either returns the record as it is (the record is finalized) or
    writes a changed record at the position of the first record with that
    identifier. *)
Lemma run_target (host : Host) (op : Operation) (w : World) (id : string) :
  addressed op = Some id →
  match findIndex (hasId id) (store w) with
  | None => run host op w = w ∧ returned host op w = None
  | Some index =>
      ∃ current,
        store w !! index = Some current
        ∧ ((run host op w = w ∧ returned host op w = Some current
            ∧ StoredChangeOrder.isFinalized current = true)
           ∨ ∃ next,
               change host current next
               ∧ store (run host op w) = <[index := next]> (store w)
               ∧ returned host op w = Some next
               ∧ StoredChangeOrder.id next = StoredChangeOrder.id current)
  end.
Proof.
  destruct op as [input|input|input reasons|id' updates|id' decision|id' delivery];
    try done; intros [= ->]; unfold run, returned.
  - unfold updateTeamQueueItem, mbind, M_bind, getStore; simpl.
    destruct (findIndex (hasId id) (store w)) as [index|] eqn:Hindex; [|done].
    destruct (findIndex_lookup _ _ _ Hindex) as (current & Hlookup & _ & _).
    exists current. split; [done|]. rewrite Hlookup.
    destruct (StoredChangeOrder.isFinalized current) eqn:Hfin; [by left|]. right.
    exists (queueUpdated updates (toISOString host (clock w 0%nat)) current).
    split; [by constructor|]. split; [done|]. split; [done|]. by destruct current.
  - unfold applyTeamDecision, mbind, M_bind, getStore; simpl.
    destruct (findIndex (hasId id) (store w)) as [index|] eqn:Hindex; [|done].
    destruct (findIndex_lookup _ _ _ Hindex) as (current & Hlookup & _ & _).
    exists current. split; [done|]. rewrite Hlookup.
    destruct (StoredChangeOrder.isFinalized current) eqn:Hfin; [by left|]. right.
    exists (decided host decision (toISOString host (clock w 0%nat)) current).
    split; [by constructor|]. split; [done|]. split; [done|].
    by destruct current, decision.
  - unfold updateDecisionEmailDelivery, mbind, M_bind, getStore; simpl.
    destruct (findIndex (hasId id) (store w)) as [index|] eqn:Hindex; [|done].
    destruct (findIndex_lookup _ _ _ Hindex) as (current & Hlookup & _ & _).
    exists current. split; [done|]. rewrite Hlookup, normalizeRecord_id. right.
    exists (delivered delivery (sentAtOf host w delivery) (updatedAtOf host w delivery)
              current).
    split; [by constructor|]. unfold sentAtOf, updatedAtOf.
    destruct (Delivery.sentAt delivery); (split; [done|]); (split; [done|]);
      by destruct current.
Qed.

(** An operation that addresses no identifier appends one record, in the
    state of a new record, under the identifier minted from the first reading
    of the clock and the first draw. *)
Lemma run_create (host : Host) (op : Operation) (w : World) :
  addressed op = None →
  ∃ record,
    returned host op w = Some record
    ∧ store (run host op w) = store w ++ [record]
    ∧ isNew record
    ∧ StoredChangeOrder.id record = mintId (clock w 0%nat) (dice w 0%nat).
Proof.
  destruct op as [input|input|input reasons|id' updates|id' decision|id' delivery];
    try done; intros _; eexists; (split; [reflexivity|]); (split; [reflexivity|]);
    (split; [by repeat split|reflexivity]).
Qed.

Lemma run_step (host : Host) (op : Operation) (w : World) :
  step host (store w) (store (run host op w)).
Proof.
  destruct (addressed op) as [id|] eqn:Htarget.
  - pose proof (run_target host op w id Htarget) as H.
    destruct (findIndex (hasId id) (store w)) as [index|].
    + destruct H as (current & Hlookup & [(-> & _)|(next & Hchange & -> & _)]).
      * constructor.
      * by econstructor.
    + destruct H as [-> _]. constructor.
  - destruct (run_create host op w Htarget) as (record & _ & -> & Hnew & _).
    by constructor.
Qed.

(** A property of records that new records have and that no change undoes
    holds of the records of every store that the operations reach. *)
Lemma step_Forall (host : Host) (P : StoredChangeOrder → Prop)
    (s s' : list StoredChangeOrder) :
  (∀ record, isNew record → P record) →
  (∀ current next, P current → change host current next → P next) →
  step host s s' → Forall P s → Forall P s'.
Proof.
  intros Hnew Hchange Hstep Hall. destruct Hstep as [|record Hrecord|index current next Hlookup Hnext].
  - done.
  - apply Forall_app. split; [done|]. repeat constructor. by apply Hnew.
  - apply Forall_insert; [done|]. apply (Hchange current); [|done].
    by apply (Forall_lookup_1 _ _ _ _ Hall Hlookup).
Qed.

Lemma reachable_Forall (host : Host) (P : StoredChangeOrder → Prop) (w : World) :
  (∀ record, isNew record → P record) →
  (∀ current next, P current → change host current next → P next) →
  reachable host w → Forall P (store w).
Proof.
  intros Hnew Hchange. induction 1 as [w Hempty|w op _ IH].
  - rewrite Hempty. constructor.
  - apply (step_Forall host P (store w)); [done|done|apply run_step|done].
Qed.

(** ** The store *)

(** X1. An identifier that no stored record has: the lookup returns [null],
    and so do the queue update, the decision and the delivery update, none of
    which writes to the store or reads the clock. *)
Theorem unknown_identifier_is_null (host : Host) (w : World) (id : string) :
  find (hasId id) (store w) = None →
  getChangeOrderById id w = (None, w)
  ∧ (∀ updates, updateTeamQueueItem host id updates w = (None, w))
  ∧ (∀ decision, applyTeamDecision host id decision w = (None, w))
  ∧ (∀ delivery, updateDecisionEmailDelivery host id delivery w = (None, w)).
Proof.
  intros Hfind. pose proof (findIndex_None _ _ Hfind) as Hindex.
  split; [|split; [|split]]; intros.
  - unfold getChangeOrderById, mbind, M_bind, getStore; simpl. by rewrite Hfind.
  - unfold updateTeamQueueItem, mbind, M_bind, getStore; simpl. by rewrite Hindex.
  - unfold applyTeamDecision, mbind, M_bind, getStore; simpl. by rewrite Hindex.
  - unfold updateDecisionEmailDelivery, mbind, M_bind, getStore; simpl. by rewrite Hindex.
Qed.

Lemma getChangeOrderById_run (w : World) (id : string) :
  getChangeOrderById id w = (find (hasId id) (store w), w).
Proof.
  unfold getChangeOrderById, mbind, M_bind, getStore; simpl.
  destruct (find (hasId id) (store w)); simpl; [|done]. by rewrite normalizeRecord_id.
Qed.

(** X2. Each of [saveDraft], [saveSubmission] and [saveBlocked] returns the
    record that it appends to the store, a record in the state of a new one.
    A lookup of its identifier then returns that record when no stored record
    had the identifier, and otherwise the record that had it: the new record
    is stored but is not the one that its identifier resolves to. *)
Theorem saved_record_is_found_unless_shadowed (host : Host) (op : Operation) (w : World) :
  addressed op = None →
  ∃ record,
    returned host op w = Some record
    ∧ store (run host op w) = store w ++ [record]
    ∧ isNew record
    ∧ (getChangeOrderById (StoredChangeOrder.id record) (run host op w)).1
      = Some (nullish (find (hasId (StoredChangeOrder.id record)) (store w)) record).
Proof.
  intros Htarget.
  destruct (run_create host op w Htarget) as (record & Hret & Hstore & Hnew & _).
  exists record. split; [done|]. split; [done|]. split; [done|].
  rewrite getChangeOrderById_run, Hstore. cbn [fst].
  destruct (find (hasId (StoredChangeOrder.id record)) (store w)) as [old|] eqn:Hfind.
  - by apply find_app_Some.
  - rewrite (find_app_None _ _ _ Hfind). simpl. unfold hasId.
    by rewrite String.eqb_refl.
Qed.

Lemma change_origin (host : Host) (current next : StoredChangeOrder) :
  change host current next → origin next = origin current.
Proof.
  intros [updates updatedAt _|decision now _|delivery sentAt updatedAt].
  - by destruct current.
  - by destruct current, decision.
  - by destruct current.
Qed.

(** X3. [listChangeOrders] returns the stored records, the last one stored
    first, and leaves the world as it is. After an operation that creates a
    record the list is the new record followed by the list before; after any
    other operation the list has the same identifiers in the same order. *)
Theorem listChangeOrders_newest_first (host : Host) (op : Operation) (w : World) :
  listChangeOrders w = (reverse (store w), w)
  ∧ match addressed op with
    | None =>
        ∃ record,
          returned host op w = Some record
          ∧ (listChangeOrders (run host op w)).1 = record :: (listChangeOrders w).1
    | Some _ =>
        StoredChangeOrder.id <$> (listChangeOrders (run host op w)).1
        = StoredChangeOrder.id <$> (listChangeOrders w).1
    end.
Proof.
  assert (∀ w, listChangeOrders w = (reverse (store w), w)) as Hlist.
  { intros w'. unfold listChangeOrders, mbind, M_bind, getStore; simpl.
    f_equal. f_equal. induction (store w') as [|x s IH]; [done|].
    by rewrite fmap_cons, normalizeRecord_id, IH. }
  split; [apply Hlist|]. rewrite !Hlist. cbn [fst].
  destruct (addressed op) as [id|] eqn:Htarget.
  - rewrite !fmap_reverse. f_equal.
    pose proof (run_target host op w id Htarget) as H.
    destruct (findIndex (hasId id) (store w)) as [index|].
    + destruct H as (current & Hlookup & [(-> & _)|(next & _ & -> & _ & Hid)]); [done|].
      rewrite list_fmap_insert, Hid. apply list_insert_id.
      by rewrite list_lookup_fmap, Hlookup.
    + by destruct H as [-> _].
  - destruct (run_create host op w Htarget) as (record & Hret & -> & _).
    exists record. split; [done|]. by rewrite reverse_snoc.
Qed.

(** X4. No operation removes a record, moves one, or writes to what a record
    was created with: the identifier, the time of creation, the submission
    status, the input, the time of submission and the blocking reasons of the
    records of the store are, in their order, what they were, followed by
    those of at most one new record. *)
Theorem operations_keep_what_records_are_created_with (host : Host) (op : Operation)
    (w : World) :
  ∃ tail,
    origin <$> store (run host op w) = (origin <$> store w) ++ tail
    ∧ (length tail ≤ 1)%nat.
Proof.
  destruct (run_step host op w) as [|record _|index current next Hlookup Hchange].
  - exists []. rewrite app_nil_r. split; [done|simpl; lia].
  - exists [origin record]. rewrite fmap_app. split; [done|simpl; lia].
  - exists []. rewrite app_nil_r, list_fmap_insert, (change_origin _ _ _ Hchange).
    split; [|simpl; lia]. apply list_insert_id. by rewrite list_lookup_fmap, Hlookup.
Qed.

(** X5. An operation writes to at most one position of the store. At every
    position the store holds what it held, unless the position is that of the
    first record with the identifier that the operation addresses, or the
    operation creates a record and the position is the new last one. *)
Theorem operations_write_one_position (host : Host) (op : Operation) (w : World)
    (i : nat) :
  store (run host op w) !! i = store w !! i
  ∨ (∃ id, addressed op = Some id ∧ findIndex (hasId id) (store w) = Some i)
  ∨ (addressed op = None ∧ i = length (store w)).
Proof.
  destruct (addressed op) as [id|] eqn:Htarget.
  - pose proof (run_target host op w id Htarget) as H.
    destruct (findIndex (hasId id) (store w)) as [index|] eqn:Hindex.
    + destruct H as (current & Hlookup & [(-> & _)|(next & _ & -> & _)]); [by left|].
      destruct (decide (index = i)) as [->|Hne]; [right; left; eauto|].
      left. by apply list_lookup_insert_ne.
    + destruct H as [-> _]. by left.
  - destruct (run_create host op w Htarget) as (record & _ & -> & _).
    destruct (decide (i < length (store w))%nat) as [Hlt|Hge].
    + left. by apply lookup_app_l.
    + destruct (decide (i = length (store w))) as [->|Hne]; [by right; right|].
      left. rewrite !lookup_ge_None_2; [done|lia|]. rewrite length_app. simpl. lia.
Qed.

(** X6. No operation changes the decision of a finalized record, wherever
    the record is in the store: its statuses, its decision fields, the texts
    of its notification and the reviewer notes stay as they are. (What can
    still change is the delivery of the notification and [updatedAt].) *)
Theorem finalized_record_keeps_its_decision (host : Host) (op : Operation) (w : World)
    (i : nat) (record : StoredChangeOrder) :
  store w !! i = Some record →
  StoredChangeOrder.isFinalized record = true →
  ∃ record',
    store (run host op w) !! i = Some record'
    ∧ sameDecision record record'
    ∧ StoredChangeOrder.reviewerNotes record' = StoredChangeOrder.reviewerNotes record
    ∧ origin record' = origin record.
Proof.
  intros Hrecord Hfin.
  assert (sameDecision record record) as Hrefl by (by repeat split).
  destruct (run_step host op w) as [|new _|index current next Hlookup Hchange].
  - by exists record.
  - exists record. split; [|done]. rewrite lookup_app_l; [done|].
    by apply lookup_lt_Some with record.
  - destruct (decide (index = i)) as [->|Hne].
    + exists next. split; [apply list_lookup_insert_eq; by apply lookup_lt_Some with record|].
      rewrite Hrecord in Hlookup. injection Hlookup as <-.
      destruct Hchange as [updates updatedAt Hno|decision now Hno|delivery sentAt updatedAt];
        [congruence|congruence|].
      by destruct record.
    + exists record. split; [|done]. by rewrite list_lookup_insert_ne.
Qed.

(** ** Invariants of the reachable stores *)

(** X7. In every store that the operations reach from an empty one, a record
    is finalized exactly when its decision status is [APPROVED] or [DENIED]:
    it is the decision status, not the team status, that goes with
    finalization. *)
Theorem reachable_finalized_iff_decided (host : Host) (w : World) :
  reachable host w → Forall finalizedIffDecided (store w).
Proof.
  apply reachable_Forall; unfold finalizedIffDecided.
  - intros record Hnew. destruct Hnew as (_ & _ & -> & _ & _ & _ & _ & _ & _ & _ & -> & _).
    intuition discriminate.
  - intros current next Hcur [updates updatedAt _|decision now _|delivery sentAt updatedAt].
    + by destruct current.
    + destruct current, decision; simpl; intuition discriminate.
    + by destruct current.
Qed.

(** X8. In every reachable store the fields of a decision fit the decision
    status: a record has an approved amount exactly when it is [APPROVED], a
    denial reason code exactly when it is [DENIED], requested items only when
    it is [NEEDS_INFO], and a time, an author, an explanation and a message
    of the decision exactly when it is not [PENDING]. *)
Theorem reachable_decision_fields_fit (host : Host) (w : World) :
  reachable host w → Forall decisionFieldsFit (store w).
Proof.
  apply reachable_Forall; unfold decisionFieldsFit.
  - intros record Hnew.
    destruct Hnew as (_ & _ & -> & -> & -> & -> & -> & -> & -> & -> & _).
    rewrite !is_Some_alt. intuition discriminate.
  - intros current next Hcur [updates updatedAt _|decision now _|delivery sentAt updatedAt].
    + by destruct current.
    + destruct current, decision; simpl; rewrite !is_Some_alt; intuition discriminate.
    + by destruct current.
Qed.

Lemma buildDecisionEmailContent_queueUpdated (host : Host) (updates : QueueUpdates)
    (updatedAt : string) (current : StoredChangeOrder) :
  buildDecisionEmailContent host (queueUpdated updates updatedAt current)
  = buildDecisionEmailContent host current.
Proof. by destruct current. Qed.

Lemma buildDecisionEmailContent_delivered (host : Host) (delivery : Delivery)
    (sentAt updatedAt : string) (current : StoredChangeOrder) :
  buildDecisionEmailContent host (delivered delivery sentAt updatedAt current)
  = buildDecisionEmailContent host current.
Proof. by destruct current. Qed.

(** X9. In every reachable store the notification that a record holds is up
    to date: a record without a decision holds no recipient, subject or body,
    and a record with a decision holds the trimmed contractor e-mail as the
    recipient and the subject, the plain-text body and the HTML body that
    [buildDecisionEmailContent] makes of the record as it is stored. *)
Theorem reachable_notification_is_current (host : Host) (w : World) :
  reachable host w → Forall (notificationIsCurrent host) (store w).
Proof.
  apply reachable_Forall; unfold notificationIsCurrent.
  - intros record Hnew.
    by destruct Hnew
      as (_ & _ & -> & _ & _ & _ & _ & _ & _ & _ & _ & _ & _ & -> & -> & -> & -> & _).
  - intros current next Hcur [updates updatedAt _|decision now _|delivery sentAt updatedAt].
    + rewrite buildDecisionEmailContent_queueUpdated. by destruct current.
    + unfold decided. destruct decision; rewrite buildDecisionEmailContent_prepareDecisionEmail;
        by destruct current.
    + rewrite buildDecisionEmailContent_delivered. by destruct current.
Qed.


(** ** Trimming *)

Lemma trimEnd_trimEnd (s : string) : trimEnd (trimEnd s) = trimEnd s.
Proof.
  induction s as [|c s IH]; simpl; [done|].
  destruct (trimEnd s) as [|d t] eqn:Ht.
  - destruct (isWhiteSpace c) eqn:Hc; simpl; [done|]. by rewrite Hc.
  - change (trimEnd (String c (String d t)))
      with (match trimEnd (String d t) with
            | EmptyString => if isWhiteSpace c then EmptyString else String c EmptyString
            | t' => String c t'
            end).
    by rewrite IH.
Qed.

(** A string that does not begin with white space. *)
Lemma trimStart_clean (s : string) :
  match trimStart s with
  | EmptyString => True
  | String c _ => isWhiteSpace c = false
  end.
Proof.
  induction s as [|c s IH]; simpl; [done|].
  destruct (isWhiteSpace c) eqn:Hc; [done|]. exact Hc.
Qed.

Lemma trimEnd_clean (s : string) :
  match s with
  | EmptyString => True
  | String c _ => isWhiteSpace c = false
  end →
  trimStart (trimEnd s) = trimEnd s.
Proof.
  destruct s as [|c s]; simpl; [done|]. intros Hc.
  destruct (trimEnd s); rewrite ?Hc; simpl; by rewrite Hc.
Qed.

Lemma trim_trim (s : string) : trim (trim s) = trim s.
Proof.
  unfold trim. rewrite (trimEnd_clean _ (trimStart_clean s)). apply trimEnd_trimEnd.
Qed.

(** ** The checklist, code by code *)

Lemma trimEnd_blank (s : string) : truthy (trimEnd s) = negb (blank s).
Proof.
  induction s as [|c s IH]; simpl; [done|].
  destruct (trimEnd s); simpl in *.
  - destruct (isWhiteSpace c); simpl; [done|done].
  - destruct (blank s); [done|]. by rewrite andb_false_r.
Qed.

Lemma trimStart_blank (s : string) : blank (trimStart s) = blank s.
Proof.
  induction s as [|c s IH]; simpl; [done|].
  destruct (isWhiteSpace c) eqn:Hc; simpl; [done|]. by rewrite Hc.
Qed.

(** The trimmed string is empty exactly when the string is white space
    only. *)
Lemma truthy_trim (s : string) : truthy (trim s) = negb (blank s).
Proof. unfold trim. by rewrite trimEnd_blank, trimStart_blank. Qed.

Lemma lineItemCode_inj (n n' : nat) : lineItemCode n = lineItemCode n' → n = n'.
Proof.
  unfold lineItemCode. intros [= Heq].
  apply (underscore_splits _ _ "invalid" "invalid") in Heq as [Heq _];
    [by apply (inj pretty)|apply pretty_N_underscore|apply pretty_N_underscore].
Qed.

Lemma lineItemCode_not_fixed (n : nat) : lineItemCode n ∉ fixedCodes.
Proof.
  unfold fixedCodes, lineItemCode. rewrite !elem_of_cons, elem_of_nil. simpl.
  intuition discriminate.
Qed.

(** What the loop over the line items adds: the code of number
    [index + k + 1] for each position [k] that holds an invalid item. *)
Lemma hasCode_loop (target : string) (index : nat) (lineItems : list LineItem)
    (violations : list ChecklistViolation) :
  hasCode target (lineItemViolations index lineItems violations)
  ↔ hasCode target violations
    ∨ ∃ k lineItem,
        target = lineItemCode (index + k + 1)
        ∧ lineItems !! k = Some lineItem
        ∧ negb (truthy (trim (LineItem.description lineItem)))
          || (LineItem.quantity lineItem <=? 0)%float
          || (LineItem.unitPrice lineItem <? 0)%float = true.
Proof.
  revert index violations.
  induction lineItems as [|lineItem rest IH]; intros index violations; simpl.
  - split; [by left|]. intros [?|(k & item & _ & Hk & _)]; [done|]. by destruct k.
  - rewrite IH, hasCode_cond. simpl. fold (lineItemCode (index + 1)). split.
    + intros [[?|[Hbad <-]]|(k & item & -> & Hk & Hbad)].
      * by left.
      * right. exists 0%nat, lineItem. split; [f_equal; lia|done].
      * right. exists (S k), item. split; [f_equal; lia|done].
    + intros [?|(k & item & -> & Hk & Hbad)]; [by left; left|].
      destruct k as [|k]; simpl in Hk.
      * injection Hk as <-. left. right. split; [done|]. f_equal. lia.
      * right. exists k, item. split; [f_equal; lia|done].
Qed.

Lemma code_cond (b : bool) (violations : list ChecklistViolation) (v : ChecklistViolation) :
  ChecklistViolation.code <$> (if b then push violations v else violations)
  = (ChecklistViolation.code <$> violations)
    ++ (if b then [ChecklistViolation.code v] else []).
Proof. unfold push. destruct b; [by rewrite fmap_app|by rewrite app_nil_r]. Qed.

Lemma fixedCodes_snoc :
  fixedCodes
  = ((((((((([] ++ ["scope_missing"]) ++ ["quantity_missing"]) ++ ["pricing_invalid"])
          ++ ["additional_charges_reason_missing"]) ++ ["unit_price_unclear"])
        ++ ["justification_missing"]) ++ ["turnkey_justification_missing"])
      ++ ["photos_missing"]) ++ ["line_items_missing"]).
Proof. reflexivity. Qed.

Lemma sublist_cond (b : bool) (c : string) (l k : list string) :
  l `sublist_of` k → (l ++ (if b then [c] else [])) `sublist_of` (k ++ [c]).
Proof.
  intros Hl. apply sublist_app; [done|]. destruct b; [done|]. apply sublist_nil_l.
Qed.

Lemma hasCode_elem_of (target : string) (violations : list ChecklistViolation) :
  hasCode target violations ↔ target ∈ ChecklistViolation.code <$> violations.
Proof.
  unfold hasCode. rewrite list_elem_of_fmap. split.
  - intros (v & ? & <-). eauto.
  - intros (v & -> & ?). eauto.
Qed.

(** The checklist is what the rules before the loop report, in the order of
    [fixedCodes], followed, for a change order of several items, by what the
    loop over the line items adds. *)
Lemma evaluateChecklist_split (input : ChangeOrderInput) :
  ∃ head,
    (ChecklistViolation.code <$> head) `sublist_of` fixedCodes
    ∧ evaluateChecklist input
      = if ChangeOrderInput.isMultiItem input
        then lineItemViolations 0 (ChangeOrderInput.lineItems input) head
        else head.
Proof.
  unfold evaluateChecklist. cbv zeta.
  destruct (ChangeOrderInput.isMultiItem input);
    (eexists; split; [|reflexivity]); rewrite !code_cond.
  - rewrite fixedCodes_snoc. by repeat apply sublist_cond.
  - rewrite fixedCodes_snoc. apply sublist_inserts_r. by repeat apply sublist_cond.
Qed.

Lemma StronglySorted_NoDup (l : list nat) : StronglySorted lt l → NoDup l.
Proof.
  induction 1 as [|a l _ IH Hall]; constructor; [|done].
  intros Hin. rewrite Forall_forall in Hall. specialize (Hall a Hin). lia.
Qed.

(** The codes that the loop adds are those of line items whose numbers
    increase. *)
Lemma lineItemViolations_codes (index : nat) (lineItems : list LineItem)
    (violations : list ChecklistViolation) :
  ∃ numbers,
    ChecklistViolation.code <$> lineItemViolations index lineItems violations
    = (ChecklistViolation.code <$> violations) ++ (lineItemCode <$> numbers)
    ∧ StronglySorted lt numbers
    ∧ Forall (λ n, index < n ≤ index + length lineItems)%nat numbers.
Proof.
  revert index violations.
  induction lineItems as [|lineItem rest IH]; intros index violations; simpl.
  - exists []. rewrite app_nil_r. repeat constructor.
  - match goal with
    | |- context [lineItemViolations _ _ (if ?b then push _ ?v else _)] =>
        set (bad := b);
        destruct (IH (S index) (if bad then push violations v else violations))
          as (numbers & -> & Hsorted & Hbounds)
    end.
    rewrite code_cond. simpl. fold (lineItemCode (index + 1)).
    exists ((if bad then [(index + 1)%nat] else []) ++ numbers).
    split; [|split].
    + rewrite fmap_app, app_assoc. by destruct bad.
    + destruct bad; [|done]. constructor; [done|].
      apply Forall_forall. intros n Hn.
      rewrite Forall_forall in Hbounds. specialize (Hbounds n Hn). lia.
    + apply Forall_app. split.
      * destruct bad; repeat constructor; lia.
      * eapply Forall_impl; [exact Hbounds|]. simpl. intros n. lia.
Qed.

(** X11. The codes of the violations that the checklist reports come in the
    order of the rules: first those of the nine rules on the change order as
    a whole, each at most once and in the order of [fixedCodes], then those
    of the invalid line items, by increasing number, from 1 to the number of
    line items. No code is reported twice. *)
Theorem checklist_codes_in_order (input : ChangeOrderInput) :
  ∃ fixed numbers,
    ChecklistViolation.code <$> evaluateChecklist input
    = fixed ++ (lineItemCode <$> numbers)
    ∧ fixed `sublist_of` fixedCodes
    ∧ StronglySorted lt numbers
    ∧ Forall (λ n, 1 ≤ n ≤ length (ChangeOrderInput.lineItems input))%nat numbers
    ∧ NoDup (ChecklistViolation.code <$> evaluateChecklist input).
Proof.
  destruct (evaluateChecklist_split input) as (head & Hhead & ->).
  assert (∃ numbers,
    ChecklistViolation.code
      <$> (if ChangeOrderInput.isMultiItem input
           then lineItemViolations 0 (ChangeOrderInput.lineItems input) head
           else head)
    = (ChecklistViolation.code <$> head) ++ (lineItemCode <$> numbers)
    ∧ StronglySorted lt numbers
    ∧ Forall (λ n, 1 ≤ n ≤ length (ChangeOrderInput.lineItems input))%nat numbers)
    as (numbers & -> & Hsorted & Hbounds).
  { destruct (ChangeOrderInput.isMultiItem input).
    - destruct (lineItemViolations_codes 0 (ChangeOrderInput.lineItems input) head)
        as (numbers & -> & Hsorted & Hbounds).
      exists numbers. split; [done|]. split; [done|].
      eapply Forall_impl; [exact Hbounds|]. simpl. intros n. lia.
    - exists []. rewrite app_nil_r. repeat constructor. }
  exists (ChecklistViolation.code <$> head), numbers.
  split; [done|]. split; [done|]. split; [done|]. split; [done|].
  apply NoDup_app. split; [|split].
  - apply (sublist_NoDup _ fixedCodes); [|done]. unfold fixedCodes.
    repeat (apply NoDup_cons;
            split; [rewrite ?elem_of_cons, elem_of_nil; intuition discriminate|]).
    apply NoDup_nil_2.
  - intros code Hfixed (n & -> & _)%list_elem_of_fmap.
    apply (lineItemCode_not_fixed n). by apply (elem_of_sublist _ _ _ Hfixed).
  - apply NoDup_fmap_2; [intros n n'; apply lineItemCode_inj|].
    by apply StronglySorted_NoDup.
Qed.

Lemma push_cond {A : Type} (b : bool) (l : list A) (x : A) :
  (if b then push l x else l) = l ++ (if b then [x] else []).
Proof. destruct b; [done|by rewrite app_nil_r]. Qed.

Lemma hasCode_app (target : string) (l l' : list ChecklistViolation) :
  hasCode target (l ++ l') ↔ hasCode target l ∨ hasCode target l'.
Proof.
  unfold hasCode. split.
  - intros (v & [?|?]%elem_of_app & ?); eauto.
  - intros [(v & ? & ?)|(v & ? & ?)]; exists v; rewrite elem_of_app; eauto.
Qed.

Lemma hasCode_optional (target : string) (b : bool) (v : ChecklistViolation) :
  hasCode target (if b then [v] else []) ↔ b = true ∧ ChecklistViolation.code v = target.
Proof.
  unfold hasCode. destruct b.
  - split; [by intros (? & ->%list_elem_of_singleton & ?)|].
    intros [_ ?]. exists v. by rewrite list_elem_of_singleton.
  - split; [by intros (? & ?%elem_of_nil & _)|by intros [? _]].
Qed.

(** The rules that report a violation with a given code. *)
Lemma hasCode_evaluateChecklist (target : string) (input : ChangeOrderInput) :
  hasCode target (evaluateChecklist input)
  ↔ (blank (ChangeOrderInput.scope input) = true ∧ "scope_missing" = target)
    ∨ ((ChangeOrderInput.quantity input <=? 0)%float = true ∧ "quantity_missing" = target)
    ∨ ((ChangeOrderInput.materialCost input <? 0)%float
       || (ChangeOrderInput.laborCost input <? 0)%float = true
       ∧ "pricing_invalid" = target)
    ∨ ((0 <? ChangeOrderInput.additionalCharges input)%float
       && blank (ChangeOrderInput.additionalChargesReason input) = true
       ∧ "additional_charges_reason_missing" = target)
    ∨ ((0 <? ChangeOrderInput.quantity input)%float
       && (totalCost input / ChangeOrderInput.quantity input <=? 0)%float = true
       ∧ "unit_price_unclear" = target)
    ∨ (blank (ChangeOrderInput.whyNeeded input) = true ∧ "justification_missing" = target)
    ∨ (blank (ChangeOrderInput.whyNotInTurnKey input) = true
       ∧ "turnkey_justification_missing" = target)
    ∨ ((length (ChangeOrderInput.photos input) =? 0)%nat = true ∧ "photos_missing" = target)
    ∨ (ChangeOrderInput.isMultiItem input = true
       ∧ (length (ChangeOrderInput.lineItems input) <? 2)%nat = true
       ∧ "line_items_missing" = target)
    ∨ (ChangeOrderInput.isMultiItem input = true
       ∧ ∃ k lineItem,
           target = lineItemCode (k + 1)
           ∧ ChangeOrderInput.lineItems input !! k = Some lineItem
           ∧ negb (truthy (trim (LineItem.description lineItem)))
             || (LineItem.quantity lineItem <=? 0)%float
             || (LineItem.unitPrice lineItem <? 0)%float = true).
Proof.
  unfold evaluateChecklist. cbv zeta. rewrite !push_cond, !truthy_trim, !negb_involutive.
  destruct (ChangeOrderInput.isMultiItem input).
  - rewrite hasCode_loop, !hasCode_app, !hasCode_optional, hasCode_nil. simpl. tauto.
  - rewrite !hasCode_app, !hasCode_optional, hasCode_nil. simpl.
    intuition discriminate.
Qed.

Ltac fixed_code target :=
  rewrite (hasCode_evaluateChecklist target); unfold lineItemCode;
  rewrite ?andb_true_iff, ?orb_true_iff;
  split;
  [ intros [H|[H|[H|[H|[H|[H|[H|[H|[H|H]]]]]]]]];
    repeat match goal with
           | H : _ ∧ _ |- _ => destruct H
           | H : ∃ _, _ |- _ => destruct H
           end;
    simpl in *; first [discriminate|tauto]
  | intuition ].

(** X12. Each of the rules on the change order as a whole is evaluated on
    its own, whatever the others find: a blank scope, a quantity at most 0, a
    negative material or labor cost, additional charges without a reason, a
    blank justification of either kind, no photo and, for a change order of
    several items, fewer than two line items are reported under their codes
    exactly when they occur. A text is blank when it is white space only. *)
Theorem checklist_reports_each_rule (input : ChangeOrderInput) :
  let violations := evaluateChecklist input in
  (hasCode "scope_missing" violations ↔ blank (ChangeOrderInput.scope input) = true)
  ∧ (hasCode "quantity_missing" violations
     ↔ (ChangeOrderInput.quantity input <=? 0)%float = true)
  ∧ (hasCode "pricing_invalid" violations
     ↔ (ChangeOrderInput.materialCost input <? 0)%float = true
       ∨ (ChangeOrderInput.laborCost input <? 0)%float = true)
  ∧ (hasCode "additional_charges_reason_missing" violations
     ↔ (0 <? ChangeOrderInput.additionalCharges input)%float = true
       ∧ blank (ChangeOrderInput.additionalChargesReason input) = true)
  ∧ (hasCode "justification_missing" violations
     ↔ blank (ChangeOrderInput.whyNeeded input) = true)
  ∧ (hasCode "turnkey_justification_missing" violations
     ↔ blank (ChangeOrderInput.whyNotInTurnKey input) = true)
  ∧ (hasCode "photos_missing" violations ↔ ChangeOrderInput.photos input = [])
  ∧ (hasCode "line_items_missing" violations
     ↔ ChangeOrderInput.isMultiItem input = true
       ∧ (length (ChangeOrderInput.lineItems input) < 2)%nat).
Proof.
  cbv zeta.
  assert (∀ l : list string, (length l =? 0)%nat = true ↔ l = []) as Hempty
    by (intros []; simpl; intuition discriminate).
  rewrite <- (Hempty (ChangeOrderInput.photos input)).
  rewrite <- (Nat.ltb_lt (length (ChangeOrderInput.lineItems input)) 2).
  split_and!;
    match goal with |- hasCode ?target _ ↔ _ => fixed_code target end.
Qed.

(** X13. The checklist reports the line item of number [k + 1] (the numbers
    in the codes count from 1) exactly when the change order is one of
    several items and the item at position [k] has a blank description, a
    quantity at most 0 or a negative unit price. The line items of a change
    order that is not of several items are not looked at. *)
Theorem checklist_reports_each_invalid_line_item (input : ChangeOrderInput) (k : nat) :
  hasCode (lineItemCode (k + 1)) (evaluateChecklist input)
  ↔ ChangeOrderInput.isMultiItem input = true
    ∧ ∃ lineItem,
        ChangeOrderInput.lineItems input !! k = Some lineItem
        ∧ (blank (LineItem.description lineItem) = true
           ∨ (LineItem.quantity lineItem <=? 0)%float = true
           ∨ (LineItem.unitPrice lineItem <? 0)%float = true).
Proof.
  rewrite hasCode_evaluateChecklist. split.
  - intros [H|[H|[H|[H|[H|[H|[H|[H|[H|H]]]]]]]]];
      [unfold lineItemCode in H; simpl in H; intuition discriminate..|].
    destruct H as (Hmulti & k' & lineItem & Heq%lineItemCode_inj & Hk & Hbad).
    assert (k' = k) as -> by lia. split; [done|]. exists lineItem. split; [done|].
    rewrite truthy_trim, negb_involutive, !orb_true_iff in Hbad. tauto.
  - intros (Hmulti & lineItem & Hk & Hbad). do 9 right. split; [done|].
    exists k, lineItem. split; [done|]. split; [done|].
    rewrite truthy_trim, negb_involutive, !orb_true_iff. tauto.
Qed.

Lemma positive_not_leb_zero (x : float) :
  (0 <? x)%float = true → (x <=? 0)%float = false.
Proof.
  rewrite ltb_spec, leb_spec. change (Prim2SF 0) with (S754_zero false).
  destruct (Prim2SF x) as [s|s| |s m e]; try done; by destruct s.
Qed.

Lemma nonnegative_not_ltb_zero (x : float) :
  (0 <=? x)%float = true → (x <? 0)%float = false.
Proof.
  rewrite ltb_spec, leb_spec. change (Prim2SF 0) with (S754_zero false).
  destruct (Prim2SF x) as [s|s| |s m e]; try done; by destruct s.
Qed.

(** What the schema has checked of a payload that it accepts. *)
Lemma changeOrderInputSchema_Some (host : Host) (payload data : ChangeOrderInput) :
  changeOrderInputSchema host payload = Some data →
  data
  = {| ChangeOrderInput.projectId := ChangeOrderInput.projectId payload;
       ChangeOrderInput.contractorName := ChangeOrderInput.contractorName payload;
       ChangeOrderInput.contractorEmail := trim (ChangeOrderInput.contractorEmail payload);
       ChangeOrderInput.workPerformedAt := ChangeOrderInput.workPerformedAt payload;
       ChangeOrderInput.scope := ChangeOrderInput.scope payload;
       ChangeOrderInput.quantity := ChangeOrderInput.quantity payload;
       ChangeOrderInput.unitLabel := ChangeOrderInput.unitLabel payload;
       ChangeOrderInput.materialCost := ChangeOrderInput.materialCost payload;
       ChangeOrderInput.laborCost := ChangeOrderInput.laborCost payload;
       ChangeOrderInput.additionalCharges := ChangeOrderInput.additionalCharges payload;
       ChangeOrderInput.additionalChargesReason :=
         ChangeOrderInput.additionalChargesReason payload;
       ChangeOrderInput.whyNeeded := ChangeOrderInput.whyNeeded payload;
       ChangeOrderInput.whyNotInTurnKey := ChangeOrderInput.whyNotInTurnKey payload;
       ChangeOrderInput.photos := ChangeOrderInput.photos payload;
       ChangeOrderInput.isMultiItem := ChangeOrderInput.isMultiItem payload;
       ChangeOrderInput.lineItems := ChangeOrderInput.lineItems payload |}
  ∧ strictEmailRegex_test host (trim (ChangeOrderInput.contractorEmail payload)) = true
  ∧ (0 <? ChangeOrderInput.quantity payload)%float = true
  ∧ (0 <=? ChangeOrderInput.materialCost payload)%float = true
  ∧ (0 <=? ChangeOrderInput.laborCost payload)%float = true
  ∧ changeOrderInputSchema host data = Some data.
Proof.
  unfold changeOrderInputSchema at 1. cbv zeta.
  match goal with |- (if ?c then _ else _) = _ → _ => destruct c eqn:Hc end; [|done].
  intros [= <-]. unfold changeOrderInputSchema. cbn [ChangeOrderInput.projectId
    ChangeOrderInput.contractorName ChangeOrderInput.contractorEmail
    ChangeOrderInput.workPerformedAt ChangeOrderInput.scope ChangeOrderInput.quantity
    ChangeOrderInput.unitLabel ChangeOrderInput.materialCost ChangeOrderInput.laborCost
    ChangeOrderInput.additionalCharges ChangeOrderInput.additionalChargesReason
    ChangeOrderInput.whyNeeded ChangeOrderInput.whyNotInTurnKey ChangeOrderInput.photos
    ChangeOrderInput.isMultiItem ChangeOrderInput.lineItems].
  cbv zeta. rewrite !trim_trim, Hc.
  rewrite !andb_true_iff in Hc. tauto.
Qed.

(** X14. A payload that the schema accepts is never reported for its
    quantity or for its material and labor costs: the schema has checked
    that the quantity is positive and the costs are not negative. The other
    rules can still report it: the schema asks for texts that are not empty,
    the checklist for texts that are not blank. *)
Theorem accepted_payload_passes_quantity_and_pricing (host : Host)
    (payload data : ChangeOrderInput) :
  changeOrderInputSchema host payload = Some data →
  ¬ hasCode "quantity_missing" (evaluateChecklist data)
  ∧ ¬ hasCode "pricing_invalid" (evaluateChecklist data).
Proof.
  intros (-> & _ & Hquantity & Hmaterial & Hlabor & _)%changeOrderInputSchema_Some.
  apply positive_not_leb_zero in Hquantity.
  apply nonnegative_not_ltb_zero in Hmaterial, Hlabor.
  split; intros Hcode; apply hasCode_evaluateChecklist in Hcode; simpl in Hcode;
    rewrite ?Hquantity, ?Hmaterial, ?Hlabor in Hcode; unfold lineItemCode in Hcode;
    destruct Hcode as [H|[H|[H|[H|[H|[H|[H|[H|[H|H]]]]]]]]];
    repeat match goal with
           | H : _ ∧ _ |- _ => destruct H
           | H : ∃ _, _ |- _ => destruct H
           end;
    simpl in *; discriminate.
Qed.

(** X15. Parsing is idempotent: the data that [changeOrderInputSchema]
    returns for a payload that it accepts is accepted in turn, and returned
    as it is. (The one field that parsing changes is the contractor e-mail,
    which it trims.) *)
Theorem changeOrderInputSchema_idempotent (host : Host) (payload : ChangeOrderInput) :
  changeOrderInputSchema host payload ≫= changeOrderInputSchema host
  = changeOrderInputSchema host payload.
Proof.
  destruct (changeOrderInputSchema host payload) as [data|] eqn:Hparse; [|done].
  simpl. by apply changeOrderInputSchema_Some in Hparse as (_ & _ & _ & _ & _ & ?).
Qed.

(** ** Drafts *)

(** X16. A payload that has every field is accepted as a draft exactly when
    it is accepted as a submission, with the same data, and
    [normalizeDraftInput] gives back the fields of a draft that has them
    all. *)
Theorem complete_draft_is_a_submission (host : Host) (payload : ChangeOrderInput) :
  changeOrderDraftInputSchema host (asDraft payload)
  = asDraft <$> changeOrderInputSchema host payload
  ∧ normalizeDraftInput (asDraft payload) = payload.
Proof.
  split; [|by destruct payload].
  unfold changeOrderDraftInputSchema, changeOrderInputSchema. simpl.
  by match goal with |- (if ?c then _ else _) = _ => destruct c end.
Qed.

(** X17. The draft route stores what it is given: a payload that the draft
    schema accepts is saved as a [DRAFT] record whose input is the payload
    with the defaults of [normalizeDraftInput] filled in, whatever the
    checklist and the lateness check would say of it; a payload that the
    schema does not accept leaves the world as it is. *)
Theorem draft_POST_saves_without_checks (host : Host) (payload : ChangeOrderDraftInput)
    (w : World) :
  match changeOrderDraftInputSchema host payload with
  | Some data =>
      ∃ record,
        draft_POST host payload w
        = (Draft_ok_200 record, run host (SaveDraft (normalizeDraftInput data)) w)
        ∧ store (draft_POST host payload w).2 = store w ++ [record]
        ∧ StoredChangeOrder.status record = SubmissionStatus.DRAFT
        ∧ StoredChangeOrder.input record = normalizeDraftInput data
        ∧ StoredChangeOrder.submittedAt record = None
        ∧ StoredChangeOrder.blockingReasons record = None
        ∧ isNew record
  | None => draft_POST host payload w = (Draft_invalid_400, w)
  end.
Proof.
  unfold draft_POST. destruct (changeOrderDraftInputSchema host payload) as [data|]; [|done].
  eexists. split; [reflexivity|]. split; [reflexivity|]. by repeat split.
Qed.

(** X18. The defaults of [normalizeDraftInput] do not make a draft
    submittable: a draft without a contractor name, a time of the work, a
    scope, a quantity or one of the two justifications is, once normalized,
    a payload that [changeOrderInputSchema] does not accept. *)
Theorem incomplete_draft_is_not_submittable (host : Host) (draft : ChangeOrderDraftInput) :
  ChangeOrderDraftInput.contractorName draft = None
  ∨ ChangeOrderDraftInput.workPerformedAt draft = None
  ∨ ChangeOrderDraftInput.scope draft = None
  ∨ ChangeOrderDraftInput.quantity draft = None
  ∨ ChangeOrderDraftInput.whyNeeded draft = None
  ∨ ChangeOrderDraftInput.whyNotInTurnKey draft = None →
  changeOrderInputSchema host (normalizeDraftInput draft) = None.
Proof.
  intros Hmissing. unfold changeOrderInputSchema. cbv zeta.
  match goal with |- (if ?c then _ else _) = _ => destruct c eqn:Hc end; [|done].
  rewrite !andb_true_iff in Hc. simpl in Hc.
  destruct Hmissing as [H|[H|[H|[H|[H|H]]]]]; rewrite H in Hc; simpl in Hc;
    intuition discriminate.
Qed.

(** ** Lateness *)

(** X19. The lateness check does not write to the store and takes no draw,
    and lateness does not go away: work that is late at one reading of the
    clock is late at every later one. *)
Theorem isPast24Hours_is_monotone (host : Host) (s : string) (w w' : World) :
  store (isPast24Hours host s w).2 = store w
  ∧ dice (isPast24Hours host s w).2 = dice w
  ∧ (clock w 0%nat ≤ clock w' 0%nat →
     (isPast24Hours host s w).1 = true → (isPast24Hours host s w').1 = true).
Proof.
  unfold isPast24Hours. destruct (Date_parse host s) as [t|]; [|done].
  unfold mbind, M_bind, Date_now; simpl. split; [done|]. split; [done|].
  rewrite !Z.gtb_ltb, !Z.ltb_lt. lia.
Qed.


(** ** Escaping *)

Lemma replaceAll_app (c : ascii) (by_ s t : string) :
  replaceAll c by_ (s +:+ t) = replaceAll c by_ s +:+ replaceAll c by_ t.
Proof.
  induction s as [|x s IH]; [done|].
  change (replaceAll c by_ (String x (s +:+ t))
          = replaceAll c by_ (String x s) +:+ replaceAll c by_ t).
  simpl. rewrite IH. destruct (Ascii.eqb x c); [by rewrite append_assoc|done].
Qed.

Lemma escapeHtml_app (s t : string) : escapeHtml (s +:+ t) = escapeHtml s +:+ escapeHtml t.
Proof. unfold escapeHtml. by rewrite !replaceAll_app. Qed.

Lemma replaceAll_char (x : ascii) (by_ : string) (c : ascii) :
  replaceAll x by_ (String c "") = if Ascii.eqb c x then by_ else String c "".
Proof. simpl. destruct (Ascii.eqb c x); [apply append_nil_r|done]. Qed.

Lemma escapeHtml_entity (c : ascii) : escapeHtml (String c "") = entity c.
Proof.
  unfold escapeHtml, entity.
  do 5 (rewrite replaceAll_char; destruct (Ascii.eqb c _); [reflexivity|]).
  reflexivity.
Qed.

(** X21. [escapeHtml] works character by character: the escaped string is
    the concatenation of what stands for each character, an entity for each
    of the five characters that it escapes (the ampersand, the two angle
    brackets and the two quotes) and the character itself for any other. The ampersands of the entities are not escaped again, and a
    string without the five characters is left as it is. *)
Theorem escapeHtml_is_characterwise (c : ascii) (s t : string) :
  escapeHtml (String c s) = entity c +:+ escapeHtml s
  ∧ escapeHtml (s +:+ t) = escapeHtml s +:+ escapeHtml t
  ∧ escapeHtml "" = ""
  ∧ ((∀ x, occurs x "&<>'" || Ascii.eqb x "034" = true → occurs x s = false) →
     escapeHtml s = s).
Proof.
  assert (∀ c s, escapeHtml (String c s) = entity c +:+ escapeHtml s) as Hcons.
  { intros c' s'. change (String c' s') with (String c' "" +:+ s').
    by rewrite escapeHtml_app, escapeHtml_entity. }
  split; [apply Hcons|]. split; [apply escapeHtml_app|]. split; [done|].
  induction s as [|x s IH]; [done|]. intros Hfree.
  rewrite Hcons, IH.
  - assert (entity x = String x "") as ->; [|done].
    unfold entity.
    destruct (Ascii.eqb_spec x "&") as [->|_]; [by specialize (Hfree "&"%char eq_refl)|].
    destruct (Ascii.eqb_spec x "<") as [->|_]; [by specialize (Hfree "<"%char eq_refl)|].
    destruct (Ascii.eqb_spec x ">") as [->|_]; [by specialize (Hfree ">"%char eq_refl)|].
    destruct (Ascii.eqb_spec x "034") as [->|_]; [by specialize (Hfree "034"%char eq_refl)|].
    destruct (Ascii.eqb_spec x "'") as [->|_]; [by specialize (Hfree "'"%char eq_refl)|].
    done.
  - intros y Hy. specialize (Hfree y Hy). simpl in Hfree.
    by apply orb_false_iff in Hfree as [_ ?].
Qed.

(** ** The routes *)

Lemma run_target_exact (host : Host) (op : Operation) (w : World) (id : string) :
  addressed op = Some id →
  match findIndex (hasId id) (store w) with
  | None => run host op w = w ∧ returned host op w = None
  | Some index =>
      ∃ current,
        store w !! index = Some current
        ∧ if latches op && StoredChangeOrder.isFinalized current
          then run host op w = w ∧ returned host op w = Some current
          else store (run host op w) = <[index := changed host op w current]> (store w)
               ∧ returned host op w = Some (changed host op w current)
  end.
Proof.
  destruct op as [input|input|input reasons|id' updates|id' decision|id' delivery];
    try done; intros [= ->]; unfold run, returned, latches, changed.
  - unfold updateTeamQueueItem, mbind, M_bind, getStore; simpl.
    destruct (findIndex (hasId id) (store w)) as [index|] eqn:Hindex; [|done].
    destruct (findIndex_lookup _ _ _ Hindex) as (current & Hlookup & _ & _).
    exists current. split; [done|]. rewrite Hlookup.
    by destruct (StoredChangeOrder.isFinalized current).
  - unfold applyTeamDecision, mbind, M_bind, getStore; simpl.
    destruct (findIndex (hasId id) (store w)) as [index|] eqn:Hindex; [|done].
    destruct (findIndex_lookup _ _ _ Hindex) as (current & Hlookup & _ & _).
    exists current. split; [done|]. rewrite Hlookup.
    by destruct (StoredChangeOrder.isFinalized current).
  - unfold updateDecisionEmailDelivery, mbind, M_bind, getStore; simpl.
    destruct (findIndex (hasId id) (store w)) as [index|] eqn:Hindex; [|done].
    destruct (findIndex_lookup _ _ _ Hindex) as (current & Hlookup & _ & _).
    exists current. split; [done|]. rewrite Hlookup, normalizeRecord_id.
    unfold sentAtOf, updatedAtOf. by destruct (Delivery.sentAt delivery).
Qed.

Lemma findIndex_insert {A : Type} (p : A → bool) (l : list A) (i : nat) (y : A) :
  findIndex p l = Some i → p y = true → findIndex p (<[i := y]> l) = Some i.
Proof.
  revert i. induction l as [|x l IH]; intros i; simpl; [done|].
  destruct (p x) eqn:Hx.
  - intros [= <-] Hy. simpl. by rewrite Hy.
  - destruct (findIndex p l) as [j|] eqn:Hj; simpl; [|done].
    intros [= <-] Hy. simpl. by rewrite Hx, (IH j eq_refl Hy).
Qed.

Lemma decisionSchema_Some (payload data : DecisionPayload) :
  decisionSchema payload = Some data → data = payload.
Proof.
  destruct payload; simpl;
    match goal with |- (if ?c then _ else _) = _ → _ => destruct c end;
    by intros [= <-].
Qed.

(** The world after the decision route has served a request: the world
    before, or the world after the decision has been applied to a record
    that is [SUBMITTED] and the delivery of its notification, with its
    outcome, has been recorded. *)
Lemma decision_POST_world (host : Host) (w : World) (id : string)
    (payload : DecisionPayload) :
  (decision_POST host id payload w).2 = w
  ∨ ∃ existing delivery,
      find (hasId id) (store w) = Some existing
      ∧ StoredChangeOrder.status existing = SubmissionStatus.SUBMITTED
      ∧ Delivery.status delivery ≠ DecisionEmailStatus.PENDING
      ∧ (decision_POST host id payload w).2
        = run host (UpdateDecisionEmailDelivery id delivery)
            (run host (ApplyTeamDecision id (toDecisionInput payload)) w).
Proof.
  unfold decision_POST. rewrite bind_run, getChangeOrderById_run. cbn [fst snd].
  destruct (find (hasId id) (store w)) as [existing|] eqn:Hfind; [|by left].
  destruct (decide (StoredChangeOrder.status existing = SubmissionStatus.SUBMITTED))
    as [Hstatus|Hstatus].
  2: { rewrite bool_decide_eq_false_2 by done. by left. }
  rewrite bool_decide_eq_true_2 by done. cbn [negb].
  destruct (decisionSchema payload) as [data|] eqn:Hschema; [|by left].
  apply decisionSchema_Some in Hschema as ->.
  destruct (lateWithoutAcknowledgment payload); [by left|].
  rewrite bind_run.
  destruct (find_findIndex _ _ _ Hfind) as (index & Hindex & Hlookup).
  pose proof (run_target_exact host (ApplyTeamDecision id (toDecisionInput payload)) w id
                eq_refl) as Hrun.
  rewrite Hindex in Hrun. destruct Hrun as (current & Hcurrent & Hrun).
  assert (∃ updated,
    (applyTeamDecision host id (toDecisionInput payload) w).1 = Some updated)
    as [updated Hupdated].
  { unfold returned in Hrun. destruct (latches _ && _); destruct Hrun as [_ ->]; eauto. }
  rewrite Hupdated. right.
  destruct (hasValidContractorEmail host updated); cbn [negb];
    rewrite bind_run; eexists existing, _; (split; [done|]); (split; [done|]);
    (split; [|reflexivity]); cbn [Delivery.status]; [by destruct (EmailResult.sent _)|done].
Qed.

Lemma isPast24Hours_store (host : Host) (s : string) (w : World) :
  store (isPast24Hours host s w).2 = store w.
Proof. unfold isPast24Hours. by destruct (Date_parse host s). Qed.

Lemma submit_POST_world (host : Host) (payload : ChangeOrderInput) (w : World) :
  match changeOrderInputSchema host payload with
  | None => submit_POST host payload w = (Submit_invalid_422, w)
  | Some data =>
      ∃ record,
        store (submit_POST host payload w).2 = store w ++ [record]
        ∧ isNew record
        ∧ createdByRoute host record
        ∧ StoredChangeOrder.input record = data
        ∧ StoredChangeOrder.status record ≠ SubmissionStatus.DRAFT
  end.
Proof.
  unfold submit_POST.
  destruct (changeOrderInputSchema host payload) as [data|] eqn:Hparse; [|done].
  apply changeOrderInputSchema_Some in Hparse as (_ & _ & _ & _ & _ & Hvalid).
  rewrite bind_run.
  assert (store (isPast24Hours host (ChangeOrderInput.workPerformedAt data) w).2 = store w)
    as Hstore by apply isPast24Hours_store.
  assert ((isPast24Hours host (ChangeOrderInput.workPerformedAt data) w).1 = false →
          is_Some (Date_parse host (ChangeOrderInput.workPerformedAt data))) as Hdate.
  { unfold isPast24Hours. destruct (Date_parse host _); [by eexists|done]. }
  destruct (isPast24Hours host (ChangeOrderInput.workPerformedAt data) w) as [late w'].
  cbn [fst snd] in *. rewrite <- Hstore.
  destruct (ChecklistViolation.message <$> evaluateChecklist data)
    as [|message messages] eqn:Hmessages.
  - apply fmap_nil_inv in Hmessages. destruct late; simpl.
    + eexists. split; [reflexivity|]. split; [by repeat split|].
      split; [|done]. unfold createdByRoute. simpl. split; [done|]. split; [done|].
      exists true, lateMessage, []. unfold combinedReasons. by rewrite Hmessages.
    + eexists. split; [reflexivity|]. split; [by repeat split|].
      split; [|done]. unfold createdByRoute. simpl.
      split; [by eexists|]. split; [done|]. split; [done|]. split; [done|]. by apply Hdate.
  - assert ((0 <? length (if late then push (message :: messages) lateMessage
                          else message :: messages))%nat = true) as ->
      by (by destruct late).
    rewrite bind_run. simpl.
    eexists. split; [reflexivity|]. split; [by repeat split|].
    split; [|done]. unfold createdByRoute. simpl. split; [done|]. split; [done|].
    exists late. unfold combinedReasons. rewrite Hmessages. unfold push.
    destruct late; simpl; eauto. rewrite app_nil_r. eauto.
Qed.

Lemma update_PATCH_world (host : Host) (id : string) (updates : QueueUpdates) (w : World) :
  (update_PATCH host id updates w).2 = run host (UpdateTeamQueueItem id updates) w.
Proof.
  unfold update_PATCH, run. rewrite bind_run.
  by destruct (updateTeamQueueItem host id updates w).1.
Qed.

Lemma serve_routeStep (host : Host) (request : Request) (w : World) :
  routeStep host (store w) (store (serve host request w)).
Proof.
  destruct request as [payload|payload|id updates|id payload|]; unfold serve.
  - unfold draft_POST.
    destruct (changeOrderDraftInputSchema host payload) as [data|]; [|constructor].
    rewrite bind_run. apply routeStep_create; [by repeat split|done].
  - pose proof (submit_POST_world host payload w) as H.
    destruct (changeOrderInputSchema host payload) as [data|].
    + destruct H as (record & -> & Hnew & Hcreated & _). by constructor.
    + rewrite H. constructor.
  - rewrite update_PATCH_world.
    pose proof (run_target_exact host (UpdateTeamQueueItem id updates) w id eq_refl) as H.
    destruct (findIndex (hasId id) (store w)) as [index|].
    + destruct H as (current & Hlookup & H). cbn [latches andb] in H.
      destruct (StoredChangeOrder.isFinalized current) eqn:Hfin.
      * destruct H as [-> _]. constructor.
      * destruct H as [-> _]. apply routeStep_change with current; [done|].
        by constructor.
    + destruct H as [-> _]. constructor.
  - destruct (decision_POST_world host w id payload)
      as [->|(existing & delivery & Hfind & Hstatus & Hdelivery & ->)]; [constructor|].
    destruct (find_findIndex _ _ _ Hfind) as (index & Hindex & Hlookup).
    pose proof (run_target_exact host (ApplyTeamDecision id (toDecisionInput payload)) w id
                  eq_refl) as Hdecide.
    rewrite Hindex in Hdecide. destruct Hdecide as (current & Hcurrent & Hdecide).
    rewrite Hlookup in Hcurrent. injection Hcurrent as <-. cbn [latches andb] in Hdecide.
    set (w1 := run host (ApplyTeamDecision id (toDecisionInput payload)) w) in *.
    pose proof (run_target_exact host (UpdateDecisionEmailDelivery id delivery) w1 id
                  eq_refl) as Hdeliver.
    cbn [latches andb] in Hdeliver.
    destruct (StoredChangeOrder.isFinalized existing) eqn:Hfin.
    + destruct Hdecide as [Hw1 _]. rewrite Hw1 in *. rewrite Hindex in Hdeliver.
      destruct Hdeliver as (current & Hcurrent & -> & _).
      rewrite Hlookup in Hcurrent. injection Hcurrent as <-.
      apply routeStep_change with existing; [done|].
      pose proof (route_decision host existing (toDecisionInput payload) ""
                    delivery (sentAtOf host w delivery) (updatedAtOf host w delivery)
                    Hstatus Hdelivery) as Hchange.
      by rewrite Hfin in Hchange.
    + destruct Hdecide as [Hw1 _].
      assert (findIndex (hasId id) (store w1) = Some index) as Hindex1.
      { rewrite Hw1. apply findIndex_insert; [done|].
        pose proof (find_Some_holds _ _ _ Hfind) as Hid. unfold hasId in *.
        by destruct existing, (toDecisionInput payload). }
      rewrite Hindex1 in Hdeliver. destruct Hdeliver as (current & Hcurrent & -> & _).
      rewrite Hw1 in Hcurrent |- *.
      rewrite list_lookup_insert_eq in Hcurrent by (by apply lookup_lt_Some with existing).
      injection Hcurrent as <-. rewrite list_insert_insert_eq.
      apply routeStep_change with existing; [done|].
      pose proof (route_decision host existing (toDecisionInput payload)
                    (toISOString host (clock w 0%nat)) delivery
                    (sentAtOf host w1 delivery) (updatedAtOf host w1 delivery)
                    Hstatus Hdelivery) as Hchange.
      by rewrite Hfin in Hchange.
  - unfold list_GET, listChangeOrders, mbind, M_bind, getStore; simpl. constructor.
Qed.

(** A property of records that the records which the routes create have and
    that no change by a request undoes holds of the records of every store
    behind the routes. *)
Lemma served_Forall (host : Host) (P : StoredChangeOrder → Prop) (w : World) :
  (∀ record, isNew record → createdByRoute host record → P record) →
  (∀ current next, P current → routeChange host current next → P next) →
  served host w → Forall P (store w).
Proof.
  intros Hnew Hchange. induction 1 as [w Hempty|w request _ IH].
  - rewrite Hempty. constructor.
  - destruct (serve_routeStep host request w)
      as [|record Hrecord Hcreated|index current next Hlookup Hnext].
    + done.
    + apply Forall_app. split; [done|]. repeat constructor. by apply Hnew.
    + apply Forall_insert; [done|]. apply (Hchange current); [|done].
      by apply (Forall_lookup_1 _ _ _ _ IH Hlookup).
Qed.

Lemma routeChange_origin (host : Host) (current next : StoredChangeOrder) :
  routeChange host current next → origin next = origin current.
Proof.
  intros [updates updatedAt _|decision now delivery sentAt updatedAt _ _].
  - by destruct current.
  - destruct current as [? ? ? ? ? ? ? ? ? ? ? ? ? ? ? ? ? []], decision; reflexivity.
Qed.

Lemma createdByRoute_origin (host : Host) (a b : StoredChangeOrder) :
  origin a = origin b → createdByRoute host a → createdByRoute host b.
Proof.
  unfold origin, createdByRoute. intros [= _ _ Hstatus Hinput Hsubmitted Hreasons].
  by rewrite Hstatus, Hinput, Hsubmitted, Hreasons.
Qed.





Lemma createdByRoute_valid_email (host : Host) (record : StoredChangeOrder) :
  createdByRoute host record →
  StoredChangeOrder.status record ≠ SubmissionStatus.DRAFT →
  hasValidContractorEmail host record = true.
Proof.
  unfold createdByRoute, hasValidContractorEmail, isValidEmail.
  destruct (StoredChangeOrder.status record); [done| |]; intros Hcreated _.
  - destruct Hcreated as (_ & _ & Hvalid & _).
    pose proof Hvalid as (Hinput & Hemail & _)%changeOrderInputSchema_Some.
    rewrite Hinput. simpl. by rewrite trim_trim.
  - destruct Hcreated as (_ & Hvalid & _).
    pose proof Hvalid as (Hinput & Hemail & _)%changeOrderInputSchema_Some.
    rewrite Hinput. simpl. by rewrite trim_trim.
Qed.

Lemma served_createdByRoute (host : Host) (w : World) :
  served host w → Forall (createdByRoute host) (store w).
Proof.
  apply served_Forall; [done|].
  intros current next Hcurrent Hchange%routeChange_origin.
  by apply (createdByRoute_origin host current).
Qed.

(** X22. Behind the routes, the status of a record tells how it was
    created, for as long as the record is stored. A [SUBMITTED] record has a
    time of submission and no blocking reasons, and its input is data that
    the schema accepts, that passes the whole checklist and whose time of the
    work is a date. A [BLOCKED] record has at least one blocking reason, and
    its blocking reasons are the messages of the checklist on its input,
    followed or not by the lateness message. A [DRAFT] record has neither.
    The contractor e-mail of a record that is not a draft is one that
    [hasValidContractorEmail] accepts. *)
Theorem served_status_tells_creation (host : Host) (w : World) :
  served host w →
  Forall (λ record,
            createdByRoute host record
            ∧ (StoredChangeOrder.status record ≠ SubmissionStatus.DRAFT →
               hasValidContractorEmail host record = true))
    (store w).
Proof.
  intros Hserved. eapply Forall_impl; [by apply (served_createdByRoute host)|]. simpl.
  intros record Hcreated. split; [done|]. by apply createdByRoute_valid_email.
Qed.




(** X26. A request that a route refuses leaves the world as it is: the
    draft route on a payload that the draft schema does not accept (400), the
    submit route on a payload that the schema does not accept (422, nothing
    stored), the update route on an identifier that is not stored (404), and
    the decision route whenever its answer is not the 200 (404, 422, 400). *)
Theorem refused_requests_change_nothing (host : Host) (w : World) :
  (∀ payload,
     match (draft_POST host payload w).1 with
     | Draft_invalid_400 => (draft_POST host payload w).2 = w
     | Draft_ok_200 _ => True
     end)
  ∧ (∀ payload,
       match (submit_POST host payload w).1 with
       | Submit_invalid_422 => (submit_POST host payload w).2 = w
       | _ => True
       end)
  ∧ (∀ id updates,
       match (update_PATCH host id updates w).1 with
       | Update_not_found_404 => (update_PATCH host id updates w).2 = w
       | Update_ok_200 _ => True
       end)
  ∧ (∀ id payload,
       match (decision_POST host id payload w).1 with
       | Decision_ok_200 _ _ _ => True
       | _ => (decision_POST host id payload w).2 = w
       end).
Proof.
  split; [|split; [|split]].
  - intros payload. unfold draft_POST.
    by destruct (changeOrderDraftInputSchema host payload).
  - intros payload. unfold submit_POST.
    destruct (changeOrderInputSchema host payload) as [data|]; [|done].
    rewrite bind_run.
    destruct (0 <? length _)%nat; by rewrite bind_run.
  - intros id updates. rewrite update_PATCH_world. unfold update_PATCH. rewrite bind_run.
    pose proof (run_target_exact host (UpdateTeamQueueItem id updates) w id eq_refl) as H.
    unfold returned in H.
    destruct (findIndex (hasId id) (store w)) as [index|].
    + destruct H as (current & _ & H).
      destruct (latches _ && _); destruct H as [_ ->]; done.
    + by destruct H as [-> ->].
  - intros id payload.
    destruct (decision_POST_world host w id payload)
      as [->|(existing & delivery & Hfind & Hstatus & _)].
    + by destruct (decision_POST host id payload w).1.
    + unfold decision_POST. rewrite bind_run, getChangeOrderById_run. cbn [fst snd].
      rewrite Hfind, Hstatus, bool_decide_eq_true_2 by done. cbn [negb].
      destruct (decisionSchema payload); [|done].
      destruct (lateWithoutAcknowledgment _); [done|].
      rewrite bind_run.
      pose proof (run_target_exact host (ApplyTeamDecision id (toDecisionInput d)) w id
                    eq_refl) as H.
      unfold returned, run in H.
      destruct (findIndex (hasId id) (store w)) as [index|].
      * destruct H as (current & _ & H).
        destruct (latches _ && _); destruct H as [_ ->];
          destruct (hasValidContractorEmail host _); cbn [negb]; by rewrite bind_run.
      * by destruct H as [-> ->].
Qed.

(** ** Decisions in a row *)

(** X27. A request for more information leaves the record open, and a
    decision that follows it overwrites it without a trace: the statuses, the
    decision fields, the requested items and the texts of the notification
    are those that the second decision would have written on the record, had
    the request for more information not been made. *)
Theorem decision_after_request_for_information (host : Host) (w : World) (id : string)
    (current : StoredChangeOrder) (decidedBy decisionExplanation : string)
    (contractorFacingMessage : option string) (needsInfoChecklist : list string)
    (decision : DecisionInput) :
  find (hasId id) (store w) = Some current →
  StoredChangeOrder.isFinalized current = false →
  let first :=
    applyTeamDecision host id
      (NEEDS_INFO decidedBy decisionExplanation contractorFacingMessage needsInfoChecklist)
      w in
  let second := applyTeamDecision host id decision first.2 in
  ∃ requested next,
    first.1 = Some requested
    ∧ StoredChangeOrder.isFinalized requested = false
    ∧ StoredChangeOrder.needsInfoChecklist requested = needsInfoChecklist
    ∧ second.1 = Some next
    ∧ find (hasId id) (store second.2) = Some next
    ∧ carries decision (toISOString host (clock first.2 0%nat)) next
    ∧ sameDecision next
        (decided host decision (toISOString host (clock first.2 0%nat)) current).
Proof.
  intros Hfind Hfin first second.
  destruct (find_findIndex _ _ _ Hfind) as (index & Hindex & Hlookup).
  pose proof (find_Some_holds _ _ _ Hfind) as Hid.
  pose proof (run_target_exact host
                (ApplyTeamDecision id
                   (NEEDS_INFO decidedBy decisionExplanation contractorFacingMessage
                      needsInfoChecklist)) w id eq_refl) as Hfirst.
  rewrite Hindex in Hfirst. destruct Hfirst as (current' & Hcurrent & Hfirst).
  rewrite Hlookup in Hcurrent. injection Hcurrent as <-.
  cbn [latches andb changed returned run] in Hfirst. rewrite Hfin in Hfirst.
  fold first in Hfirst. destruct Hfirst as [Hstore1 Hret1].
  set (requested := decided host _ _ current) in *.
  assert (hasId id requested = true ∧ StoredChangeOrder.isFinalized requested = false)
    as [Hid1 Hfin1] by (unfold hasId in *; by destruct current).
  assert (findIndex (hasId id) (store first.2) = Some index) as Hindex1
    by (rewrite Hstore1; by apply findIndex_insert).
  pose proof (run_target_exact host (ApplyTeamDecision id decision) first.2 id eq_refl)
    as Hsecond.
  rewrite Hindex1 in Hsecond. destruct Hsecond as (current' & Hcurrent & Hsecond).
  rewrite Hstore1, list_lookup_insert_eq in Hcurrent
    by (by apply lookup_lt_Some with current).
  injection Hcurrent as <-.
  cbn [latches andb changed returned run] in Hsecond. rewrite Hfin1 in Hsecond.
  fold second in Hsecond. destruct Hsecond as [Hstore2 Hret2].
  eexists requested, _. split; [done|]. split; [done|].
  split; [by destruct current|]. split; [exact Hret2|].
  split; [rewrite Hstore2; apply find_insert; [done|];
          unfold hasId in *; by destruct current, decision|].
  split; [by destruct current, decision|].
  unfold sameDecision. by destruct current, decision.
Qed.

(** ** The submit route that notifies the team *)

(** X28. The submit route that notifies the team stores what the submit
    route stores and answers what it answers, with the notification added:
    the notification changes neither the record nor the store, and a
    submission is stored whether or not the team could be notified. *)
Theorem notified_POST_stores_as_submit_POST (host : Host) (notifier : Notifier)
    (payload : ChangeOrderInput) (w : World) :
  (notified_POST host notifier payload w).2 = (submit_POST host payload w).2
  ∧ withoutNotification (notified_POST host notifier payload w).1
    = (submit_POST host payload w).1.
Proof.
  unfold notified_POST, submit_POST.
  destruct (changeOrderInputSchema host payload) as [data|]; [|done].
  rewrite !bind_run. by destruct (0 <? length _)%nat.
Qed.

Lemma or_else_empty (s : string) : or_else s "" = s.
Proof. by destruct s. Qed.

Lemma markup_substring_of (x s : string) :
  substring_of x s → substring_of (markup x) (markup s).
Proof. intros (pre & post & ->). rewrite !markup_app. by eexists _, _. Qed.

(** The message that the route hands to the mail transport. *)
Lemma sendTeamSubmissionNotification_message (host : Host) (notifier : Notifier)
    (input : ChangeOrderInput) (submissionStatus : SubmissionStatus)
    (blockingReasons : option (list string)) :
  blank (nullish (NEW_CO_NOTIFY_TO notifier) "") = false →
  ∃ message html,
    sendTeamSubmissionNotification host notifier input submissionStatus blockingReasons
    = reported (trim (nullish (NEW_CO_NOTIFY_TO notifier) "")) (sendEmail notifier message)
    ∧ EmailMessage.to message = trim (nullish (NEW_CO_NOTIFY_TO notifier) "")
    ∧ EmailMessage.subject message
      = "New change order "
        +:+ (if bool_decide (submissionStatus = SubmissionStatus.SUBMITTED)
             then "submitted" else "blocked")
        +:+ " - " +:+ ChangeOrderInput.projectId input
    ∧ EmailMessage.html message = Some html
    ∧ substring_of (ChangeOrderInput.projectId input) html
    ∧ substring_of (ChangeOrderInput.contractorName input) html
    ∧ substring_of (ChangeOrderInput.contractorEmail input) html
    ∧ substring_of (ChangeOrderInput.workPerformedAt input) html
    ∧ (∀ reason, reason ∈ listedReasons submissionStatus blockingReasons →
                 substring_of reason html).
Proof.
  intros Hto. unfold sendTeamSubmissionNotification. cbv zeta.
  rewrite or_else_empty, truthy_trim, Hto. cbn [negb].
  eexists _, _. split; [reflexivity|]. cbn [EmailMessage.to EmailMessage.subject
                                             EmailMessage.html].
  split; [done|]. split; [by destruct (bool_decide _)|]. split; [reflexivity|].
  split; [find_substring|]. split; [find_substring|]. split; [find_substring|].
  split; [find_substring|].
  intros reason Hreason. unfold listedReasons in Hreason.
  destruct submissionStatus; try by apply elem_of_nil in Hreason.
  change (bool_decide (SubmissionStatus.BLOCKED = SubmissionStatus.BLOCKED)) with true.
  cbn [andb].
  destruct blockingReasons as [reasons|]; [|by apply elem_of_nil in Hreason].
  simpl in Hreason. rewrite (nonempty_list_length _ _ Hreason).
  pose proof (substring_of_join
                (λ reason, tpl "<li style=`margin:0 0 6px;`>" +:+ reason +:+ "</li>")
                (λ reason, reason) "" _ _
                (λ y, substring_of_skip _ _ _ (substring_of_here _ _)) Hreason) as Hitems.
  cbn [nullish]. find_substring_in Hitems.
Qed.

(** X29. The team is notified exactly when the environment names a
    recipient: with [NEW_CO_NOTIFY_TO] unset or blank the notification is
    [SKIPPED], with the error that says so, whatever the submission; with a
    recipient, the message goes to the trimmed address under the subject
    "New change order submitted - " or "New change order blocked - " followed
    by the project identifier, and the notification reports what the mail
    transport returned: [SENT] or [FAILED], the mode, the preview address and
    the error. *)
Theorem team_notification_is_skipped_or_reported (host : Host) (notifier : Notifier)
    (input : ChangeOrderInput) (submissionStatus : SubmissionStatus)
    (blockingReasons : option (list string)) :
  let to := trim (nullish (NEW_CO_NOTIFY_TO notifier) "") in
  let notification :=
    sendTeamSubmissionNotification host notifier input submissionStatus blockingReasons in
  if blank (nullish (NEW_CO_NOTIFY_TO notifier) "")
  then notification = skipped
  else ∃ message,
         notification = reported to (sendEmail notifier message)
         ∧ EmailMessage.to message = to
         ∧ EmailMessage.subject message
           = "New change order "
             +:+ (if bool_decide (submissionStatus = SubmissionStatus.SUBMITTED)
                  then "submitted" else "blocked")
             +:+ " - " +:+ ChangeOrderInput.projectId input.
Proof.
  cbv zeta. destruct (blank (nullish (NEW_CO_NOTIFY_TO notifier) "")) eqn:Hto.
  - unfold sendTeamSubmissionNotification. cbv zeta.
    by rewrite or_else_empty, truthy_trim, Hto.
  - destruct (sendTeamSubmissionNotification_message host notifier input submissionStatus
                blockingReasons Hto) as (message & html & H1 & H2 & H3 & _).
    by exists message.
Qed.

(** X30. The HTML body of the notification to the team holds the texts of
    the submission as they are, without [escapeHtml]: the project identifier,
    the contractor name, the contractor e-mail, the time of the work and, for
    a blocked submission, each blocking reason. The markup characters of the
    project identifier and of the contractor name are thereby markup
    characters of the body. *)
Theorem team_notification_fields_are_not_escaped (host : Host) (notifier : Notifier)
    (input : ChangeOrderInput) (submissionStatus : SubmissionStatus)
    (blockingReasons : option (list string)) :
  blank (nullish (NEW_CO_NOTIFY_TO notifier) "") = false →
  ∃ message html,
    sendTeamSubmissionNotification host notifier input submissionStatus blockingReasons
    = reported (trim (nullish (NEW_CO_NOTIFY_TO notifier) "")) (sendEmail notifier message)
    ∧ EmailMessage.html message = Some html
    ∧ substring_of (ChangeOrderInput.projectId input) html
    ∧ substring_of (ChangeOrderInput.contractorName input) html
    ∧ substring_of (ChangeOrderInput.contractorEmail input) html
    ∧ substring_of (ChangeOrderInput.workPerformedAt input) html
    ∧ (∀ reason, reason ∈ listedReasons submissionStatus blockingReasons →
                 substring_of reason html)
    ∧ substring_of (markup (ChangeOrderInput.projectId input)) (markup html)
    ∧ substring_of (markup (ChangeOrderInput.contractorName input)) (markup html).
Proof.
  intros Hto.
  destruct (sendTeamSubmissionNotification_message host notifier input submissionStatus
              blockingReasons Hto)
    as (message & html & H1 & _ & _ & H4 & H5 & H6 & H7 & H8 & H9).
  exists message, html. repeat (split; [assumption|]).
  split; by apply markup_substring_of.
Qed.

(** ** The properties at sample data *)

Lemma finalized_record_is_latched_witness :
  ∃ current,
    find (hasId sampleId) (store approvedWorld) = Some current
    ∧ StoredChangeOrder.isFinalized current = true
    ∧ (∀ decision,
         applyTeamDecision TestHost.host sampleId decision approvedWorld
         = (Some current, approvedWorld))
    ∧ (∀ updates,
         updateTeamQueueItem TestHost.host sampleId updates approvedWorld
         = (Some current, approvedWorld)).
Proof.
  eexists. split; [vm_compute; reflexivity|]. split; [reflexivity|].
  apply finalized_record_is_latched; [vm_compute; reflexivity|reflexivity].
Defined.

Lemma isPast24Hours_strictly_after_24h_witness :
  (isPast24Hours TestHost.host "yesterday" (TestHost.world oneAM)).1 = true
  ∧ (isPast24Hours TestHost.host "2024-01-01T00:00:00.000Z"
       (TestHost.world (1704067200000 + 24 * 60 * 60 * 1000))).1 = false
  ∧ (isPast24Hours TestHost.host "2024-01-01T00:00:00.000Z"
       (TestHost.world (1704067200000 + 24 * 60 * 60 * 1000 + 1000))).1 = true.
Proof.
  split; [|split].
  - apply (proj1 (isPast24Hours_strictly_after_24h TestHost.host
                    (TestHost.world oneAM) "yesterday")).
    vm_compute. reflexivity.
  - apply (proj2 (isPast24Hours_strictly_after_24h TestHost.host
                    (TestHost.world (1704067200000 + 24 * 60 * 60 * 1000))
                    "2024-01-01T00:00:00.000Z") 1704067200000);
      vm_compute; reflexivity.
  - apply (proj2 (isPast24Hours_strictly_after_24h TestHost.host
                    (TestHost.world (1704067200000 + 24 * 60 * 60 * 1000 + 1000))
                    "2024-01-01T00:00:00.000Z") 1704067200000);
      vm_compute; reflexivity.
Defined.

Lemma unit_price_unclear_iff_witness :
  hasCode "unit_price_unclear" (evaluateChecklist freeInput)
  ∧ (ChecklistViolation.code <$> evaluateChecklist freeInput) = ["unit_price_unclear"]
  ∧ (ChecklistViolation.code <$> evaluateChecklist sampleInput) = [].
Proof.
  split; [|split; vm_compute; reflexivity].
  apply (proj2 (unit_price_unclear_iff freeInput)). split; vm_compute; reflexivity.
Defined.

Lemma updateDecisionEmailDelivery_overwrites_witness :
  let w := (updateDecisionEmailDelivery TestHost.host sampleId sentBySmtp approvedWorld).2 in
  ∃ stored next,
    find (hasId sampleId) (store w) = Some stored
    ∧ StoredChangeOrder.decisionEmailMode stored = Some DecisionEmailMode.smtp
    ∧ (updateDecisionEmailDelivery TestHost.host sampleId failedDelivery w).1 = Some next
    ∧ find (hasId sampleId)
        (store (updateDecisionEmailDelivery TestHost.host sampleId failedDelivery w).2)
      = Some next
    ∧ StoredChangeOrder.decisionEmailSentAt next = Some "2024-01-01T01:00:00.006Z"
    ∧ StoredChangeOrder.decisionEmailStatus next = DecisionEmailStatus.FAILED
    ∧ StoredChangeOrder.decisionEmailError next = Some "Mailbox unavailable"
    ∧ StoredChangeOrder.decisionEmailPreviewUrl next = None
    ∧ StoredChangeOrder.decisionEmailMode next = None.
Proof.
  cbv zeta. eexists.
  match goal with
  | |- ∃ next, ?F = Some ?stored ∧ _ =>
      assert (F = Some stored) as Hfind by (vm_compute; reflexivity)
  end.
  destruct (updateDecisionEmailDelivery_overwrites TestHost.host _ sampleId _
              failedDelivery Hfind)
    as (next & Hret & Hstore & HsentAt & Hstatus & Herror & Hpreview & Hmode).
  exists next. split; [exact Hfind|]. split; [reflexivity|].
  split; [exact Hret|]. split; [exact Hstore|]. split; [exact HsentAt|].
  split; [exact Hstatus|]. split; [exact Herror|]. split; [exact Hpreview|exact Hmode].
Defined.

Lemma updateDecisionEmailDelivery_last_write_wins_witness :
  ∃ stored next1 next2,
    find (hasId sampleId) (store approvedWorld) = Some stored
    ∧ StoredChangeOrder.isFinalized stored = true
    ∧ (updateDecisionEmailDelivery TestHost.host sampleId sentBySmtp approvedWorld).1
      = Some next1
    ∧ (updateDecisionEmailDelivery TestHost.host sampleId failedDelivery
         (updateDecisionEmailDelivery TestHost.host sampleId sentBySmtp approvedWorld).2).1
      = Some next2
    ∧ StoredChangeOrder.decisionEmailStatus next2 = DecisionEmailStatus.FAILED
    ∧ StoredChangeOrder.decisionEmailError next2 = Some "Mailbox unavailable"
    ∧ StoredChangeOrder.decisionEmailPreviewUrl next2 = None
    ∧ StoredChangeOrder.decisionEmailMode next2 = None
    ∧ StoredChangeOrder.updatedAt next1 = "2024-01-01T01:00:00.005Z"
    ∧ StoredChangeOrder.updatedAt next2 = "2024-01-01T01:00:00.007Z".
Proof.
  eexists.
  match goal with
  | |- ∃ next1 next2, ?F = Some ?stored ∧ _ =>
      assert (F = Some stored) as Hfind by (vm_compute; reflexivity)
  end.
  destruct (updateDecisionEmailDelivery_last_write_wins TestHost.host _ sampleId _
              sentBySmtp failedDelivery Hfind)
    as (next1 & next2 & Hret1 & Hret2 & _ & Hstatus & _ & Herror & Hpreview & Hmode
        & Hupdated1 & Hupdated2 & _).
  exists next1, next2. split; [exact Hfind|]. split; [reflexivity|].
  split; [exact Hret1|]. split; [exact Hret2|]. split; [exact Hstatus|].
  split; [exact Herror|]. split; [exact Hpreview|]. split; [exact Hmode|].
  split; [exact Hupdated1|exact Hupdated2].
Defined.

Lemma submit_creates_record_witness :
  changeOrderInputSchema TestHost.host blockedInput = Some blockedInput
  ∧ changeOrderInputSchema TestHost.host sampleInput = Some sampleInput
  ∧ (∃ record,
       store blockedWorld = [record]
       ∧ (submit_POST TestHost.host blockedInput (TestHost.world oneAM)).1
         = Submit_blocked_422 record ["At least one supporting photo is required."]
       ∧ StoredChangeOrder.status record = SubmissionStatus.BLOCKED
       ∧ StoredChangeOrder.blockingReasons record
         = Some ["At least one supporting photo is required."]
       ∧ StoredChangeOrder.id record = blockedId)
  ∧ (∃ record,
       store (submit_POST TestHost.host sampleInput (TestHost.world oneAM)).2 = [record]
       ∧ (submit_POST TestHost.host sampleInput (TestHost.world oneAM)).1
         = Submit_ok_200 record
       ∧ StoredChangeOrder.status record = SubmissionStatus.SUBMITTED
       ∧ StoredChangeOrder.submittedAt record = Some "2024-01-01T01:00:00.004Z").
Proof.
  assert (changeOrderInputSchema TestHost.host blockedInput = Some blockedInput)
    as Hblocked by (vm_compute; reflexivity).
  assert (changeOrderInputSchema TestHost.host sampleInput = Some sampleInput)
    as Hsample by (vm_compute; reflexivity).
  split; [exact Hblocked|]. split; [exact Hsample|]. split.
  - destruct (submit_creates_record TestHost.host (TestHost.world oneAM)
                blockedInput blockedInput Hblocked)
      as (record & Hstore & _ & Hreasons & Hid & _).
    vm_compute in Hreasons. destruct Hreasons as (Hresponse & Hstatus & _ & Hblocking).
    exists record. split; [exact Hstore|]. split; [vm_compute; exact Hresponse|].
    split; [exact Hstatus|]. split; [exact Hblocking|]. exact Hid.
  - destruct (submit_creates_record TestHost.host (TestHost.world oneAM)
                sampleInput sampleInput Hsample)
      as (record & Hstore & _ & Hreasons & _).
    vm_compute in Hreasons. destruct Hreasons as (Hresponse & Hstatus & Hsubmitted & _).
    exists record. split; [exact Hstore|]. split; [vm_compute; exact Hresponse|].
    split; [exact Hstatus|exact Hsubmitted].
Defined.

Lemma notification_fields_are_escaped_witness :
  ∃ record,
    find (hasId sampleId) (store approvedWorld) = Some record
    ∧ contractorNameOf record = "Pat <pat>"
    ∧ escapeHtml "Pat <pat>" = "Pat &lt;pat&gt;"
    ∧ occurs "<" (escapeHtml "Pat <pat>") = false
    ∧ substring_of "Pat &lt;pat&gt;"
        (EmailContent.html (buildDecisionEmailContent TestHost.host record))
    ∧ substring_of "Pat <pat>"
        (EmailContent.body (buildDecisionEmailContent TestHost.host record)).
Proof.
  eexists. split; [vm_compute; reflexivity|]. split; [reflexivity|].
  split; [reflexivity|].
  destruct (notification_fields_are_escaped TestHost.host) as (Hescape & Hfields & _).
  split; [apply Hescape|]. apply Hfields.
Defined.

Lemma unknown_identifier_is_null_witness :
  getChangeOrderById "co_0_0" submittedWorld = (None, submittedWorld)
  ∧ (∀ updates,
       updateTeamQueueItem TestHost.host "co_0_0" updates submittedWorld
       = (None, submittedWorld))
  ∧ (∀ decision,
       applyTeamDecision TestHost.host "co_0_0" decision submittedWorld
       = (None, submittedWorld))
  ∧ (∀ delivery,
       updateDecisionEmailDelivery TestHost.host "co_0_0" delivery submittedWorld
       = (None, submittedWorld)).
Proof.
  apply (unknown_identifier_is_null TestHost.host submittedWorld "co_0_0").
  vm_compute. reflexivity.
Defined.

Lemma saved_record_is_found_unless_shadowed_witness :
  ∃ record,
    returned TestHost.host (SaveDraft sampleInput) submittedWorld = Some record
    ∧ store (run TestHost.host (SaveDraft sampleInput) submittedWorld)
      = store submittedWorld ++ [record]
    ∧ isNew record
    ∧ (getChangeOrderById (StoredChangeOrder.id record)
         (run TestHost.host (SaveDraft sampleInput) submittedWorld)).1
      = Some (nullish (find (hasId (StoredChangeOrder.id record)) (store submittedWorld))
                record).
Proof.
  apply (saved_record_is_found_unless_shadowed TestHost.host (SaveDraft sampleInput)
           submittedWorld).
  reflexivity.
Defined.

Lemma finalized_record_keeps_its_decision_witness :
  ∃ record,
    store approvedWorld !! 0%nat = Some record
    ∧ StoredChangeOrder.isFinalized record = true
    ∧ ∃ record',
        store (run TestHost.host (UpdateDecisionEmailDelivery sampleId failedDelivery)
                 approvedWorld) !! 0%nat = Some record'
        ∧ sameDecision record record'
        ∧ StoredChangeOrder.reviewerNotes record' = StoredChangeOrder.reviewerNotes record
        ∧ origin record' = origin record.
Proof.
  eexists. split; [vm_compute; reflexivity|]. split; [reflexivity|].
  apply (finalized_record_keeps_its_decision TestHost.host
           (UpdateDecisionEmailDelivery sampleId failedDelivery) approvedWorld 0%nat);
    [vm_compute; reflexivity|reflexivity].
Defined.

Lemma approvedWorld_reachable : reachable TestHost.host approvedWorld.
Proof.
  unfold approvedWorld, submittedWorld. do 2 apply reachable_run.
  by apply reachable_empty.
Qed.

Lemma reachable_finalized_iff_decided_witness :
  Forall finalizedIffDecided (store approvedWorld).
Proof.
  apply (reachable_finalized_iff_decided TestHost.host approvedWorld).
  apply approvedWorld_reachable.
Defined.

Lemma reachable_decision_fields_fit_witness :
  Forall decisionFieldsFit (store approvedWorld).
Proof.
  apply (reachable_decision_fields_fit TestHost.host approvedWorld).
  apply approvedWorld_reachable.
Defined.

Lemma reachable_notification_is_current_witness :
  Forall (notificationIsCurrent TestHost.host) (store approvedWorld).
Proof.
  apply (reachable_notification_is_current TestHost.host approvedWorld).
  apply approvedWorld_reachable.
Defined.


Lemma accepted_payload_passes_quantity_and_pricing_witness :
  ¬ hasCode "quantity_missing" (evaluateChecklist sampleInput)
  ∧ ¬ hasCode "pricing_invalid" (evaluateChecklist sampleInput).
Proof.
  apply (accepted_payload_passes_quantity_and_pricing TestHost.host sampleInput sampleInput).
  vm_compute. reflexivity.
Defined.

Lemma incomplete_draft_is_not_submittable_witness :
  changeOrderInputSchema TestHost.host (normalizeDraftInput emptyDraft) = None.
Proof.
  apply (incomplete_draft_is_not_submittable TestHost.host emptyDraft).
  left. reflexivity.
Defined.

Lemma decidedWorld_served : served TestHost.host decidedWorld.
Proof.
  unfold decidedWorld, servedWorld. do 2 apply served_request. by apply served_empty.
Qed.

Lemma served_status_tells_creation_witness :
  Forall (λ record,
            createdByRoute TestHost.host record
            ∧ (StoredChangeOrder.status record ≠ SubmissionStatus.DRAFT →
               hasValidContractorEmail TestHost.host record = true))
    (store decidedWorld).
Proof.
  apply (served_status_tells_creation TestHost.host decidedWorld).
  apply decidedWorld_served.
Defined.




Lemma decision_after_request_for_information_witness :
  ∃ current,
    find (hasId sampleId) (store submittedWorld) = Some current
    ∧ StoredChangeOrder.isFinalized current = false
    ∧ let first :=
        applyTeamDecision TestHost.host sampleId
          (NEEDS_INFO "Riley" "The supplier invoice is missing" None ["Supplier invoice"])
          submittedWorld in
      let second := applyTeamDecision TestHost.host sampleId approveDecision first.2 in
      ∃ requested next,
        first.1 = Some requested
        ∧ StoredChangeOrder.isFinalized requested = false
        ∧ StoredChangeOrder.needsInfoChecklist requested = ["Supplier invoice"]
        ∧ second.1 = Some next
        ∧ find (hasId sampleId) (store second.2) = Some next
        ∧ carries approveDecision (toISOString TestHost.host (clock first.2 0%nat)) next
        ∧ sameDecision next
            (decided TestHost.host approveDecision
               (toISOString TestHost.host (clock first.2 0%nat)) current).
Proof.
  eexists. split; [vm_compute; reflexivity|]. split; [reflexivity|].
  apply (decision_after_request_for_information TestHost.host submittedWorld sampleId);
    [vm_compute; reflexivity|reflexivity].
Defined.

Lemma team_notification_fields_are_not_escaped_witness :
  ∃ message html,
    sendTeamSubmissionNotification TestHost.host teamNotifier sampleInput
      SubmissionStatus.SUBMITTED None
    = reported (trim (nullish (NEW_CO_NOTIFY_TO teamNotifier) ""))
        (sendEmail teamNotifier message)
    ∧ EmailMessage.html message = Some html
    ∧ substring_of (ChangeOrderInput.projectId sampleInput) html
    ∧ substring_of (ChangeOrderInput.contractorName sampleInput) html
    ∧ substring_of (ChangeOrderInput.contractorEmail sampleInput) html
    ∧ substring_of (ChangeOrderInput.workPerformedAt sampleInput) html
    ∧ (∀ reason, reason ∈ listedReasons SubmissionStatus.SUBMITTED None →
                 substring_of reason html)
    ∧ substring_of (markup (ChangeOrderInput.projectId sampleInput)) (markup html)
    ∧ substring_of (markup (ChangeOrderInput.contractorName sampleInput)) (markup html).
Proof.
  apply (team_notification_fields_are_not_escaped TestHost.host teamNotifier sampleInput
           SubmissionStatus.SUBMITTED None).
  reflexivity.
Defined.
